(** * Push notification dispatch (server/notifications.ts)

    A shallow embedding of the three exported functions of
    [server/notifications.ts] -- [sendPushNotification],
    [sendNotificationMessage] and [processPendingNotifications] -- together
    with the collaborators they call: the storage layer ([./storage]) and the
    push gateway ([expo-server-sdk]).

    Every [await] of the source is a bind of the [Promise] monad below: a
    computation takes the world (the two database tables, the clock, the
    database connection, the gateway and the log of calls made so far) and
    yields the new world with either a returned value or a thrown JavaScript
    error. *)

From Stdlib Require Import String Ascii DecimalString.
From Stdlib Require Import Arith Bool Lia ZArith List.
Import ListNotations.
Set Warnings "-register-all,-notation-for-abbreviation".
Open Scope string_scope.
Open Scope list_scope.
Open Scope nat_scope.

(** ** Data model (shared/schema.ts) *)

(** Row of the [device_registrations] table.  Timestamps are natural numbers
    (milliseconds, as [Date] has them); a nullable column is an [option]. *)
Module DeviceRegistration.
Record t := mk {
    id : string;
    userId : string;
    expoPushToken : string;
    platform : string;
    deviceModel : option string;
    osVersion : option string;
    appVersion : option string;
    enabled : bool;
    lastNotifiedAt : option nat;
    createdAt : nat;
    updatedAt : nat
  }.
End DeviceRegistration.

(** Row of the [notification_messages] table.  [status] is a varchar column,
    hence a string here too. *)
Module NotificationMessage.
Record t := mk {
    id : string;
    title : string;
    body : string;
    data : option string;
    category : option string;
    audienceType : string;
    status : string;
    scheduledFor : option nat;
    sentAt : option nat;
    createdBy : option string;
    successCount : option nat;
    failureCount : option nat;
    createdAt : nat;
    updatedAt : nat
  }.
End NotificationMessage.

(** [interface SendResult] of notifications.ts. *)
Module SendResult.
Record t := mk {
    successCount : nat;
    failureCount : nat;
    errors : list string
  }.
End SendResult.

(** A parsed JSON payload ([Record<string, any>] at the type level, anything
    [JSON.parse] can produce at run time).  Numbers are kept as integers: no
    function of this file inspects a payload beyond its truthiness. *)
Inductive JsonValue :=
| JNull
| JBool (b : bool)
| JNumber (n : Z)
| JString (s : string)
| JArray (items : list JsonValue)
| JObject (fields : list (string * JsonValue)).

(** JavaScript truthiness of a string and of a JSON value. *)
Definition truthy_string (s : string) : bool :=
  match s with EmptyString => false | _ => true end.

Definition truthy (v : JsonValue) : bool :=
  match v with
  | JNull => false
  | JBool b => b
  | JNumber n => negb (Z.eqb n 0)
  | JString s => truthy_string s
  | JArray _ => true
  | JObject _ => true
  end.

(** A thrown JavaScript [Error], and [String(error)] as
    [Error.prototype.toString] renders it. *)
Module JsError.
Record t := mk { name : string; message : string }.
End JsError.

Definition String_of_error (e : JsError.t) : string :=
  match JsError.name e, JsError.message e with
  | EmptyString, m => m
  | n, EmptyString => n
  | n, m => (n ++ ": " ++ m)%string
  end.

Definition TypeError (m : string) : JsError.t := JsError.mk "TypeError" m.

(** What [JSON.parse] does with a text: it yields the value or throws the
    engine's [SyntaxError]. *)
Inductive ParseOutcome :=
| Parses (v : JsonValue)
| ParseThrows (e : JsError.t).

(** ** The push gateway (expo-server-sdk) *)

(** [ExpoPushMessage] as notifications.ts builds it: one recipient. *)
Module ExpoPushMessage.
Record t := mk {
    to : string;
    sound : string;
    title : string;
    body : string;
    data : JsonValue
  }.
End ExpoPushMessage.

(** [ExpoPushTicket]: a success ticket, or an error ticket whose [details]
    and [details.error] are both optional. *)
Record ErrorDetails := { error : option string }.

Inductive ExpoPushTicket :=
| SuccessTicket (id : string)
| ErrorTicket (message : string) (details : option ErrorDetails).

(** [ticket.details?.error] *)
Definition details_error (details : option ErrorDetails) : option string :=
  match details with
  | Some d => error d
  | None => None
  end.

(** What one call of [expo.sendPushNotificationsAsync] does: it resolves to a
    list of tickets or it throws. *)
Inductive GatewayResponse :=
| Resolves (tickets : list ExpoPushTicket)
| Rejects (error : JsError.t).

(** ** The world *)

(** Calls made on the two collaborators, in the order they were made.  The
    log is a ghost field: with it, that a storage operation is invoked on a
    given row is a statement about the world.  A call is logged when it is
    made, whether it then resolves or rejects. *)
Inductive Call :=
| GetDeviceByToken (token : string)
| GetDevicesForUser (userId : string)
| GetEnabledDevices
| UpdateDeviceLastNotified (id : string)
| UnregisterDevice (token : string)
| GetNotificationMessage (id : string)
| GetPendingNotifications
| UpdateNotificationStatus (id status : string)
    (successCount failureCount : option nat)
| SendPushNotificationsAsync (chunk : list ExpoPushMessage.t).

(** The two tables and what the dispatcher finds around it:
    - the clock: [clock n] is what the n-th [new Date()] reads, [ticks] the
      number of readings taken so far;
    - the database connection: [database n] is [None] when the n-th query
      is executed and the error the query rejects with otherwise, [queries]
      the number of queries issued so far;
    - the gateway: [gateway n] is its answer to its n-th submission,
      [submitted] the number of submissions it has received;
    - the log of calls. *)
Record World := mkWorld {
  devices : list DeviceRegistration.t;
  messages : list NotificationMessage.t;
  clock : nat -> nat;
  ticks : nat;
  database : nat -> option JsError.t;
  queries : nat;
  gateway : nat -> GatewayResponse;
  submitted : nat;
  calls : list Call
}.

Definition record_call (c : Call) (w : World) : World :=
  mkWorld (devices w) (messages w) (clock w) (ticks w) (database w)
          (queries w) (gateway w) (submitted w) (calls w ++ [c]).

Definition set_devices (ds : list DeviceRegistration.t) (w : World) : World :=
  mkWorld ds (messages w) (clock w) (ticks w) (database w) (queries w)
          (gateway w) (submitted w) (calls w).

Definition set_messages (ms : list NotificationMessage.t) (w : World) : World :=
  mkWorld (devices w) ms (clock w) (ticks w) (database w) (queries w)
          (gateway w) (submitted w) (calls w).

Definition next_tick (w : World) : World :=
  mkWorld (devices w) (messages w) (clock w) (S (ticks w)) (database w)
          (queries w) (gateway w) (submitted w) (calls w).

Definition next_query (w : World) : World :=
  mkWorld (devices w) (messages w) (clock w) (ticks w) (database w)
          (S (queries w)) (gateway w) (submitted w) (calls w).

Definition next_submission (w : World) : World :=
  mkWorld (devices w) (messages w) (clock w) (ticks w) (database w)
          (queries w) (gateway w) (S (submitted w)) (calls w).

(** ** Promises *)

Inductive Outcome (A : Type) :=
| Returned (a : A)
| Thrown (e : JsError.t).
Arguments Returned {A} a.
Arguments Thrown {A} e.

Definition Promise (A : Type) : Type := World -> World * Outcome A.

Definition resolve {A} (a : A) : Promise A := fun w => (w, Returned a).

Definition throw {A} (e : JsError.t) : Promise A := fun w => (w, Thrown e).

Definition await {A B} (p : Promise A) (k : A -> Promise B) : Promise B :=
  fun w =>
    match p w with
    | (w1, Returned a) => k a w1
    | (w1, Thrown e) => (w1, Thrown e)
    end.

(** [try { p } catch (error) { h }] *)
Definition try_catch {A} (p : Promise A) (h : JsError.t -> Promise A)
  : Promise A :=
  fun w =>
    match p w with
    | (w1, Returned a) => (w1, Returned a)
    | (w1, Thrown e) => h e w1
    end.

Declare Scope promise_scope.
Delimit Scope promise_scope with promise.
Notation "x <- p ;; k" := (await p (fun x => k))
  (at level 61, p at next level, right associativity) : promise_scope.
Notation "p ;;; k" := (await p (fun _ => k))
  (at level 61, right associativity) : promise_scope.
Open Scope promise_scope.

(** [Promise.all(xs.map(f))]: [map] makes every call, left to right,
    whatever the others do; the promise resolves to the results in order
    when all of them resolve and rejects when one of them rejects -- with
    the error of the first call of the list that rejected (JavaScript takes
    the one that rejected first in time). *)
Fixpoint Promise_all_map {A B} (f : A -> Promise B) (xs : list A)
  : Promise (list B) :=
  match xs with
  | [] => resolve []
  | x :: rest =>
      fun w =>
        match f x w with
        | (w1, Returned b) =>
            match Promise_all_map f rest w1 with
            | (w2, Returned bs) => (w2, Returned (b :: bs))
            | (w2, Thrown e) => (w2, Thrown e)
            end
        | (w1, Thrown e) => (fst (Promise_all_map f rest w1), Thrown e)
        end
  end.

(** ** Storage (server/storage.ts, class [DatabaseStorage])

    The text of [server/storage.ts] is the second document of
    [attached_assets/CarbScan_User_Authentication_&_Database_Integration_1767313317873.md],
    lines 240-416; the line numbers given below are those of that file. *)

(** The log entry of a call. *)
Definition called (c : Call) : Promise unit :=
  fun w => (record_call c w, Returned tt).

(** [new Date()] *)
Definition new_Date : Promise nat :=
  fun w => (next_tick w, Returned (clock w (ticks w))).

(** [await db.<query>]: the database executes the query -- [run] is what
    the query does to the tables and what it yields -- or rejects it, and
    then the tables are as they were. *)
Definition db_await {A} (run : World -> World * A) : Promise A :=
  fun w =>
    match database w (queries w) with
    | None => let (w1, a) := run (next_query w) in (w1, Returned a)
    | Some e => (next_query w, Thrown e)
    end.

(** [db.select().from(deviceRegistrations).where(...)] *)
Definition select_devices (where_ : DeviceRegistration.t -> bool)
  : World -> World * list DeviceRegistration.t :=
  fun w => (w, filter where_ (devices w)).

(** [db.select().from(notificationMessages).where(...)] *)
Definition select_messages (where_ : NotificationMessage.t -> bool)
  : World -> World * list NotificationMessage.t :=
  fun w => (w, filter where_ (messages w)).

(** [db.update(deviceRegistrations).set(...).where(...)] *)
Definition update_devices (set : DeviceRegistration.t -> DeviceRegistration.t)
  (where_ : DeviceRegistration.t -> bool) : World -> World * unit :=
  fun w =>
    (set_devices (map (fun d => if where_ d then set d else d) (devices w)) w,
     tt).

(** [db.update(notificationMessages).set(...).where(...)] *)
Definition update_messages
  (set : NotificationMessage.t -> NotificationMessage.t)
  (where_ : NotificationMessage.t -> bool) : World -> World * unit :=
  fun w =>
    (set_messages (map (fun m => if where_ m then set m else m) (messages w)) w,
     tt).

(** [.set({ lastNotifiedAt: new Date(), updatedAt: new Date() })] *)
Definition touch_notified (lastNotifiedAt updatedAt : nat)
  (d : DeviceRegistration.t) : DeviceRegistration.t :=
  DeviceRegistration.mk
    (DeviceRegistration.id d) (DeviceRegistration.userId d)
    (DeviceRegistration.expoPushToken d) (DeviceRegistration.platform d)
    (DeviceRegistration.deviceModel d) (DeviceRegistration.osVersion d)
    (DeviceRegistration.appVersion d) (DeviceRegistration.enabled d)
    (Some lastNotifiedAt) (DeviceRegistration.createdAt d) updatedAt.

(** [.set({ enabled: false, updatedAt: new Date() })] *)
Definition disable (updatedAt : nat) (d : DeviceRegistration.t)
  : DeviceRegistration.t :=
  DeviceRegistration.mk
    (DeviceRegistration.id d) (DeviceRegistration.userId d)
    (DeviceRegistration.expoPushToken d) (DeviceRegistration.platform d)
    (DeviceRegistration.deviceModel d) (DeviceRegistration.osVersion d)
    (DeviceRegistration.appVersion d) false
    (DeviceRegistration.lastNotifiedAt d) (DeviceRegistration.createdAt d)
    updatedAt.

(** A column of the [updates] record: overwritten when the record has the
    key, kept otherwise. *)
Definition or_keep {A} (provided current : option A) : option A :=
  match provided with
  | Some n => Some n
  | None => current
  end.

(** [.set(updates)] with [updates = { status, updatedAt }] and, when they
    were added, [sentAt], [successCount] and [failureCount]. *)
Definition with_status (status : string) (updatedAt : nat)
  (sentAt successCount failureCount : option nat) (m : NotificationMessage.t)
  : NotificationMessage.t :=
  NotificationMessage.mk
    (NotificationMessage.id m) (NotificationMessage.title m)
    (NotificationMessage.body m) (NotificationMessage.data m)
    (NotificationMessage.category m) (NotificationMessage.audienceType m)
    status
    (NotificationMessage.scheduledFor m)
    (or_keep sentAt (NotificationMessage.sentAt m))
    (NotificationMessage.createdBy m)
    (or_keep successCount (NotificationMessage.successCount m))
    (or_keep failureCount (NotificationMessage.failureCount m))
    (NotificationMessage.createdAt m) updatedAt.

Definition has_token (token : string) (d : DeviceRegistration.t) : bool :=
  String.eqb (DeviceRegistration.expoPushToken d) token.

Definition has_device_id (id : string) (d : DeviceRegistration.t) : bool :=
  String.eqb (DeviceRegistration.id d) id.

Definition has_message_id (id : string) (m : NotificationMessage.t) : bool :=
  String.eqb (NotificationMessage.id m) id.

(** [and(eq(userId, userId), eq(enabled, true))] *)
Definition enabled_for (userId : string) (d : DeviceRegistration.t) : bool :=
  String.eqb (DeviceRegistration.userId d) userId
  && DeviceRegistration.enabled d.

(** [and(eq(status, "pending"), or(isNull(scheduledFor),
    lte(scheduledFor, now)))] *)
Definition is_due (t : nat) (m : NotificationMessage.t) : bool :=
  String.eqb (NotificationMessage.status m) "pending"
  && match NotificationMessage.scheduledFor m with
     | None => true
     | Some at_ => at_ <=? t
     end.

(** [unregisterDevice], storage.ts lines 318-324. *)
Definition unregisterDevice (expoPushToken : string) : Promise bool :=
  called (UnregisterDevice expoPushToken) ;;;
  updatedAt <- new_Date ;;
  db_await (update_devices (disable updatedAt) (has_token expoPushToken)) ;;;
  resolve true.

(** [getDeviceByToken], storage.ts lines 326-332: [const [device] = await
    ...; return device || undefined]. *)
Definition getDeviceByToken (expoPushToken : string)
  : Promise (option DeviceRegistration.t) :=
  called (GetDeviceByToken expoPushToken) ;;;
  rows <- db_await (select_devices (has_token expoPushToken)) ;;
  resolve (hd_error rows).

(** [getDevicesForUser], storage.ts lines 334-342. *)
Definition getDevicesForUser (userId : string)
  : Promise (list DeviceRegistration.t) :=
  called (GetDevicesForUser userId) ;;;
  db_await (select_devices (enabled_for userId)).

(** [getEnabledDevices], storage.ts lines 344-349. *)
Definition getEnabledDevices : Promise (list DeviceRegistration.t) :=
  called GetEnabledDevices ;;;
  db_await (select_devices DeviceRegistration.enabled).

(** [updateDeviceLastNotified], storage.ts lines 351-356. *)
Definition updateDeviceLastNotified (id : string) : Promise unit :=
  called (UpdateDeviceLastNotified id) ;;;
  lastNotifiedAt <- new_Date ;;
  updatedAt <- new_Date ;;
  db_await (update_devices (touch_notified lastNotifiedAt updatedAt)
              (has_device_id id)).

(** [getNotificationMessage], storage.ts lines 366-372. *)
Definition getNotificationMessage (id : string)
  : Promise (option NotificationMessage.t) :=
  called (GetNotificationMessage id) ;;;
  rows <- db_await (select_messages (has_message_id id)) ;;
  resolve (hd_error rows).

(** [getPendingNotifications], storage.ts lines 374-386. *)
Definition getPendingNotifications : Promise (list NotificationMessage.t) :=
  called GetPendingNotifications ;;;
  now <- new_Date ;;
  db_await (select_messages (is_due now)).

(** [updateNotificationStatus], storage.ts lines 388-413. *)
Definition updateNotificationStatus (id status : string)
  (successCount failureCount : option nat) : Promise unit :=
  called (UpdateNotificationStatus id status successCount failureCount) ;;;
  updatedAt <- new_Date ;;
  sentAt <- (if String.eqb status "sent"
             then t <- new_Date ;; resolve (Some t)
             else resolve None) ;;
  db_await (update_messages
              (with_status status updatedAt sentAt successCount failureCount)
              (has_message_id id)).

(** [expo.sendPushNotificationsAsync(chunk)]: the gateway answers its n-th
    submission with [gateway w n]. *)
Definition sendPushNotificationsAsync (chunk : list ExpoPushMessage.t)
  : Promise (list ExpoPushTicket) :=
  fun w =>
    let w1 := next_submission (record_call (SendPushNotificationsAsync chunk) w) in
    match gateway w (submitted w) with
    | Resolves tickets => (w1, Returned tickets)
    | Rejects e => (w1, Thrown e)
    end.

(** [expo.chunkPushNotifications(messages)] for messages with one recipient
    each: a message is pushed on the current chunk, and the chunk is closed
    as soon as it holds [limit] messages; a last, shorter chunk is kept when
    it is not empty. *)
Fixpoint chunk_loop (limit : nat) (messages : list ExpoPushMessage.t)
  (chunks : list (list ExpoPushMessage.t)) (chunk : list ExpoPushMessage.t)
  (chunkMessagesCount : nat) : list (list ExpoPushMessage.t) :=
  match messages with
  | [] => if chunkMessagesCount =? 0 then chunks else chunks ++ [chunk]
  | message :: rest =>
      let chunk1 := chunk ++ [message] in
      let count1 := S chunkMessagesCount in
      if limit <=? count1
      then chunk_loop limit rest (chunks ++ [chunk1]) [] 0
      else chunk_loop limit rest chunks chunk1 count1
  end.

(** ** The admin routes (server/routes.ts): requests and responses *)

(** The JSON bodies the modelled routes answer with: [{success: false,
    error}], the same with the [details] of a [ZodError],
    [{success: true, data: {successCount, failureCount, errors}}] (where
    [errors] may be left out), [{success: true, data: {processed: true}}]
    and [{success: true, data: {unregistered: true}}]. *)
Inductive ResponseBody :=
| Failure (error : string)
| InvalidRequest (error : string) (details : JsError.t)
| TriggerResult (successCount failureCount : nat)
    (errors : option (list string))
| Processed
| Unregistered.

(** What a handler sends: [res.status(status).json(body)], status 200 when
    the handler calls [res.json] alone. *)
Module Response.
Record t := mk { status : nat; body : ResponseBody }.
End Response.

(** A body accepted by [triggerNotificationSchema]: every field optional. *)
Module TriggerRequest.
Record t := mk {
    messageId : option string;
    title : option string;
    body : option string;
    data : option JsonValue;
    userIds : option (list string)
  }.
End TriggerRequest.

(** What [schema.parse(req.body)] does: it returns the typed body or throws
    a [ZodError]. *)
Inductive SchemaResult (A : Type) :=
| Valid (a : A)
| Invalid (e : JsError.t).
Arguments Valid {A} a.
Arguments Invalid {A} e.

(** A body accepted by [unregisterDeviceSchema]. *)
Module UnregisterRequest.
Record t := mk { expoPushToken : string }.
End UnregisterRequest.

(** [interface CarbscanUser] *)
Module CarbscanUser.
Record t := mk {
    id : string;
    email : option string;
    firstName : option string;
    lastName : option string;
    subscriptionTier : string
  }.
End CarbscanUser.

(** What the identity service answers to [GET /auth/me]: the body of the
    response as [response.json()] gives it, with the two fields
    [verifyAccessToken] reads. *)
Module AuthMe.
Record t := mk { success : bool; data : option CarbscanUser.t }.
End AuthMe.

(** What [fetch] does: it throws, or it yields a response with its [ok] flag
    and what [response.json()] will do. *)
Inductive FetchOutcome :=
| FetchThrows (e : JsError.t)
| Responds (ok : bool) (json : SchemaResult AuthMe.t).

(** [error instanceof z.ZodError] *)
Definition is_ZodError (e : JsError.t) : bool :=
  String.eqb (JsError.name e) "ZodError".

(** A middleware either calls [next()] or answers the request itself. *)
Inductive Guard :=
| Next
| Refuse (response : Response.t).

(** Truthiness of a value of type [string | undefined]. *)
Definition truthy_option (s : option string) : bool :=
  match s with
  | Some text => truthy_string text
  | None => false
  end.

(** The value a test [if (s)] lets through: the string, when it is there and
    not empty. *)
Definition when_truthy (s : option string) : option string :=
  match s with
  | Some text => if truthy_string text then Some text else None
  | None => None
  end.

(** [a !== b] for two values of type [string | undefined] *)
Definition strictly_differs (a b : option string) : bool :=
  match a, b with
  | Some x, Some y => negb (String.eqb x y)
  | None, None => false
  | _, _ => true
  end.

(** [requireAdminAuth]: [ADMIN_API_KEY] is the environment variable read
    when the module is loaded, [apiKey] the [x-admin-api-key] header. *)
Definition requireAdminAuth (ADMIN_API_KEY apiKey : option string) : Guard :=
  if negb (truthy_option ADMIN_API_KEY) then
    Refuse (Response.mk 503 (Failure "Admin authentication not configured"))
  else if strictly_differs apiKey ADMIN_API_KEY then
    Refuse (Response.mk 401
              (Failure "Unauthorized - invalid or missing admin API key"))
  else Next.

(** [schema.parse(req.body)] inside an async handler. *)
Definition schema_parse {A} (parsed : SchemaResult A) : Promise A :=
  match parsed with
  | Valid a => resolve a
  | Invalid e => throw e
  end.

(** A route behind a middleware. *)
Definition guarded (guard : Guard) (handler : Promise Response.t)
  : Promise Response.t :=
  match guard with
  | Next => handler
  | Refuse response => resolve response
  end.

(** ** The platform as deployed, and worlds to run the dispatcher in *)

Definition ends_with (suffix s : string) : bool :=
  (String.length suffix <=? String.length s)
  && String.eqb
       (substring (String.length s - String.length suffix)
                  (String.length suffix) s)
       suffix.

Definition is_alnum (c : ascii) : bool :=
  let n := nat_of_ascii c in
  ((48 <=? n) && (n <=? 57)) || ((65 <=? n) && (n <=? 90))
  || ((97 <=? n) && (n <=? 122)).

(** [k] letters or digits, then the rest of the text *)
Fixpoint after_alnum (k : nat) (s : string) : option string :=
  match k with
  | 0 => Some s
  | S k1 =>
      match s with
      | String c s1 => if is_alnum c then after_alnum k1 s1 else None
      | EmptyString => None
      end
  end.

(** [k] letters or digits and a dash, then the rest of the text *)
Definition after_group (k : nat) (s : string) : option string :=
  match after_alnum k s with
  | Some (String "-"%char s1) => Some s1
  | _ => None
  end.

(** The pattern of five dash-separated groups of 8, 4, 4, 4 and 12 letters
    or digits. *)
Definition is_uuid_shaped (s : string) : bool :=
  match after_group 8 s with
  | Some s1 =>
      match after_group 4 s1 with
      | Some s2 =>
          match after_group 4 s2 with
          | Some s3 =>
              match after_group 4 s3 with
              | Some s4 =>
                  match after_alnum 12 s4 with
                  | Some EmptyString => true
                  | _ => false
                  end
              | None => false
              end
          | None => false
          end
      | None => false
      end
  | None => false
  end.

(** [Expo.isExpoPushToken] of expo-server-sdk. *)
Definition Expo_isExpoPushToken (token : string) : bool :=
  ((String.prefix "ExponentPushToken[" token
    || String.prefix "ExpoPushToken[" token)
   && ends_with "]" token)
  || is_uuid_shaped token.

(** [Expo.pushNotificationChunkSizeLimit] of expo-server-sdk. *)
Definition Expo_pushNotificationChunkSizeLimit : nat := 100.

(** A stand-in for [JSON.parse] on the payload texts stored in the worlds
    below: it parses the empty object literal and [null], and refuses every
    other text with a [SyntaxError]; the message of that error is the
    engine's own and is not spelled out here. *)
Definition JSON_parse_literals (text : string) : ParseOutcome :=
  if String.eqb text "{}" then Parses (JObject [])
  else if String.eqb text "null" then Parses JNull
  else ParseThrows (JsError.mk "SyntaxError" text).

Definition decimal (n : nat) : string :=
  NilEmpty.string_of_uint (Nat.to_uint n).

(** The n-th handset of a user: enabled, with a well-formed token. *)
Definition handset (userId : string) (n : nat) : DeviceRegistration.t :=
  DeviceRegistration.mk
    ("dev-" ++ decimal n)%string userId
    ("ExponentPushToken[" ++ decimal n ++ "]")%string
    "ios" None None None true None 0 0.

Definition stored_message (id status : string) (data : option string)
  : NotificationMessage.t :=
  NotificationMessage.mk id "Hi" "Test" data None "all" status None None None
    (Some 0) (Some 0) 0 0.

Definition network_down : JsError.t := JsError.mk "Error" "network down".

(** Gateways that answer by submission number: always the same answer, or
    the answers of a script and an error once the script is exhausted. *)
Definition gateway_always (r : GatewayResponse) : nat -> GatewayResponse :=
  fun _ => r.

Definition gateway_script (script : list GatewayResponse)
  : nat -> GatewayResponse :=
  fun n => nth n script (Rejects network_down).

(** A clock that advances by one millisecond at each reading, from
    time 1000 on. *)
Definition clock_from_1000 : nat -> nat := fun n => 1000 + n.

(** A database that executes every query, and one that rejects the queries
    whose numbers are listed. *)
Definition database_up : nat -> option JsError.t := fun _ => None.

Definition connection_lost : JsError.t :=
  JsError.mk "Error" "Connection terminated unexpectedly".

Definition database_down_at (ns : list nat) : nat -> option JsError.t :=
  fun n => if existsb (Nat.eqb n) ns then Some connection_lost else None.

(** A fresh world: nothing read, queried, submitted or logged so far. *)
Definition world (ds : list DeviceRegistration.t)
  (ms : list NotificationMessage.t) (g : nat -> GatewayResponse) : World :=
  mkWorld ds ms clock_from_1000 0 database_up 0 g 0 [].

(** The same world with a database that rejects the listed queries. *)
Definition with_database_down_at (ns : list nat) (w : World) : World :=
  mkWorld (devices w) (messages w) (clock w) (ticks w) (database_down_at ns)
          (queries w) (gateway w) (submitted w) (calls w).

(** No device at all. *)
Definition world_without_devices : World :=
  world [] [stored_message "m1" "sent" None] (gateway_script []).

Definition handsets (userId : string) (k : nat) : list DeviceRegistration.t :=
  map (handset userId) (seq 0 k).

Definition accepted : GatewayResponse := Resolves [SuccessTicket "ticket"].

Definition unregistered : ExpoPushTicket :=
  ErrorTicket "not a registered push notification recipient"
    (Some {| error := Some "DeviceNotRegistered" |}).

(** The example scenario of section 8: a pending message, two handsets, and a
    gateway that answers [ok; error(DeviceNotRegistered)]. *)
Definition world_example : World :=
  world (handsets "user-1" 2) [stored_message "m1" "pending" None]
        (gateway_script [Resolves [SuccessTicket "ticket"; unregistered]]).

(** 101 handsets, hence two chunks; the first submission throws, the second
    is accepted. *)
Definition world_two_chunks : World :=
  world (handsets "user-1" 101) []
        (gateway_script [Rejects network_down; accepted]).

(** The same 101 handsets; the first submission throws, and the second
    reports its one recipient as no longer registered. *)
Definition world_two_chunks_unregistered : World :=
  world (handsets "user-1" 101) []
        (gateway_script [Rejects network_down; Resolves [unregistered]]).

(** One handset, and an error ticket that carries no [details]. *)
Definition world_bare_error : World :=
  world (handsets "user-1" 1) []
        (gateway_script [Resolves [ErrorTicket "failed" None]]).

(** One handset for each of two users. *)
Definition world_two_users : World :=
  world [handset "user-1" 0; handset "user-2" 1] [] (gateway_always accepted).


(** A pending message whose payload is not JSON. *)
Definition world_bad_payload : World :=
  world (handsets "user-1" 1) [stored_message "m1" "pending" (Some "{oops")]
        (gateway_always accepted).

(** Three due messages; the payload of the second is not JSON. *)
Definition world_three_due : World :=
  world (handsets "user-1" 1)
        [stored_message "m1" "pending" None;
         stored_message "m2" "pending" (Some "{oops");
         stored_message "m3" "pending" (Some "{}")]
        (gateway_always accepted).

(** Two due messages. *)
Definition world_two_due : World :=
  world (handsets "user-1" 1)
        [stored_message "m1" "pending" None;
         stored_message "m2" "pending" None]
        (gateway_always accepted).

(** The same, with a database that rejects its queries number 2 and 3: in
    a sweep, the move of the first message to [sending] and the update that
    follows it. *)
Definition world_two_due_outage : World :=
  with_database_down_at [2; 3] world_two_due.

(** A pending message scheduled for the time [at_]. *)
Definition scheduled_message (id : string) (at_ : nat)
  : NotificationMessage.t :=
  NotificationMessage.mk id "Hi" "Test" None None "all" "pending" (Some at_)
    None None (Some 0) (Some 0) 0 0.

(** Section 8, scheduled-message due check: one message due at once, and
    one scheduled for a time the clock reaches during a sweep. *)
Definition world_scheduled : World :=
  world (handsets "user-1" 1)
        [stored_message "m1" "pending" None; scheduled_message "m2" 1002]
        (gateway_always accepted).

(** A device whose stored token is not an Expo push token. *)
Definition stale_handset (userId : string) (n : nat) : DeviceRegistration.t :=
  DeviceRegistration.mk
    ("dev-" ++ decimal n)%string userId
    ("legacy-token-" ++ decimal n)%string
    "android" None None None true None 0 0.

(** Two enabled devices, neither with a valid token. *)
Definition world_stale_tokens : World :=
  world [stale_handset "user-1" 0; stale_handset "user-1" 1] []
        (gateway_always accepted).

(** Section 8, invalid-token partitioning: one invalid token between two
    valid ones. *)
Definition world_mixed_tokens : World :=
  world [handset "user-1" 0; stale_handset "user-1" 1; handset "user-1" 2] []
        (gateway_script
           [Resolves [SuccessTicket "ticket-0"; SuccessTicket "ticket-2"]]).

(** A trigger request that names a stored message and also carries inline
    content, and requests with inline content only. *)
Definition trigger_by_id (messageId : string) : TriggerRequest.t :=
  TriggerRequest.mk (Some messageId) None None None None.


Definition trigger_title_only : TriggerRequest.t :=
  TriggerRequest.mk None (Some "Flash Sale!") None None None.

(** An identity service that knows one access token, that of user-1, and
    answers every other token with a response that is not [ok]. *)
Definition user_1 : CarbscanUser.t :=
  CarbscanUser.mk "user-1" (Some "one@example.com") None None "free".

Definition identity_of_user_1 (token : string) : FetchOutcome :=
  if String.eqb token "token-1" then
    Responds true (Valid (AuthMe.mk true (Some user_1)))
  else Responds false (Invalid (JsError.mk "SyntaxError" "Unexpected token")).

(** Splits a conjunction into its parts and closes those that hold by
    computation. *)
Ltac splits :=
  repeat match goal with |- _ /\ _ => split end; try reflexivity.

(** ** The dispatcher (server/notifications.ts) *)

Section Dispatcher.

(** [Expo.isExpoPushToken], [Expo.pushNotificationChunkSizeLimit] and
    [JSON.parse] belong to the platform; the dispatcher is verified for any
    of them. *)
Variable isExpoPushToken : string -> bool.
Variable pushNotificationChunkSizeLimit : nat.
Variable JSON_parse : string -> ParseOutcome.

Definition chunkPushNotifications (messages : list ExpoPushMessage.t)
  : list (list ExpoPushMessage.t) :=
  chunk_loop pushNotificationChunkSizeLimit messages [] [] 0.

(** Lines 19-28: the candidate devices. *)
Definition resolveDevices (targetUserIds : option (list string))
  : Promise (list DeviceRegistration.t) :=
  match targetUserIds with
  | Some ((_ :: _) as ids) =>
      allDevices <- Promise_all_map getDevicesForUser ids ;;
      resolve (concat allDevices)
  | _ => getEnabledDevices
  end.

(** [data || {}] *)
Definition data_or_empty (data : option JsonValue) : JsonValue :=
  match data with
  | Some v => if truthy v then v else JObject []
  | None => JObject []
  end.

(** Lines 34-51: the messages and the devices they are for; a device whose
    token the gateway's validator refuses is skipped (the console warning is
    not modelled). *)
Fixpoint buildMessages (title body : string) (data : option JsonValue)
  (devices : list DeviceRegistration.t)
  (messages : list ExpoPushMessage.t) (validDevices : list DeviceRegistration.t)
  : list ExpoPushMessage.t * list DeviceRegistration.t :=
  match devices with
  | [] => (messages, validDevices)
  | device :: rest =>
      if negb (isExpoPushToken (DeviceRegistration.expoPushToken device))
      then buildMessages title body data rest messages validDevices
      else buildMessages title body data rest
             (messages ++ [ExpoPushMessage.mk
                             (DeviceRegistration.expoPushToken device)
                             "default" title body (data_or_empty data)])
             (validDevices ++ [device])
  end.

(** The three locals the chunk loop updates. *)
Record Submitted := mkSubmitted {
  tickets : list ExpoPushTicket;
  errors : list string;
  failureCount : nat
}.

(** Lines 63-72: each chunk is submitted; a submission that throws adds its
    error to [errors] and the chunk's length to [failureCount]. *)
Fixpoint submitChunks (chunks : list (list ExpoPushMessage.t)) (st : Submitted)
  : Promise Submitted :=
  match chunks with
  | [] => resolve st
  | chunk :: rest =>
      st1 <- try_catch
               (ticketChunk <- sendPushNotificationsAsync chunk ;;
                resolve (mkSubmitted (tickets st ++ ticketChunk)
                                     (errors st) (failureCount st)))
               (fun error =>
                  resolve (mkSubmitted (tickets st)
                                       (errors st ++ [String_of_error error])
                                       (failureCount st + length chunk))) ;;
      submitChunks rest st1
  end.

(** Reading a property of [validDevices[i]]: a [TypeError] when the index is
    out of range. *)
Definition property_of {A} (device : option DeviceRegistration.t)
  (prop : string) (get : DeviceRegistration.t -> A) : Promise A :=
  match device with
  | Some d => resolve (get d)
  | None =>
      throw (TypeError ("Cannot read properties of undefined (reading '"
                          ++ prop ++ "')")%string)
  end.

(** Lines 75-90: the body of the ticket loop, for [tickets[i]] and
    [validDevices[i]]. *)
Definition onTicket (ticket : ExpoPushTicket)
  (device : option DeviceRegistration.t) (r : SendResult.t)
  : Promise SendResult.t :=
  match ticket with
  | SuccessTicket _ =>
      let r1 := SendResult.mk (S (SendResult.successCount r))
                  (SendResult.failureCount r) (SendResult.errors r) in
      id <- property_of device "id" DeviceRegistration.id ;;
      updateDeviceLastNotified id ;;;
      resolve r1
  | ErrorTicket _ details =>
      let r1 := SendResult.mk (SendResult.successCount r)
                  (S (SendResult.failureCount r)) (SendResult.errors r) in
      match details_error details with
      | Some reason =>
          if truthy_string reason then
            token <- property_of device "expoPushToken"
                       DeviceRegistration.expoPushToken ;;
            let r2 := SendResult.mk (SendResult.successCount r1)
                        (SendResult.failureCount r1)
                        (SendResult.errors r1 ++ [(token ++ ": " ++ reason)%string]) in
            if String.eqb reason "DeviceNotRegistered" then
              unregisterDevice token ;;;
              resolve r2
            else resolve r2
          else resolve r1
      | None => resolve r1
      end
  end.

(** Lines 74-91: [for (let i = 0; i < tickets.length; i++)]; [rest] is
    [tickets.slice(i)]. *)
Fixpoint ticketLoop (validDevices : list DeviceRegistration.t)
  (rest : list ExpoPushTicket) (i : nat) (r : SendResult.t)
  : Promise SendResult.t :=
  match rest with
  | [] => resolve r
  | ticket :: rest1 =>
      r1 <- onTicket ticket (nth_error validDevices i) r ;;
      ticketLoop validDevices rest1 (S i) r1
  end.

Definition sendPushNotification (title body : string)
  (data : option JsonValue) (targetUserIds : option (list string))
  : Promise SendResult.t :=
  devices <- resolveDevices targetUserIds ;;
  if length devices =? 0 then
    resolve (SendResult.mk 0 0 ["No registered devices found"])
  else
    let (messages, validDevices) :=
      buildMessages title body data devices [] [] in
    if length messages =? 0 then
      resolve (SendResult.mk 0 (length devices) ["No valid push tokens found"])
    else
      let chunks := chunkPushNotifications messages in
      st <- submitChunks chunks (mkSubmitted [] [] 0) ;;
      ticketLoop validDevices (tickets st) 0
        (SendResult.mk 0 (failureCount st) (errors st)).

(** [message.data ? JSON.parse(message.data) : undefined] *)
Definition parse_data (data : option string) : Promise (option JsonValue) :=
  match data with
  | Some text =>
      if truthy_string text then
        match JSON_parse text with
        | Parses v => resolve (Some v)
        | ParseThrows e => throw e
        end
      else resolve None
  | None => resolve None
  end.

Definition sendNotificationMessage (messageId : string)
  : Promise SendResult.t :=
  message <- getNotificationMessage messageId ;;
  match message with
  | None => resolve (SendResult.mk 0 0 ["Notification message not found"])
  | Some message =>
      if negb (String.eqb (NotificationMessage.status message) "pending") then
        resolve (SendResult.mk 0 0
                   [("Message already " ++ NotificationMessage.status message)%string])
      else
        updateNotificationStatus messageId "sending" None None ;;;
        data <- parse_data (NotificationMessage.data message) ;;
        result <- sendPushNotification (NotificationMessage.title message)
                    (NotificationMessage.body message) data None ;;
        updateNotificationStatus messageId "sent"
          (Some (SendResult.successCount result))
          (Some (SendResult.failureCount result)) ;;;
        resolve result
  end.

(** Lines 126-131: the body of the loop over the pending messages (the
    console output is not modelled). *)
Definition attemptPending (message : NotificationMessage.t) : Promise unit :=
  try_catch
    (sendNotificationMessage (NotificationMessage.id message) ;;;
     resolve tt)
    (fun _ =>
       updateNotificationStatus (NotificationMessage.id message)
         "failed" None None).

(** Lines 125-132: [for (const message of pending)]. *)
Fixpoint forPending (pending : list NotificationMessage.t) : Promise unit :=
  match pending with
  | [] => resolve tt
  | message :: rest =>
      attemptPending message ;;;
      forPending rest
  end.

Definition processPendingNotifications : Promise unit :=
  pending <- getPendingNotifications ;;
  forPending pending.

(** *** The routes that call the dispatcher (server/routes.ts) *)

(** [res.json({success: true, data: {successCount, failureCount, errors:
    result.errors.length > 0 ? result.errors : undefined}})] *)
Definition trigger_response (result : SendResult.t) : Response.t :=
  Response.mk 200
    (TriggerResult (SendResult.successCount result)
       (SendResult.failureCount result)
       (if 0 <? length (SendResult.errors result)
        then Some (SendResult.errors result) else None)).

(** The handler of [POST /api/notifications/trigger], lines 243-281 (the
    console output is not modelled). *)
Definition triggerHandler (parsed : SchemaResult TriggerRequest.t)
  : Promise Response.t :=
  try_catch
    (data <- schema_parse parsed ;;
     match when_truthy (TriggerRequest.messageId data) with
     | Some messageId =>
         result <- sendNotificationMessage messageId ;;
         resolve (trigger_response result)
     | None =>
         match when_truthy (TriggerRequest.title data),
               when_truthy (TriggerRequest.body data) with
         | Some title, Some body =>
             result <- sendPushNotification title body
                         (TriggerRequest.data data)
                         (TriggerRequest.userIds data) ;;
             resolve (trigger_response result)
         | _, _ =>
             resolve (Response.mk 400
                        (Failure "Either messageId or title/body required"))
         end
     end)
    (fun _ =>
       resolve (Response.mk 500 (Failure "Failed to trigger notification"))).

(** The handler of [POST /api/notifications/process-pending], lines
    283-300. *)
Definition processPendingHandler : Promise Response.t :=
  try_catch
    (processPendingNotifications ;;;
     resolve (Response.mk 200 Processed))
    (fun _ =>
       resolve (Response.mk 500
                  (Failure "Failed to process pending notifications"))).

(** The identity service behind [fetch(CARBSCAN_API_BASE + "/auth/me")]:
    its answer to the bearer token sent. *)
Variable identity_service : string -> FetchOutcome.

(** [verifyAccessToken], lines 18-46. *)
Definition verifyAccessToken (authHeader : option string)
  : Promise (option CarbscanUser.t) :=
  match authHeader with
  | Some header =>
      if negb (truthy_string header) || negb (String.prefix "Bearer " header)
      then resolve None
      else
        let token := substring 7 (String.length header - 7) header in
        try_catch
          (match identity_service token with
           | FetchThrows e => throw e
           | Responds ok json =>
               if negb ok then resolve None
               else
                 result <- schema_parse json ;;
                 match AuthMe.data result with
                 | Some user =>
                     if AuthMe.success result then resolve (Some user)
                     else resolve None
                 | None => resolve None
                 end
           end)
          (fun _ => resolve None)
  | None => resolve None
  end.

(** The handler of [POST /api/mobile/v1/devices/unregister], lines
    157-203 (the console output is not modelled). *)
Definition unregisterHandler (authorization : option string)
  (parsed : SchemaResult UnregisterRequest.t) : Promise Response.t :=
  try_catch
    (data <- schema_parse parsed ;;
     user <- verifyAccessToken authorization ;;
     match user with
     | None =>
         resolve (Response.mk 401
                    (Failure "Unauthorized - valid access token required"))
     | Some user =>
         existingDevice <- getDeviceByToken
                             (UnregisterRequest.expoPushToken data) ;;
         match existingDevice with
         | Some device =>
             if negb (String.eqb (DeviceRegistration.userId device)
                        (CarbscanUser.id user))
             then
               resolve
                 (Response.mk 403
                    (Failure
                       "Forbidden - cannot unregister device for another user"))
             else
               unregisterDevice (UnregisterRequest.expoPushToken data) ;;;
               resolve (Response.mk 200 Unregistered)
         | None =>
             unregisterDevice (UnregisterRequest.expoPushToken data) ;;;
             resolve (Response.mk 200 Unregistered)
         end
     end)
    (fun error =>
       if is_ZodError error then
         resolve (Response.mk 400 (InvalidRequest "Invalid request data" error))
       else
         resolve (Response.mk 500 (Failure "Failed to unregister device"))).

(** The two routes, behind [requireAdminAuth]. *)
Definition postTrigger (ADMIN_API_KEY apiKey : option string)
  (parsed : SchemaResult TriggerRequest.t) : Promise Response.t :=
  guarded (requireAdminAuth ADMIN_API_KEY apiKey) (triggerHandler parsed).

Definition postProcessPending (ADMIN_API_KEY apiKey : option string)
  : Promise Response.t :=
  guarded (requireAdminAuth ADMIN_API_KEY apiKey) processPendingHandler.

(** *** What the loops compute *)

(** The tickets gathered by the chunk loop: those of the submissions that
    resolved, in order; [n] is the number of the first submission. *)
Fixpoint resolved_tickets (g : nat -> GatewayResponse) (n : nat)
  (chunks : list (list ExpoPushMessage.t)) : list ExpoPushTicket :=
  match chunks with
  | [] => []
  | _ :: rest =>
      match g n with
      | Resolves ticketChunk => ticketChunk ++ resolved_tickets g (S n) rest
      | Rejects _ => resolved_tickets g (S n) rest
      end
  end.

(** The errors of the submissions that threw, rendered by [String]. *)
Fixpoint rejected_errors (g : nat -> GatewayResponse) (n : nat)
  (chunks : list (list ExpoPushMessage.t)) : list string :=
  match chunks with
  | [] => []
  | _ :: rest =>
      match g n with
      | Resolves _ => rejected_errors g (S n) rest
      | Rejects e => String_of_error e :: rejected_errors g (S n) rest
      end
  end.

(** The number of messages in the chunks whose submission threw. *)
Fixpoint rejected_count (g : nat -> GatewayResponse) (n : nat)
  (chunks : list (list ExpoPushMessage.t)) : nat :=
  match chunks with
  | [] => 0
  | chunk :: rest =>
      match g n with
      | Resolves _ => rejected_count g (S n) rest
      | Rejects _ => length chunk + rejected_count g (S n) rest
      end
  end.

(** The gateway's contract (section 4.3, step 4): a submission that does not
    throw yields one ticket per message of its chunk. *)
Definition honours (chunk : list ExpoPushMessage.t) (r : GatewayResponse)
  : Prop :=
  match r with
  | Resolves ticketChunk => length ticketChunk = length chunk
  | Rejects _ => True
  end.

Fixpoint gateway_contract (g : nat -> GatewayResponse) (n : nat)
  (chunks : list (list ExpoPushMessage.t)) : Prop :=
  match chunks with
  | [] => True
  | chunk :: rest => honours chunk (g n) /\ gateway_contract g (S n) rest
  end.

(** No submission throws. *)
Fixpoint all_resolve (g : nat -> GatewayResponse) (n : nat)
  (chunks : list (list ExpoPushMessage.t)) : Prop :=
  match chunks with
  | [] => True
  | _ :: rest =>
      match g n with
      | Resolves _ => all_resolve g (S n) rest
      | Rejects _ => False
      end
  end.

Definition is_ok (ticket : ExpoPushTicket) : bool :=
  match ticket with
  | SuccessTicket _ => true
  | ErrorTicket _ _ => false
  end.

(** The error reason the ticket loop acts on: [ticket.details.error] of an
    error ticket, when it is there and not the empty string. *)
Definition reason_of (ticket : ExpoPushTicket) : option string :=
  match ticket with
  | SuccessTicket _ => None
  | ErrorTicket _ details =>
      match details_error details with
      | Some reason => if truthy_string reason then Some reason else None
      | None => None
      end
  end.

Definition error_line (token reason : string) : string :=
  (token ++ ": " ++ reason)%string.

(** Error strings and storage calls of one iteration of the ticket loop. *)
Definition errors_of (p : DeviceRegistration.t * ExpoPushTicket)
  : list string :=
  match reason_of (snd p) with
  | Some reason =>
      [error_line (DeviceRegistration.expoPushToken (fst p)) reason]
  | None => []
  end.

Definition calls_of (p : DeviceRegistration.t * ExpoPushTicket) : list Call :=
  match snd p with
  | SuccessTicket _ => [UpdateDeviceLastNotified (DeviceRegistration.id (fst p))]
  | ErrorTicket _ _ =>
      match reason_of (snd p) with
      | Some reason =>
          if String.eqb reason "DeviceNotRegistered"
          then [UnregisterDevice (DeviceRegistration.expoPushToken (fst p))]
          else []
      | None => []
      end
  end.

(** What the ticket loop records for a message and the ticket the gateway
    gave for it: the error string, when the ticket carries a reason, and the
    call of [unregisterDevice], when that reason is [DeviceNotRegistered]. *)
Definition reported (p : ExpoPushMessage.t * ExpoPushTicket) : list string :=
  match reason_of (snd p) with
  | Some reason => [error_line (ExpoPushMessage.to (fst p)) reason]
  | None => []
  end.

Definition unregistrations (p : ExpoPushMessage.t * ExpoPushTicket)
  : list Call :=
  match reason_of (snd p) with
  | Some reason =>
      if String.eqb reason "DeviceNotRegistered"
      then [UnregisterDevice (ExpoPushMessage.to (fst p))]
      else []
  | None => []
  end.

Definition count_ok (ts : list ExpoPushTicket) : nat :=
  length (filter is_ok ts).

Definition count_not_ok (ts : list ExpoPushTicket) : nat :=
  length (filter (fun t => negb (is_ok t)) ts).

(** The world once [chunks] have been submitted. *)
Definition after_submit (chunks : list (list ExpoPushMessage.t)) (w : World)
  : World :=
  mkWorld (devices w) (messages w) (clock w) (ticks w) (database w)
          (queries w) (gateway w) (submitted w + length chunks)
          (calls w ++ map SendPushNotificationsAsync chunks).

(** The fields of the world the ticket loop and the reads leave alone. *)
Definition same_messages (w w1 : World) : Prop :=
  messages w1 = messages w /\ gateway w1 = gateway w.

(** The devices [buildMessages] keeps, and the message it builds for one. *)
Definition valid_token (d : DeviceRegistration.t) : bool :=
  isExpoPushToken (DeviceRegistration.expoPushToken d).

Definition message_for (title body : string) (data : option JsonValue)
  (d : DeviceRegistration.t) : ExpoPushMessage.t :=
  ExpoPushMessage.mk (DeviceRegistration.expoPushToken d) "default"
    title body (data_or_empty data).

(** The devices [resolveDevices] returns and the reads it makes. *)
Definition devices_of_user (w : World) (userId : string)
  : list DeviceRegistration.t :=
  filter (enabled_for userId) (devices w).

Definition candidates (targetUserIds : option (list string)) (w : World)
  : list DeviceRegistration.t :=
  match targetUserIds with
  | Some ((_ :: _) as ids) => concat (map (devices_of_user w) ids)
  | _ => filter DeviceRegistration.enabled (devices w)
  end.

Definition reads (targetUserIds : option (list string)) : list Call :=
  match targetUserIds with
  | Some ((_ :: _) as ids) => map GetDevicesForUser ids
  | _ => [GetEnabledDevices]
  end.

(** The world once the reads [cs], one query each, have been made. *)
Definition after_calls (cs : list Call) (w : World) : World :=
  mkWorld (devices w) (messages w) (clock w) (ticks w) (database w)
          (length cs + queries w) (gateway w) (submitted w)
          (calls w ++ cs).

(** The database executes every query from now on. *)
Definition healthy (w : World) : Prop :=
  forall n, queries w <= n -> database w n = None.

(** The first error among the answers of the database to its queries
    [n], ..., [n + k - 1]. *)
Fixpoint first_rejection (db : nat -> option JsError.t) (n k : nat)
  : option JsError.t :=
  match k with
  | 0 => None
  | S k1 =>
      match db n with
      | Some e => Some e
      | None => first_rejection db (S n) k1
      end
  end.

(** From [w] to [w1] the clock, the database and the gateway are the same
    and no reading, query, submission or logged call has been undone. *)
Definition follows (w w1 : World) : Prop :=
  clock w1 = clock w
  /\ database w1 = database w
  /\ gateway w1 = gateway w
  /\ ticks w <= ticks w1
  /\ queries w <= queries w1
  /\ submitted w <= submitted w1
  /\ exists more, calls w1 = calls w ++ more.

(** [w1] has the calls of [w] and possibly more after them. *)
Definition extends (w w1 : World) : Prop :=
  exists more, calls w1 = calls w ++ more.

(** The message table is the same in both worlds. *)
Definition keeps_messages (w w1 : World) : Prop :=
  messages w1 = messages w.

(** A promise respects a relation between worlds when every run of it, from
    any world, ends in a related world. *)
Definition respects (R : World -> World -> Prop) {A} (p : Promise A) : Prop :=
  forall w, R w (fst (p w)).

(** The row of [messageId], as [storage.getNotificationMessage] finds it. *)
Definition lookup_message (messageId : string) (w : World)
  : option NotificationMessage.t :=
  find (has_message_id messageId) (messages w).

(** The row a status update makes of a row [m] when it is issued in world
    [w]: [updatedAt] is the next reading of the clock and, for the status
    [sent], [sentAt] the reading after it. *)
Definition stamped (status : string) (successCount failureCount : option nat)
  (w : World) (m : NotificationMessage.t) : NotificationMessage.t :=
  with_status status (clock w (ticks w))
    (if String.eqb status "sent" then Some (clock w (S (ticks w))) else None)
    successCount failureCount m.

(** Kinds of calls in the log. *)
Definition is_registry_write (c : Call) : bool :=
  match c with
  | UpdateDeviceLastNotified _ | UnregisterDevice _ => true
  | _ => false
  end.

Definition is_notified (c : Call) : bool :=
  match c with
  | UpdateDeviceLastNotified _ => true
  | _ => false
  end.

Definition is_unregister (c : Call) : bool :=
  match c with
  | UnregisterDevice _ => true
  | _ => false
  end.

Definition is_message_store_call (c : Call) : bool :=
  match c with
  | GetNotificationMessage _ | GetPendingNotifications
  | UpdateNotificationStatus _ _ _ _ => true
  | _ => false
  end.

(** From [w] to [w1] the gateway got no submission and the only calls made
    are writes to the device registry. *)
Definition registry_writes_only (w w1 : World) : Prop :=
  submitted w1 = submitted w
  /\ exists later,
       calls w1 = calls w ++ later
       /\ Forall (fun c => is_registry_write c = true) later.

(** From [w] to [w1] the message table is the same and no call has been
    made on the message store. *)
Definition unseen_by_message_store (w w1 : World) : Prop :=
  messages w1 = messages w
  /\ exists new,
       calls w1 = calls w ++ new
       /\ Forall (fun c => is_message_store_call c = false) new.

(** A row of the device table and what a run may have made of it: the same
    device, same owner, same token, and enabled only if it was. *)
Definition narrowed (d d1 : DeviceRegistration.t) : Prop :=
  DeviceRegistration.id d1 = DeviceRegistration.id d
  /\ DeviceRegistration.userId d1 = DeviceRegistration.userId d
  /\ DeviceRegistration.expoPushToken d1 = DeviceRegistration.expoPushToken d
  /\ (DeviceRegistration.enabled d1 = true ->
      DeviceRegistration.enabled d = true).

(** From [w] to [w1] every row of the device table was at most narrowed
    and, when the database executes every query, every token
    [unregisterDevice] was called on in between has all its rows disabled
    in [w1]. *)
Definition reconciles (w w1 : World) : Prop :=
  follows w w1
  /\ Forall2 narrowed (devices w) (devices w1)
  /\ (healthy w ->
      forall more token,
        calls w1 = calls w ++ more ->
        In (UnregisterDevice token) more ->
        forall d1,
          In d1 (devices w1) ->
          DeviceRegistration.expoPushToken d1 = token ->
          DeviceRegistration.enabled d1 = false).

(** What a status update to [st] that the database executes makes of a row
    [r] of the message table: the row with the id of the update keeps its
    id and its scheduled time and has status [st]; any other row is left as
    it was. *)
Definition retagged (id : string) (st : string)
  (r r1 : NotificationMessage.t) : Prop :=
  if has_message_id id r then
    NotificationMessage.id r1 = NotificationMessage.id r
    /\ NotificationMessage.scheduledFor r1 = NotificationMessage.scheduledFor r
    /\ NotificationMessage.status r1 = st
  else r1 = r.

(** What a sweep makes of a row [r] of the message table: a row that was
    due is the same message with status [sent] or [failed]; any other row is
    left as it was. *)
Definition settled (due : NotificationMessage.t -> bool)
  (r r1 : NotificationMessage.t) : Prop :=
  if due r then
    NotificationMessage.id r1 = NotificationMessage.id r
    /\ NotificationMessage.scheduledFor r1 = NotificationMessage.scheduledFor r
    /\ (NotificationMessage.status r1 = "sent"
        \/ NotificationMessage.status r1 = "failed")
  else r1 = r.

(** The row has the id of one of the messages [ms]. *)
Definition has_id_among (ms : list NotificationMessage.t)
  (r : NotificationMessage.t) : bool :=
  existsb (fun m => String.eqb (NotificationMessage.id m)
                      (NotificationMessage.id r)) ms.

(** ** Lemmas on the gateway's chunker *)

Lemma chunk_loop_concat limit :
  forall messages chunks chunk,
    concat (chunk_loop limit messages chunks chunk (length chunk))
    = concat chunks ++ chunk ++ messages.
Proof.
  intros msgs. induction msgs as [|m rest IH]; intros chunks chunk; simpl.
  - destruct chunk as [|c chunk]; simpl.
    + now rewrite app_nil_r.
    + rewrite concat_app. simpl. now rewrite !app_nil_r.
  - destruct (limit <=? S (length chunk)).
    + pose proof (IH (chunks ++ [chunk ++ [m]]) []) as H.
      simpl in H. rewrite H.
      rewrite concat_app. simpl. rewrite app_nil_r.
      now rewrite <- !app_assoc.
    + replace (S (length chunk)) with (length (chunk ++ [m]))
        by (rewrite length_app; simpl; lia).
      rewrite IH. now rewrite <- app_assoc.
Qed.

Lemma chunkPushNotifications_concat messages :
  concat (chunkPushNotifications messages) = messages.
Proof.
  unfold chunkPushNotifications.
  exact (chunk_loop_concat _ messages [] []).
Qed.

Lemma length_concat_chunks (msgs : list ExpoPushMessage.t) :
  length (concat (chunkPushNotifications msgs)) = length msgs.
Proof. now rewrite chunkPushNotifications_concat. Qed.

(** ** Lemmas on the loops of [sendPushNotification] *)

Lemma buildMessages_spec title body data :
  forall devs msgs valid,
    buildMessages title body data devs msgs valid
    = (msgs ++ map (message_for title body data) (filter valid_token devs),
       valid ++ filter valid_token devs).
Proof.
  induction devs as [|d devs IH]; intros msgs valid; simpl.
  - now rewrite !app_nil_r.
  - change (isExpoPushToken (DeviceRegistration.expoPushToken d))
      with (valid_token d).
    destruct (valid_token d); simpl.
    + rewrite IH. now rewrite <- !app_assoc.
    + apply IH.
Qed.

Lemma buildMessages_lengths title body data devs msgs valid :
  buildMessages title body data devs [] [] = (msgs, valid) ->
  length msgs = length valid
  /\ map ExpoPushMessage.to msgs = map DeviceRegistration.expoPushToken valid
  /\ valid = filter valid_token devs.
Proof.
  rewrite buildMessages_spec. simpl. intros H.
  injection H as <- <-.
  rewrite length_map, map_map. simpl. auto.
Qed.

Lemma submitChunks_spec :
  forall chunks st w,
    submitChunks chunks st w
    = (after_submit chunks w,
       Returned
         (mkSubmitted
            (tickets st ++ resolved_tickets (gateway w) (submitted w) chunks)
            (errors st ++ rejected_errors (gateway w) (submitted w) chunks)
            (failureCount st
             + rejected_count (gateway w) (submitted w) chunks))).
Proof.
  induction chunks as [|chunk rest IH]; intros st w; simpl.
  - unfold resolve, after_submit. simpl.
    rewrite !app_nil_r, !Nat.add_0_r. destruct w, st; reflexivity.
  - unfold await, try_catch, sendPushNotificationsAsync, resolve.
    destruct (gateway w (submitted w)) as [ticketChunk|e]; simpl;
      rewrite IH; simpl; unfold after_submit; simpl;
      rewrite <- !app_assoc; simpl;
      rewrite <- plus_n_Sm, ?Nat.add_assoc; reflexivity.
Qed.

(** ** Lemmas on the storage layer *)

Lemma hd_error_filter {A} (p : A -> bool) (l : list A) :
  hd_error (filter p l) = find p l.
Proof.
  induction l as [|a l IH]; simpl; [reflexivity|].
  now destruct (p a).
Qed.

Lemma after_calls_app cs1 cs2 w :
  after_calls cs2 (after_calls cs1 w) = after_calls (cs1 ++ cs2) w.
Proof.
  unfold after_calls. simpl. rewrite length_app, <- app_assoc.
  f_equal. lia.
Qed.

Lemma after_calls_nil w : after_calls [] w = w.
Proof. unfold after_calls. simpl. rewrite app_nil_r. now destruct w. Qed.

Lemma healthy_next w : healthy w -> database w (queries w) = None.
Proof. intros H. apply H. lia. Qed.

Lemma healthy_none w k :
  healthy w -> forall n, queries w <= n ->
  first_rejection (database w) n k = None.
Proof.
  intros H. induction k as [|k IH]; intros n Hn; simpl; [reflexivity|].
  rewrite (H n Hn). apply IH. lia.
Qed.

(** Unfolds a call on the storage layer down to the answer of the
    database. *)
Ltac storage :=
  unfold unregisterDevice, getDeviceByToken, getDevicesForUser,
    getEnabledDevices, updateDeviceLastNotified, getNotificationMessage,
    getPendingNotifications, updateNotificationStatus,
    await, called, new_Date, db_await, resolve,
    select_devices, select_messages, update_devices, update_messages;
  cbn [fst snd database queries record_call next_tick next_query].

Lemma getDevicesForUser_run userId w :
  getDevicesForUser userId w
  = (after_calls [GetDevicesForUser userId] w,
     match database w (queries w) with
     | None => Returned (devices_of_user w userId)
     | Some e => Thrown e
     end).
Proof. storage. now destruct (database w (queries w)). Qed.

Lemma getEnabledDevices_run w :
  getEnabledDevices w
  = (after_calls [GetEnabledDevices] w,
     match database w (queries w) with
     | None => Returned (filter DeviceRegistration.enabled (devices w))
     | Some e => Thrown e
     end).
Proof. storage. now destruct (database w (queries w)). Qed.

Lemma getNotificationMessage_run id w :
  getNotificationMessage id w
  = (after_calls [GetNotificationMessage id] w,
     match database w (queries w) with
     | None => Returned (lookup_message id w)
     | Some e => Thrown e
     end).
Proof.
  storage. unfold lookup_message.
  destruct (database w (queries w)); [reflexivity|].
  now rewrite hd_error_filter.
Qed.

Lemma getDeviceByToken_run token w :
  getDeviceByToken token w
  = (after_calls [GetDeviceByToken token] w,
     match database w (queries w) with
     | None => Returned (find (has_token token) (devices w))
     | Some e => Thrown e
     end).
Proof.
  storage. destruct (database w (queries w)); [reflexivity|].
  now rewrite hd_error_filter.
Qed.

Lemma Promise_all_map_getDevicesForUser :
  forall ids w,
    Promise_all_map getDevicesForUser ids w
    = (after_calls (map GetDevicesForUser ids) w,
       match first_rejection (database w) (queries w) (length ids) with
       | None => Returned (map (devices_of_user w) ids)
       | Some e => Thrown e
       end).
Proof.
  induction ids as [|u ids IH]; intros w.
  - simpl. unfold resolve. now rewrite after_calls_nil.
  - cbn [Promise_all_map map length first_rejection].
    rewrite getDevicesForUser_run, IH, after_calls_app.
    cbn [fst app database queries after_calls devices Nat.add length].
    destruct (database w (queries w)) as [e|]; [reflexivity|].
    now destruct (first_rejection (database w) (S (queries w)) (length ids)).
Qed.

Lemma resolveDevices_spec targetUserIds w :
  resolveDevices targetUserIds w
  = (after_calls (reads targetUserIds) w,
     match first_rejection (database w) (queries w)
             (length (reads targetUserIds)) with
     | None => Returned (candidates targetUserIds w)
     | Some e => Thrown e
     end).
Proof.
  assert (Hall : getEnabledDevices w
                 = (after_calls [GetEnabledDevices] w,
                    match first_rejection (database w) (queries w) 1 with
                    | None =>
                        Returned (filter DeviceRegistration.enabled (devices w))
                    | Some e => Thrown e
                    end)).
  { rewrite getEnabledDevices_run. simpl.
    now destruct (database w (queries w)). }
  destruct targetUserIds as [[|u ids]|]; try exact Hall.
  unfold resolveDevices, await. rewrite Promise_all_map_getDevicesForUser.
  cbn [reads candidates]. rewrite length_map.
  now destruct (first_rejection (database w) (queries w) (length (u :: ids))).
Qed.

Lemma resolveDevices_inv targetUserIds w w0 devs :
  resolveDevices targetUserIds w = (w0, Returned devs) ->
  w0 = after_calls (reads targetUserIds) w
  /\ devs = candidates targetUserIds w.
Proof.
  rewrite resolveDevices_spec.
  destruct (first_rejection _ _ _); [discriminate|].
  intros H. injection H as <- <-. auto.
Qed.

Lemma resolveDevices_healthy targetUserIds w :
  healthy w ->
  resolveDevices targetUserIds w
  = (after_calls (reads targetUserIds) w,
     Returned (candidates targetUserIds w)).
Proof.
  intros H. rewrite resolveDevices_spec.
  now rewrite (healthy_none w _ H (queries w)) by lia.
Qed.

Lemma getNotificationMessage_inv id w w0 found :
  getNotificationMessage id w = (w0, Returned found) ->
  w0 = after_calls [GetNotificationMessage id] w
  /\ found = lookup_message id w.
Proof.
  rewrite getNotificationMessage_run.
  destruct (database w (queries w)); [discriminate|].
  intros [= <- <-]. auto.
Qed.

(** ** What every run preserves

    A relation between worlds that is reflexive and transitive and that the
    calls on the collaborators respect is respected by the dispatcher as a
    whole, whether it returns or throws. *)
Section Frame.

Variable R : World -> World -> Prop.
Hypothesis R_refl : forall w, R w w.
Hypothesis R_trans : forall w1 w2 w3, R w1 w2 -> R w2 w3 -> R w1 w3.

Lemma respects_resolve {A} (a : A) : respects R (resolve a).
Proof. intros w. apply R_refl. Qed.

Lemma respects_throw {A} e : respects R (@throw A e).
Proof. intros w. apply R_refl. Qed.

Lemma respects_await {A B} (p : Promise A) (k : A -> Promise B) :
  respects R p -> (forall a, respects R (k a)) -> respects R (await p k).
Proof.
  intros Hp Hk w. unfold await. specialize (Hp w).
  destruct (p w) as [w1 [a|e]]; simpl in *.
  - eapply R_trans; [exact Hp|apply Hk].
  - exact Hp.
Qed.

Lemma respects_try_catch {A} (p : Promise A) h :
  respects R p -> (forall e, respects R (h e)) -> respects R (try_catch p h).
Proof.
  intros Hp Hh w. unfold try_catch. specialize (Hp w).
  destruct (p w) as [w1 [a|e]]; simpl in *.
  - exact Hp.
  - eapply R_trans; [exact Hp|apply Hh].
Qed.

Hypothesis R_getDevicesForUser : forall u, respects R (getDevicesForUser u).
Hypothesis R_getEnabledDevices : respects R getEnabledDevices.
Hypothesis R_updateDeviceLastNotified :
  forall id, respects R (updateDeviceLastNotified id).
Hypothesis R_unregisterDevice : forall t, respects R (unregisterDevice t).
Hypothesis R_sendPushNotificationsAsync :
  forall chunk, respects R (sendPushNotificationsAsync chunk).
Hypothesis R_getNotificationMessage :
  forall id, respects R (getNotificationMessage id).
Hypothesis R_updateNotificationStatus :
  forall id st sc fc, respects R (updateNotificationStatus id st sc fc).
Hypothesis R_getPendingNotifications : respects R getPendingNotifications.

Ltac respect :=
  repeat first
    [ apply respects_resolve
    | apply respects_throw
    | apply R_getDevicesForUser
    | apply R_getEnabledDevices
    | apply R_updateDeviceLastNotified
    | apply R_unregisterDevice
    | apply R_sendPushNotificationsAsync
    | apply R_getNotificationMessage
    | apply R_updateNotificationStatus
    | apply R_getPendingNotifications
    | apply respects_await; [|intros ?]
    | apply respects_try_catch; [|intros ?] ].

Lemma respects_Promise_all_map ids :
  respects R (Promise_all_map getDevicesForUser ids).
Proof.
  induction ids as [|u ids IH]; intros w; [apply R_refl|].
  cbn [Promise_all_map]. pose proof (R_getDevicesForUser u w) as Hu.
  destruct (getDevicesForUser u w) as [w1 out]. cbn [fst] in Hu.
  specialize (IH w1).
  destruct (Promise_all_map getDevicesForUser ids w1) as [w2 outs].
  cbn [fst] in IH.
  assert (H : R w w2) by (eapply R_trans; eassumption).
  destruct out as [b|e]; [destruct outs|]; exact H.
Qed.

Lemma respects_resolveDevices targetUserIds :
  respects R (resolveDevices targetUserIds).
Proof.
  destruct targetUserIds as [[|u ids]|]; unfold resolveDevices;
    try apply R_getEnabledDevices.
  apply respects_await;
    [apply respects_Promise_all_map|intros; apply respects_resolve].
Qed.

Lemma respects_submitChunks chunks :
  forall st, respects R (submitChunks chunks st).
Proof. induction chunks as [|chunk rest IH]; intros st; simpl; respect. apply IH. Qed.

Lemma respects_onTicket ticket device r : respects R (onTicket ticket device r).
Proof.
  destruct ticket as [tid|msg details]; simpl.
  - destruct device; simpl; respect.
  - destruct (details_error details) as [reason|]; [|respect].
    destruct (truthy_string reason); [|respect].
    destruct device; simpl; respect.
    destruct (String.eqb reason "DeviceNotRegistered"); respect.
Qed.

Lemma respects_ticketLoop valid rest :
  forall i r, respects R (ticketLoop valid rest i r).
Proof.
  induction rest as [|ticket rest IH]; intros i r; simpl; respect.
  - apply respects_onTicket.
  - apply IH.
Qed.

Lemma respects_sendPushNotification title body data targetUserIds :
  respects R (sendPushNotification title body data targetUserIds).
Proof.
  unfold sendPushNotification.
  apply respects_await; [apply respects_resolveDevices|intros devs].
  destruct (length devs =? 0); [respect|].
  destruct (buildMessages title body data devs [] []) as [msgs valid].
  destruct (length msgs =? 0); [respect|].
  apply respects_await; [apply respects_submitChunks|intros st].
  apply respects_ticketLoop.
Qed.

Lemma respects_parse_data data : respects R (parse_data data).
Proof.
  destruct data as [text|]; simpl; [|respect].
  destruct (truthy_string text); [|respect].
  destruct (JSON_parse text); respect.
Qed.

Lemma respects_sendNotificationMessage messageId :
  respects R (sendNotificationMessage messageId).
Proof.
  unfold sendNotificationMessage.
  apply respects_await; [apply R_getNotificationMessage|].
  intros [message|]; [|apply respects_resolve].
  destruct (negb _); [apply respects_resolve|].
  apply respects_await; [apply R_updateNotificationStatus|intros _].
  apply respects_await; [apply respects_parse_data|intros data].
  apply respects_await; [apply respects_sendPushNotification|intros result].
  apply respects_await; [apply R_updateNotificationStatus|intros _].
  apply respects_resolve.
Qed.

Lemma respects_forPending pending : respects R (forPending pending).
Proof.
  induction pending as [|message rest IH]; simpl.
  - apply respects_resolve.
  - apply respects_await; [|intros _; exact IH]. unfold attemptPending.
    apply respects_try_catch; [|intros _; apply R_updateNotificationStatus].
    apply respects_await;
      [apply respects_sendNotificationMessage|intros _; apply respects_resolve].
Qed.

Lemma respects_processPendingNotifications :
  respects R processPendingNotifications.
Proof.
  unfold processPendingNotifications.
  apply respects_await; [apply R_getPendingNotifications|].
  intros pending. apply respects_forPending.
Qed.

End Frame.

Lemma extends_refl w : extends w w.
Proof. exists []. now rewrite app_nil_r. Qed.

Lemma extends_trans w1 w2 w3 : extends w1 w2 -> extends w2 w3 -> extends w1 w3.
Proof.
  intros [m1 H1] [m2 H2]. exists (m1 ++ m2).
  now rewrite H2, H1, app_assoc.
Qed.

Lemma extends_In w w1 c : extends w w1 -> In c (calls w) -> In c (calls w1).
Proof. intros [more ->] H. apply in_or_app. now left. Qed.

Lemma follows_refl w : follows w w.
Proof. unfold follows. splits; try lia. apply extends_refl. Qed.

Lemma follows_trans w1 w2 w3 : follows w1 w2 -> follows w2 w3 -> follows w1 w3.
Proof.
  intros (Hc1 & Hd1 & Hg1 & Ht1 & Hq1 & Hs1 & He1)
         (Hc2 & Hd2 & Hg2 & Ht2 & Hq2 & Hs2 & He2).
  unfold follows. splits; try congruence; try lia.
  exact (extends_trans _ _ _ He1 He2).
Qed.

Lemma follows_extends w w1 : follows w w1 -> extends w w1.
Proof. intros H. apply H. Qed.

Lemma follows_healthy w w1 : follows w w1 -> healthy w -> healthy w1.
Proof.
  intros (_ & Hd & _ & _ & Hq & _) H n Hn. rewrite Hd. apply H. lia.
Qed.

(** Closes a goal [follows w w1] where [w1] is [w] after readings of the
    clock, a query, a table update and one more call in the log. *)
Ltac following :=
  unfold follows; cbn; splits; try lia;
  try (eexists; reflexivity);
  try (eexists; rewrite <- app_assoc; reflexivity).

Lemma follows_storage :
  (forall u, respects follows (getDevicesForUser u))
  /\ respects follows getEnabledDevices
  /\ (forall id, respects follows (updateDeviceLastNotified id))
  /\ (forall t, respects follows (unregisterDevice t))
  /\ (forall id, respects follows (getNotificationMessage id))
  /\ (forall id st sc fc, respects follows (updateNotificationStatus id st sc fc))
  /\ respects follows getPendingNotifications
  /\ (forall t, respects follows (getDeviceByToken t)).
Proof.
  splits; intros; intros w; storage;
    try (destruct (String.eqb st "sent"); cbn);
    destruct (database w _); following.
Qed.

Lemma follows_sendPushNotificationsAsync chunk :
  respects follows (sendPushNotificationsAsync chunk).
Proof.
  intros w. unfold sendPushNotificationsAsync.
  destruct (gateway w (submitted w)); following.
Qed.

(** Every run of the dispatcher, returning or throwing, leaves the clock,
    the database and the gateway as they are and keeps the calls already
    logged. *)
Lemma onTicket_follows ticket device r w :
  follows w (fst (onTicket ticket device r w)).
Proof.
  destruct follows_storage as (F1 & F2 & F3 & F4 & F5 & F6 & F7 & F8).
  now apply (respects_onTicket follows follows_refl follows_trans).
Qed.

Lemma ticketLoop_follows valid rest i r w :
  follows w (fst (ticketLoop valid rest i r w)).
Proof.
  destruct follows_storage as (F1 & F2 & F3 & F4 & F5 & F6 & F7 & F8).
  now apply (respects_ticketLoop follows follows_refl follows_trans).
Qed.

Lemma sendPushNotification_follows title body data targetUserIds w :
  follows w (fst (sendPushNotification title body data targetUserIds w)).
Proof.
  destruct follows_storage as (F1 & F2 & F3 & F4 & F5 & F6 & F7 & F8).
  apply (respects_sendPushNotification follows follows_refl follows_trans);
    try assumption.
  apply follows_sendPushNotificationsAsync.
Qed.

Lemma sendNotificationMessage_follows messageId w :
  follows w (fst (sendNotificationMessage messageId w)).
Proof.
  destruct follows_storage as (F1 & F2 & F3 & F4 & F5 & F6 & F7 & F8).
  apply (respects_sendNotificationMessage follows follows_refl follows_trans);
    try assumption.
  apply follows_sendPushNotificationsAsync.
Qed.

Lemma forPending_follows pending w :
  follows w (fst (forPending pending w)).
Proof.
  destruct follows_storage as (F1 & F2 & F3 & F4 & F5 & F6 & F7 & F8).
  apply (respects_forPending follows follows_refl follows_trans);
    try assumption.
  apply follows_sendPushNotificationsAsync.
Qed.

Lemma keeps_messages_refl w : keeps_messages w w.
Proof. reflexivity. Qed.

Lemma keeps_messages_trans w1 w2 w3 :
  keeps_messages w1 w2 -> keeps_messages w2 w3 -> keeps_messages w1 w3.
Proof. unfold keeps_messages. congruence. Qed.

(** Every run of [sendPushNotification] leaves the message table alone. *)
Lemma sendPushNotification_keeps_messages title body data targetUserIds w :
  keeps_messages w
    (fst (sendPushNotification title body data targetUserIds w)).
Proof.
  apply (respects_sendPushNotification keeps_messages
           keeps_messages_refl keeps_messages_trans);
    intros; intros w0; unfold keeps_messages; storage;
    try (unfold sendPushNotificationsAsync;
         now destruct (gateway w0 (submitted w0)));
    now destruct (database w0 _).
Qed.

(** ** Lemmas on the ticket loop *)

Lemma skipn_nth_error {A} (l : list A) :
  forall i d, nth_error l i = Some d -> skipn i l = d :: skipn (S i) l.
Proof.
  induction l as [|a l IH]; intros [|i] d H; simpl in *; try discriminate.
  - now injection H as ->.
  - now apply IH.
Qed.

(** One iteration of the ticket loop, for a ticket that has a device at its
    index, when the database executes the write the iteration makes. *)
Lemma onTicket_some ticket d r w :
  healthy w ->
  exists w1,
    onTicket ticket (Some d) r w
    = (w1,
       Returned
         (SendResult.mk
            (SendResult.successCount r + count_ok [ticket])
            (SendResult.failureCount r + count_not_ok [ticket])
            (SendResult.errors r ++ errors_of (d, ticket))))
    /\ calls w1 = calls w ++ calls_of (d, ticket)
    /\ same_messages w w1
    /\ submitted w1 = submitted w.
Proof.
  intros Hw. pose proof (healthy_next w Hw) as Hdb.
  unfold same_messages, errors_of, calls_of, count_ok, count_not_ok.
  destruct ticket as [tid|msg details]; simpl.
  - eexists. split.
    + unfold property_of. storage. rewrite Hdb. cbn.
      now rewrite Nat.add_0_r, Nat.add_1_r, app_nil_r.
    + cbn. auto.
  - destruct (details_error details) as [reason|]; simpl;
      [destruct (truthy_string reason); simpl;
       [destruct (String.eqb reason "DeviceNotRegistered"); simpl|]|];
      (eexists; split;
       [ unfold property_of, error_line; storage; rewrite ?Hdb; cbn;
         rewrite ?Nat.add_0_r, ?Nat.add_1_r, ?app_nil_r; reflexivity
       | cbn; rewrite ?app_nil_r; auto ]).
Qed.

Lemma count_ok_cons ticket rest :
  count_ok (ticket :: rest) = count_ok [ticket] + count_ok rest.
Proof. unfold count_ok. simpl. now destruct (is_ok ticket). Qed.

Lemma count_not_ok_cons ticket rest :
  count_not_ok (ticket :: rest) = count_not_ok [ticket] + count_not_ok rest.
Proof. unfold count_not_ok. simpl. now destruct (is_ok ticket). Qed.

Lemma count_ok_not_ok ts : count_ok ts + count_not_ok ts = length ts.
Proof.
  unfold count_ok, count_not_ok.
  induction ts as [|t ts IH]; simpl; [reflexivity|].
  destruct (is_ok t); simpl; lia.
Qed.

(** The ticket loop when every ticket has a device at its index and the
    database executes every write: it returns, and its counters, error
    strings and storage calls are those of the pairs
    [(validDevices[i], tickets[i])]. *)
Lemma ticketLoop_spec valid :
  forall rest i r w,
    healthy w ->
    i + length rest <= length valid ->
    exists w1,
      ticketLoop valid rest i r w
      = (w1,
         Returned
           (SendResult.mk
              (SendResult.successCount r + count_ok rest)
              (SendResult.failureCount r + count_not_ok rest)
              (SendResult.errors r
               ++ flat_map errors_of (combine (skipn i valid) rest))))
      /\ calls w1
         = calls w ++ flat_map calls_of (combine (skipn i valid) rest)
      /\ same_messages w w1
      /\ submitted w1 = submitted w.
Proof.
  induction rest as [|ticket rest IH]; intros i r w Hw Hlen; simpl in *.
  - exists w. unfold resolve, same_messages.
    rewrite combine_nil, !Nat.add_0_r. simpl. rewrite !app_nil_r.
    destruct r; simpl; splits.
  - destruct (nth_error valid i) as [d|] eqn:Hd.
    2:{ apply nth_error_None in Hd. lia. }
    destruct (onTicket_some ticket d r w Hw)
      as (w1 & Hrun & Hcalls & Hsame & Hsub).
    assert (Hw1 : healthy w1).
    { apply (follows_healthy w); [|exact Hw].
      pose proof (onTicket_follows ticket (Some d) r w) as H.
      now rewrite Hrun in H. }
    destruct (IH (S i) (SendResult.mk
            (SendResult.successCount r + count_ok [ticket])
            (SendResult.failureCount r + count_not_ok [ticket])
            (SendResult.errors r ++ errors_of (d, ticket))) w1 Hw1)
      as (w2 & Hrun2 & Hcalls2 & Hsame2 & Hsub2); [lia|].
    exists w2. unfold await at 1. rewrite Hrun, Hrun2. simpl.
    rewrite (skipn_nth_error _ _ _ Hd). simpl.
    rewrite (count_ok_cons ticket rest), (count_not_ok_cons ticket rest).
    rewrite Hcalls2, Hcalls, <- !app_assoc, !Nat.add_assoc.
    unfold same_messages in *.
    destruct Hsame as [Hm Hg], Hsame2 as [Hm2 Hg2].
    splits; congruence.
Qed.

(** Under the gateway's contract, every message of every chunk is accounted
    for: by a ticket, or by the count of the chunks that threw. *)
Lemma contract_accounts g :
  forall chunks n,
    gateway_contract g n chunks ->
    length (resolved_tickets g n chunks) + rejected_count g n chunks
    = length (concat chunks).
Proof.
  induction chunks as [|chunk rest IH]; intros n H; simpl in *.
  - reflexivity.
  - destruct H as [H1 H2]. specialize (IH _ H2).
    rewrite length_app.
    destruct (g n) as [ticketChunk|e]; simpl in *.
    + rewrite length_app. lia.
    + lia.
Qed.

(** The closed form of [sendPushNotification] on the path that reaches the
    gateway, when the database executes every query and the tickets
    gathered are no more than the valid devices. *)
Lemma sendPushNotification_submits title body data targetUserIds w msgs valid :
  healthy w ->
  buildMessages title body data (candidates targetUserIds w) [] []
  = (msgs, valid) ->
  msgs <> [] ->
  let chunks := chunkPushNotifications msgs in
  let ts := resolved_tickets (gateway w) (submitted w) chunks in
  length ts <= length valid ->
  exists w1,
    sendPushNotification title body data targetUserIds w
    = (w1,
       Returned
         (SendResult.mk
            (count_ok ts)
            (rejected_count (gateway w) (submitted w) chunks + count_not_ok ts)
            (rejected_errors (gateway w) (submitted w) chunks
             ++ flat_map errors_of (combine valid ts))))
    /\ calls w1
       = calls w ++ reads targetUserIds
         ++ map SendPushNotificationsAsync chunks
         ++ flat_map calls_of (combine valid ts)
    /\ same_messages w w1
    /\ submitted w1 = submitted w + length chunks.
Proof.
  intros Hw Hbuild Hne chunks ts Hlen.
  unfold sendPushNotification, await at 1.
  rewrite (resolveDevices_healthy _ _ Hw), Hbuild.
  destruct (buildMessages_lengths _ _ _ _ _ _ Hbuild) as (Hl & _ & Hv).
  destruct (candidates targetUserIds w) as [|d0 devs] eqn:Hc.
  { rewrite buildMessages_spec in Hbuild. simpl in Hbuild.
    injection Hbuild as <- <-. now elim Hne. }
  cbn [length Nat.eqb].
  destruct msgs as [|m0 msgs]; [now elim Hne|].
  cbn [length Nat.eqb].
  unfold await. rewrite submitChunks_spec. cbn [tickets errors failureCount].
  cbn [app Nat.add].
  destruct (ticketLoop_spec valid ts 0
              (SendResult.mk 0
                 (rejected_count (gateway w) (submitted w) chunks)
                 (rejected_errors (gateway w) (submitted w) chunks))
              (after_submit chunks (after_calls (reads targetUserIds) w)))
    as (w1 & Hrun & Hcalls & Hsame & Hsub); [|simpl; lia|].
  { intros n Hn. cbn in Hn |- *. apply Hw. lia. }
  exists w1. fold chunks.
  change (gateway (after_calls (reads targetUserIds) w)) with (gateway w).
  change (submitted (after_calls (reads targetUserIds) w)) with (submitted w).
  fold ts. rewrite Hrun.
  simpl in Hcalls, Hsame, Hsub. unfold same_messages in *. simpl in Hsame.
  rewrite Hcalls, <- !app_assoc. simpl.
  destruct Hsame as (Hm & Hg). splits; assumption.
Qed.

(** ** Properties of [sendPushNotification] *)

(** C8. When the candidate devices resolve to the empty list,
    [sendPushNotification] returns the zero result with the single error
    "No registered devices found"; it does not throw, the two tables are
    unchanged, nothing is submitted to the gateway, and the only calls made
    are the reads that resolved the candidates. *)
Theorem empty_audience_returns_zero_result
  title body data targetUserIds w w0 :
  resolveDevices targetUserIds w = (w0, Returned []) ->
  sendPushNotification title body data targetUserIds w
  = (w0, Returned (SendResult.mk 0 0 ["No registered devices found"]))
  /\ devices w0 = devices w
  /\ messages w0 = messages w
  /\ submitted w0 = submitted w
  /\ calls w0 = calls w ++ reads targetUserIds.
Proof.
  intros Hres.
  unfold sendPushNotification, await. rewrite Hres. simpl.
  apply resolveDevices_inv in Hres. destruct Hres as [-> _].
  splits.
Qed.

Lemma rejected_errors_In g :
  forall chunks n j chunk e,
    nth_error chunks j = Some chunk ->
    g (n + j) = Rejects e ->
    In (String_of_error e) (rejected_errors g n chunks).
Proof.
  induction chunks as [|c rest IH]; intros n j chunk e Hnth Hg.
  - destruct j; discriminate.
  - destruct j as [|j]; simpl in *.
    + rewrite Nat.add_0_r in Hg. rewrite Hg. now left.
    + rewrite <- plus_n_Sm in Hg.
      specialize (IH (S n) j chunk e Hnth Hg).
      destruct (g n); [exact IH|now right].
Qed.

Lemma all_resolve_nothing_rejected g :
  forall chunks n,
    all_resolve g n chunks ->
    rejected_count g n chunks = 0 /\ rejected_errors g n chunks = [].
Proof.
  induction chunks as [|c rest IH]; intros n H; simpl in *; [auto|].
  destruct (g n); [now apply IH|contradiction].
Qed.

Lemma combine_app_aligned {A B} (l1 l3 : list A) (l2 l4 : list B) :
  length l1 = length l2 ->
  combine (l1 ++ l3) (l2 ++ l4) = combine l1 l2 ++ combine l3 l4.
Proof.
  revert l2. induction l1 as [|a l1 IH]; intros [|b l2] H; simpl in *;
    try discriminate; [reflexivity|].
  f_equal. apply IH. lia.
Qed.

Lemma nth_error_In_combine {A B} (l1 : list A) (l2 : list B) :
  forall k a b,
    nth_error l1 k = Some a -> nth_error l2 k = Some b ->
    In (a, b) (combine l1 l2).
Proof.
  revert l2. induction l1 as [|x l1 IH]; intros [|y l2] [|k] a b H1 H2;
    simpl in *; try discriminate.
  - injection H1 as ->. injection H2 as ->. now left.
  - right. eapply IH; eassumption.
Qed.

(** When no submission throws and the contract holds, a ticket sits in the
    flat ticket list at the position its message has in the flat message
    list. *)
Lemma chunk_pairs_are_flat_pairs g :
  forall chunks n j chunk ticketChunk p,
    all_resolve g n chunks ->
    gateway_contract g n chunks ->
    nth_error chunks j = Some chunk ->
    g (n + j) = Resolves ticketChunk ->
    In p (combine chunk ticketChunk) ->
    In p (combine (concat chunks) (resolved_tickets g n chunks)).
Proof.
  induction chunks as [|c rest IH];
    intros n j chunk ticketChunk p Hall Hcon Hnth Hg Hin.
  - destruct j; discriminate.
  - simpl in *. destruct Hcon as [Hc Hcon].
    destruct (g n) as [t0|e0] eqn:Hgn; [|contradiction].
    simpl in Hc. rewrite combine_app_aligned by (symmetry; exact Hc).
    apply in_or_app.
    destruct j as [|j]; simpl in Hnth.
    + injection Hnth as ->. rewrite Nat.add_0_r, Hgn in Hg.
      injection Hg as ->. now left.
    + right. rewrite <- plus_n_Sm in Hg.
      eapply (IH (S n) j); eassumption.
Qed.

Lemma flat_pair_has_device (valid : list DeviceRegistration.t) :
  forall (msgs : list ExpoPushMessage.t) (ts : list ExpoPushTicket) message t,
    map ExpoPushMessage.to msgs
    = map DeviceRegistration.expoPushToken valid ->
    In (message, t) (combine msgs ts) ->
    exists d,
      In (d, t) (combine valid ts)
      /\ DeviceRegistration.expoPushToken d = ExpoPushMessage.to message.
Proof.
  induction valid as [|d0 valid IH]; intros [|m0 msgs] [|t0 ts] message t Hmap Hin;
    simpl in *; try contradiction; try discriminate.
  injection Hmap as Hto Hmap.
  destruct Hin as [Heq|Hin].
  - injection Heq as -> ->. exists d0. split; [now left|now symmetry].
  - destruct (IH msgs ts message t Hmap Hin) as (d & Hd & Htok).
    exists d. split; [now right|exact Htok].
Qed.

(** The calls of the ticket loop are writes to the device registry. *)
Lemma calls_of_are_registry_writes
  (pairs : list (DeviceRegistration.t * ExpoPushTicket)) :
  Forall (fun c => is_registry_write c = true) (flat_map calls_of pairs).
Proof.
  induction pairs as [|[d ticket] pairs IH]; cbn [flat_map]; [constructor|].
  apply Forall_app. split; [|exact IH].
  unfold calls_of. cbn [fst snd].
  destruct ticket as [tid|text details]; [now repeat constructor|].
  destruct (reason_of _) as [reason|]; [|constructor].
  destruct (String.eqb reason "DeviceNotRegistered"); now repeat constructor.
Qed.

Lemma filter_split_length {A} (p : A -> bool) (l : list A) :
  length (filter p l) + length (filter (fun a => negb (p a)) l) = length l.
Proof.
  induction l as [|a l IH]; simpl; [reflexivity|].
  destruct (p a); simpl; lia.
Qed.

Lemma none_rejected db :
  forall k n,
    first_rejection db n k = None ->
    forall i, n <= i < n + k -> db i = None.
Proof.
  induction k as [|k IH]; intros n H i Hi; [lia|].
  simpl in H. destruct (db n) eqn:Hn; [discriminate|].
  destruct (Nat.eq_dec i n) as [->|Hneq]; [exact Hn|].
  apply (IH (S n) H). lia.
Qed.

(** When the reads that resolve the candidates have resolved and the
    database executes every query after them, it has executed every query
    of the run. *)
Lemma healthy_before_reads targetUserIds w w0 devs :
  resolveDevices targetUserIds w = (w0, Returned devs) ->
  healthy w0 -> healthy w.
Proof.
  rewrite resolveDevices_spec.
  destruct (first_rejection _ _ _) eqn:Hnone; [discriminate|].
  intros [= <- _] Hw0 n Hn.
  destruct (Nat.lt_ge_cases n (queries w + length (reads targetUserIds)))
    as [Hlt|Hge].
  - apply (none_rejected _ _ _ Hnone). lia.
  - apply (Hw0 n). cbn. lia.
Qed.

(** C9. When the candidates hold at least one device with a valid token,
    the gateway keeps its contract (one ticket per message for a submission
    that does not throw) and the database executes the writes of the run,
    [sendPushNotification] returns and:
    - the messages submitted, chunk after chunk, are exactly those built for
      the candidates with a valid token, one each and in their order, and
      after the submissions the run only writes to the device registry;
    - the success count is the number of ok tickets and the failure count
      the number of messages in the chunks that threw plus the number of
      tickets that are not ok;
    - the two counts add up to the number of candidates with a valid token,
      that is, to the number of candidates less those with an invalid
      token -- whichever chunks throw and whichever tickets are ok. *)
Theorem counts_add_up_to_submitted_endpoints
  title body data targetUserIds w w0 devs :
  resolveDevices targetUserIds w = (w0, Returned devs) ->
  healthy w0 ->
  let valid := filter valid_token devs in
  let invalid := filter (fun d => negb (valid_token d)) devs in
  let submittedMessages := map (message_for title body data) valid in
  let chunks := chunkPushNotifications submittedMessages in
  let ts := resolved_tickets (gateway w0) (submitted w0) chunks in
  valid <> [] ->
  gateway_contract (gateway w0) (submitted w0) chunks ->
  exists w1 r later,
    sendPushNotification title body data targetUserIds w = (w1, Returned r)
    /\ concat chunks = submittedMessages
    /\ calls w1 = calls w0 ++ map SendPushNotificationsAsync chunks ++ later
    /\ Forall (fun c => is_registry_write c = true) later
    /\ submitted w1 = submitted w0 + length chunks
    /\ SendResult.successCount r = count_ok ts
    /\ SendResult.failureCount r
       = rejected_count (gateway w0) (submitted w0) chunks + count_not_ok ts
    /\ SendResult.successCount r + SendResult.failureCount r = length valid
    /\ length valid + length invalid = length devs.
Proof.
  intros Hres Hw0 valid invalid msgs chunks ts Hne Hcontract.
  pose proof (healthy_before_reads _ _ _ _ Hres Hw0) as Hw.
  apply resolveDevices_inv in Hres. destruct Hres as [-> ->].
  cbn [gateway submitted after_calls] in *.
  pose proof (contract_accounts _ _ _ Hcontract) as Hacc.
  unfold chunks in Hacc. rewrite length_concat_chunks in Hacc.
  fold chunks ts in Hacc.
  assert (Hbuild : buildMessages title body data
                     (candidates targetUserIds w) [] [] = (msgs, valid))
    by (now rewrite buildMessages_spec).
  assert (Hmsgs : msgs <> []).
  { unfold msgs. destruct valid; [now elim Hne|discriminate]. }
  assert (Hlen : length msgs = length valid) by apply length_map.
  destruct (sendPushNotification_submits _ _ _ _ _ _ _ Hw Hbuild Hmsgs)
    as (w1 & Hrun & Hcalls & _ & Hsub); [fold chunks ts; lia|].
  fold chunks ts in Hrun, Hcalls, Hsub.
  exists w1. eexists. exists (flat_map calls_of (combine valid ts)).
  split; [exact Hrun|]. cbn [SendResult.successCount SendResult.failureCount].
  split; [apply chunkPushNotifications_concat|].
  split; [rewrite Hcalls; cbn; now rewrite <- !app_assoc|].
  split; [apply calls_of_are_registry_writes|].
  split; [exact Hsub|]. split; [reflexivity|]. split; [reflexivity|].
  split; [|apply filter_split_length].
  pose proof (count_ok_not_ok ts). lia.
Qed.

Lemma registry_writes_only_refl w : registry_writes_only w w.
Proof.
  split; [reflexivity|]. exists []. rewrite app_nil_r. split; constructor.
Qed.

Lemma registry_writes_only_trans w1 w2 w3 :
  registry_writes_only w1 w2 -> registry_writes_only w2 w3 ->
  registry_writes_only w1 w3.
Proof.
  intros (Hs1 & l1 & Hc1 & Hf1) (Hs2 & l2 & Hc2 & Hf2).
  split; [congruence|]. exists (l1 ++ l2). split.
  - now rewrite Hc2, Hc1, app_assoc.
  - apply Forall_app. now split.
Qed.

Lemma ticketLoop_registry_writes_only valid rest i r w :
  registry_writes_only w (fst (ticketLoop valid rest i r w)).
Proof.
  apply (respects_ticketLoop registry_writes_only
           registry_writes_only_refl registry_writes_only_trans).
  - intros id w0. storage.
    destruct (database w0 _); (split; [reflexivity|]);
      exists [UpdateDeviceLastNotified id]; (split; [reflexivity|]);
      now repeat constructor.
  - intros t w0. storage.
    destruct (database w0 _); (split; [reflexivity|]);
      exists [UnregisterDevice t]; (split; [reflexivity|]);
      now repeat constructor.
Qed.

(** The calls of any run of [sendPushNotification] whose reads resolve,
    returning or throwing: after the reads, one submission per chunk of the
    messages built for the candidates with a valid token, then writes to
    the device registry only. *)
Lemma sendPushNotification_trace title body data targetUserIds w w0 devs :
  resolveDevices targetUserIds w = (w0, Returned devs) ->
  let chunks :=
    chunkPushNotifications
      (map (message_for title body data) (filter valid_token devs)) in
  let w1 := fst (sendPushNotification title body data targetUserIds w) in
  exists later,
    calls w1 = calls w0 ++ map SendPushNotificationsAsync chunks ++ later
    /\ Forall (fun c => is_registry_write c = true) later
    /\ submitted w1 = submitted w0 + length chunks.
Proof.
  intros Hres chunks w1. subst w1.
  unfold sendPushNotification, await. rewrite Hres.
  unfold chunks. clear chunks Hres.
  destruct devs as [|d0 devs].
  { exists []. simpl. rewrite !app_nil_r, Nat.add_0_r. splits. constructor. }
  cbn [length Nat.eqb]. rewrite buildMessages_spec. cbn [app].
  destruct (filter valid_token (d0 :: devs)) as [|v0 valid].
  { exists []. simpl. rewrite !app_nil_r, Nat.add_0_r. splits. constructor. }
  cbn [map length Nat.eqb].
  set (chunks := chunkPushNotifications _).
  rewrite submitChunks_spec. cbn [tickets errors failureCount].
  match goal with
  | |- context [ticketLoop ?v ?ts ?i ?r ?wl] =>
      destruct (ticketLoop_registry_writes_only v ts i r wl)
        as (Hsub & later & Hcalls & Hwrites)
  end.
  exists later. split; [|split; [exact Hwrites|]].
  - rewrite Hcalls. simpl. now rewrite <- !app_assoc.
  - rewrite Hsub. reflexivity.
Qed.

(** C6. On the path that reaches the gateway every chunk is submitted, in
    order, whatever the earlier submissions did and whatever the database
    does afterwards -- all submissions precede the first registry write --
    and after the last submission the run only writes to the device
    registry.  With a gateway that keeps its contract and a database that
    executes those writes, the call returns; the returned failure count is
    the total length of the chunks whose submission threw plus the number
    of tickets that are not ok; and the string of every thrown error is
    among the returned errors. *)
Theorem rejected_chunk_is_counted_and_run_continues
  title body data targetUserIds w w0 devs msgs valid :
  resolveDevices targetUserIds w = (w0, Returned devs) ->
  buildMessages title body data devs [] [] = (msgs, valid) ->
  msgs <> [] ->
  let chunks := chunkPushNotifications msgs in
  let g := gateway w0 in
  let n := submitted w0 in
  let run := sendPushNotification title body data targetUserIds w in
  (exists later,
     calls (fst run)
     = calls w0 ++ map SendPushNotificationsAsync chunks ++ later
     /\ Forall (fun c => is_registry_write c = true) later
     /\ submitted (fst run) = n + length chunks)
  /\ (healthy w0 ->
      gateway_contract g n chunks ->
      exists r,
        snd run = Returned r
        /\ SendResult.failureCount r
           = rejected_count g n chunks
             + count_not_ok (resolved_tickets g n chunks)
        /\ forall j chunk e,
             nth_error chunks j = Some chunk ->
             g (n + j) = Rejects e ->
             In (String_of_error e) (SendResult.errors r)).
Proof.
  intros Hres Hbuild Hne chunks g n run.
  split.
  { destruct (sendPushNotification_trace title body data _ _ _ _ Hres)
      as (later & Hcalls & Hwrites & Hsub).
    rewrite buildMessages_spec in Hbuild. cbn [app] in Hbuild.
    injection Hbuild as Hmsgs _. rewrite Hmsgs in Hcalls, Hsub.
    exists later. split; [exact Hcalls|]. split; [exact Hwrites|exact Hsub]. }
  intros Hw0 Hcontract.
  pose proof (healthy_before_reads _ _ _ _ Hres Hw0) as Hw.
  apply resolveDevices_inv in Hres. destruct Hres as [-> ->].
  subst g n. simpl in *.
  pose proof (contract_accounts _ _ _ Hcontract) as Hacc.
  unfold chunks in Hacc. rewrite length_concat_chunks in Hacc.
  destruct (buildMessages_lengths _ _ _ _ _ _ Hbuild) as (Hl & _ & _).
  destruct (sendPushNotification_submits _ _ _ _ _ _ _ Hw Hbuild Hne)
    as (w1 & Hrun & _); [lia|].
  subst run. rewrite Hrun. eexists. split; [reflexivity|]. simpl.
  split; [reflexivity|].
  intros j chunk e Hnth Hg. apply in_or_app. left.
  eapply rejected_errors_In; eassumption.
Qed.

Lemma filter_none {A} (p : A -> bool) (l : list A) :
  (forall a, In a l -> p a = false) -> filter p l = [].
Proof.
  induction l as [|a l IH]; intros H; simpl; [reflexivity|].
  rewrite (H a) by now left. apply IH. intros b Hb. apply H. now right.
Qed.

Lemma reads_are_no_registry_writes targetUserIds (p : Call -> bool) :
  (forall c, p c = true -> is_registry_write c = true) ->
  filter p (reads targetUserIds) = [].
Proof.
  intros Hp. apply filter_none. intros c Hc.
  destruct (p c) eqn:E; [|reflexivity]. apply Hp in E.
  destruct targetUserIds as [[|u us]|]; simpl in Hc;
    try (destruct Hc as [<-|[]]; discriminate).
  destruct Hc as [<-|Hc]; [discriminate|].
  apply in_map_iff in Hc. destruct Hc as (u1 & <- & _). discriminate.
Qed.

Lemma submissions_are_no_registry_writes chunks (p : Call -> bool) :
  (forall c, p c = true -> is_registry_write c = true) ->
  filter p (map SendPushNotificationsAsync chunks) = [].
Proof.
  intros Hp. apply filter_none. intros c Hc.
  destruct (p c) eqn:E; [|reflexivity]. apply Hp in E.
  apply in_map_iff in Hc. destruct Hc as (chunk & <- & _). discriminate.
Qed.

Lemma is_unregister_registry_write c :
  is_unregister c = true -> is_registry_write c = true.
Proof. now destruct c. Qed.

Lemma is_notified_registry_write c :
  is_notified c = true -> is_registry_write c = true.
Proof. now destruct c. Qed.

(** The error strings and the unregistrations of the ticket loop, read off
    the messages the tickets are for. *)
Lemma ticket_loop_records (valid : list DeviceRegistration.t) :
  forall (msgs : list ExpoPushMessage.t) (ts : list ExpoPushTicket),
    map ExpoPushMessage.to msgs
    = map DeviceRegistration.expoPushToken valid ->
    flat_map errors_of (combine valid ts) = flat_map reported (combine msgs ts)
    /\ filter is_unregister (flat_map calls_of (combine valid ts))
       = flat_map unregistrations (combine msgs ts).
Proof.
  induction valid as [|d valid IH]; intros [|m msgs] [|t ts] Hto;
    try discriminate; try (split; reflexivity).
  injection Hto as Hm Hto. destruct (IH msgs ts Hto) as [IH1 IH2].
  cbn [combine flat_map]. rewrite filter_app, IH1, IH2.
  unfold errors_of, reported, calls_of, unregistrations. cbn [fst snd].
  rewrite Hm. split; [reflexivity|]. f_equal.
  destruct t as [tid|text details]; [reflexivity|].
  destruct (reason_of _) as [reason|]; [|reflexivity].
  now destruct (String.eqb reason "DeviceNotRegistered").
Qed.

(** C3, as the code has it.  When no submission throws, the gateway keeps
    its contract and the database executes the writes of the run,
    [sendPushNotification] returns and its failure count is the number of
    tickets that are not ok.  The ticket loop goes through the messages
    submitted and the tickets returned, pair by pair, each ticket with the
    message at its position in its chunk.  The returned errors are, in that
    order, one string "<token>: <reason>" for every error ticket that
    carries a non-empty [details.error], and nothing for any other ticket;
    [unregisterDevice] is called, in that order, once on the token of every
    message whose ticket carries the reason [DeviceNotRegistered], and on
    no other token. *)
Theorem error_ticket_with_reason_is_reported
  title body data targetUserIds w w0 devs msgs valid :
  resolveDevices targetUserIds w = (w0, Returned devs) ->
  healthy w0 ->
  buildMessages title body data devs [] [] = (msgs, valid) ->
  msgs <> [] ->
  let chunks := chunkPushNotifications msgs in
  let g := gateway w0 in
  let n := submitted w0 in
  let ts := resolved_tickets g n chunks in
  all_resolve g n chunks ->
  gateway_contract g n chunks ->
  exists w1 r new,
    sendPushNotification title body data targetUserIds w = (w1, Returned r)
    /\ calls w1 = calls w ++ new
    /\ SendResult.failureCount r = count_not_ok ts
    /\ SendResult.errors r = flat_map reported (combine msgs ts)
    /\ filter is_unregister new = flat_map unregistrations (combine msgs ts)
    /\ forall j k chunk ticketChunk message text details,
         nth_error chunks j = Some chunk ->
         g (n + j) = Resolves ticketChunk ->
         nth_error chunk k = Some message ->
         nth_error ticketChunk k = Some (ErrorTicket text details) ->
         In (message, ErrorTicket text details) (combine msgs ts)
         /\ forall reason,
              details_error details = Some reason ->
              reason <> EmptyString ->
              In (error_line (ExpoPushMessage.to message) reason)
                 (SendResult.errors r)
              /\ (reason = "DeviceNotRegistered" ->
                  In (UnregisterDevice (ExpoPushMessage.to message)) new).
Proof.
  intros Hres Hw0 Hbuild Hne chunks g n ts Hall Hcontract.
  pose proof (healthy_before_reads _ _ _ _ Hres Hw0) as Hw.
  apply resolveDevices_inv in Hres. destruct Hres as [-> ->].
  subst g n. cbn [gateway submitted after_calls] in *.
  pose proof (contract_accounts _ _ _ Hcontract) as Hacc.
  unfold chunks in Hacc. rewrite length_concat_chunks in Hacc.
  destruct (buildMessages_lengths _ _ _ _ _ _ Hbuild) as (Hl & Hto & _).
  destruct (sendPushNotification_submits _ _ _ _ _ _ _ Hw Hbuild Hne)
    as (w1 & Hrun & Hcalls & _); [lia|].
  destruct (all_resolve_nothing_rejected _ _ _ Hall) as [Hcount Herrs].
  fold chunks in Hrun, Hcalls. fold ts in Hrun, Hcalls.
  rewrite Hcount, Herrs in Hrun.
  destruct (ticket_loop_records valid msgs ts Hto) as [Hlines Hgone].
  cbn [app Nat.add] in Hrun. rewrite Hlines in Hrun.
  exists w1. eexists. eexists. split; [exact Hrun|].
  split; [exact Hcalls|]. split; [reflexivity|].
  cbn [SendResult.errors]. split; [reflexivity|]. split.
  { rewrite !filter_app.
    rewrite (reads_are_no_registry_writes _ _ is_unregister_registry_write).
    rewrite (submissions_are_no_registry_writes _ _
               is_unregister_registry_write).
    exact Hgone. }
  intros j k chunk ticketChunk message text details Hnth Hg Hmsg Hticket.
  assert (Hflat : In (message, ErrorTicket text details) (combine msgs ts)).
  { pose proof (chunk_pairs_are_flat_pairs _ _ _ _ _ _ _
                  Hall Hcontract Hnth Hg
                  (nth_error_In_combine _ _ _ _ _ Hmsg Hticket)) as H.
    unfold chunks in H at 1. now rewrite chunkPushNotifications_concat in H. }
  split; [exact Hflat|].
  intros reason Hdetails Hreason.
  assert (Hwhy : reason_of (ErrorTicket text details) = Some reason).
  { simpl. rewrite Hdetails. destruct reason; [now elim Hreason|reflexivity]. }
  split.
  - apply in_flat_map. exists (message, ErrorTicket text details).
    split; [exact Hflat|]. unfold reported. cbn [fst snd]. rewrite Hwhy.
    now left.
  - intros ->. apply in_or_app. right. apply in_or_app. right.
    assert (Hin : In (UnregisterDevice (ExpoPushMessage.to message))
                    (flat_map unregistrations (combine msgs ts))).
    { apply in_flat_map. exists (message, ErrorTicket text details).
      split; [exact Hflat|]. unfold unregistrations. cbn [fst snd].
      rewrite Hwhy. now left. }
    rewrite <- Hgone in Hin. apply filter_In in Hin. exact (proj1 Hin).
Qed.

(** ** Properties of [resolveDevices] *)

(** Selecting rows of the device table keeps their ids unique. *)
Lemma selected_rows_keep_unique_ids (keep : DeviceRegistration.t -> bool)
  (rows : list DeviceRegistration.t) :
  NoDup (map DeviceRegistration.id rows) ->
  NoDup (map DeviceRegistration.id (filter keep rows)).
Proof.
  induction rows as [|row rows IH]; simpl; intros Hkey; [exact Hkey|].
  apply NoDup_cons_iff in Hkey. destruct Hkey as [Hfresh Hkey].
  destruct (keep row); simpl; [|now apply IH].
  apply NoDup_cons_iff. split; [|now apply IH].
  intros Hagain. apply Hfresh.
  apply in_map_iff in Hagain. destruct Hagain as (other & Hid & Hother).
  apply filter_In in Hother.
  apply in_map_iff. exists other. split; [exact Hid|exact (proj1 Hother)].
Qed.

Lemma NoDup_map_same_key {A B} (f : A -> B) (l : list A) a b :
  NoDup (map f l) -> In a l -> In b l -> f a = f b -> a = b.
Proof.
  induction l as [|x l IH]; simpl; intros H Ha Hb Hf; [contradiction|].
  inversion H as [|? ? Hnotin Hrest]; subst.
  destruct Ha as [->|Ha], Hb as [->|Hb]; auto.
  - elim Hnotin. rewrite Hf. now apply in_map.
  - elim Hnotin. rewrite <- Hf. now apply in_map.
Qed.

(** C2, as the code has it.  For a non-empty list of pairwise distinct user
    ids, and a device table whose ids are unique, whenever [resolveDevices]
    returns it returns the concatenation, in the order of the request, of
    the enabled devices of each user, and no device occurs in it twice; and
    it does return when the database executes the reads. *)
Theorem distinct_users_resolve_to_distinct_devices ids w :
  ids <> [] ->
  NoDup ids ->
  NoDup (map DeviceRegistration.id (devices w)) ->
  (forall w0 devs,
     resolveDevices (Some ids) w = (w0, Returned devs) ->
     devs = concat (map (devices_of_user w) ids)
     /\ NoDup (map DeviceRegistration.id devs))
  /\ (healthy w ->
      exists w0 devs,
        resolveDevices (Some ids) w = (w0, Returned devs)
        /\ devs = concat (map (devices_of_user w) ids)
        /\ NoDup (map DeviceRegistration.id devs)).
Proof.
  intros Hne Hids Hkey.
  assert (Hdistinct :
            NoDup (map DeviceRegistration.id
                     (concat (map (devices_of_user w) ids)))).
  { clear Hne. induction Hids as [|u ids Hnotin Hids IH]; [constructor|].
    cbn [map concat]. rewrite map_app. apply NoDup_app.
    - apply selected_rows_keep_unique_ids. exact Hkey.
    - exact IH.
    - intros x Hx Hx'.
      apply in_map_iff in Hx. destruct Hx as (d & <- & Hd).
      apply in_map_iff in Hx'. destruct Hx' as (d' & Hsame & Hd').
      apply in_concat in Hd'. destruct Hd' as (l & Hl & Hd').
      apply in_map_iff in Hl. destruct Hl as (u' & <- & Hu').
      apply filter_In in Hd. destruct Hd as [Hd Hp].
      apply filter_In in Hd'. destruct Hd' as [Hd' Hp'].
      assert (d' = d) as ->
        by (apply (NoDup_map_same_key DeviceRegistration.id (devices w));
            assumption).
      apply andb_true_iff in Hp, Hp'.
      destruct Hp as [Hp _], Hp' as [Hp' _].
      apply String.eqb_eq in Hp, Hp'. subst. contradiction. }
  assert (Hcandidates : candidates (Some ids) w
                        = concat (map (devices_of_user w) ids)).
  { destruct ids as [|u0 ids0]; [now elim Hne|reflexivity]. }
  split.
  - intros w0 devs Hres. apply resolveDevices_inv in Hres.
    destruct Hres as [_ ->]. rewrite Hcandidates. now split.
  - intros Hw. rewrite (resolveDevices_healthy _ _ Hw).
    eexists. eexists. split; [reflexivity|]. rewrite Hcandidates. now split.
Qed.

(** ** Properties of [sendNotificationMessage] *)

(** C4. For a stored message whose status is not [pending],
    [sendNotificationMessage] returns the zero result with the single error
    "Message already <status>"; the two tables are unchanged, nothing is
    submitted to the gateway, and the only call made is the read of the
    message. *)
Theorem already_processed_message_is_rejected messageId w w0 m :
  getNotificationMessage messageId w = (w0, Returned (Some m)) ->
  NotificationMessage.status m <> "pending" ->
  sendNotificationMessage messageId w
  = (w0,
     Returned
       (SendResult.mk 0 0
          [("Message already " ++ NotificationMessage.status m)%string]))
  /\ devices w0 = devices w
  /\ messages w0 = messages w
  /\ submitted w0 = submitted w
  /\ calls w0 = calls w ++ [GetNotificationMessage messageId].
Proof.
  intros Hget Hstatus.
  unfold sendNotificationMessage, await. rewrite Hget.
  apply String.eqb_neq in Hstatus. rewrite Hstatus. simpl.
  apply getNotificationMessage_inv in Hget. destruct Hget as [-> _].
  splits.
Qed.

(** What a status update does when the database executes it, and when the
    database rejects it. *)
Lemma updateNotificationStatus_inv id st sc fc w w1 :
  updateNotificationStatus id st sc fc w = (w1, Returned tt) ->
  messages w1
  = map (fun m => if has_message_id id m then stamped st sc fc w m else m)
      (messages w)
  /\ devices w1 = devices w
  /\ submitted w1 = submitted w
  /\ calls w1 = calls w ++ [UpdateNotificationStatus id st sc fc]
  /\ database w (queries w) = None.
Proof.
  unfold stamped. storage.
  destruct (String.eqb st "sent"); cbn;
    destruct (database w (queries w)); [discriminate| |discriminate|];
    intros [= <-]; cbn; splits.
Qed.

Lemma updateNotificationStatus_rejected id st sc fc w w1 e :
  updateNotificationStatus id st sc fc w = (w1, Thrown e) ->
  messages w1 = messages w
  /\ devices w1 = devices w
  /\ submitted w1 = submitted w
  /\ calls w1 = calls w ++ [UpdateNotificationStatus id st sc fc]
  /\ database w (queries w) = Some e
  /\ queries w1 = S (queries w).
Proof.
  storage.
  destruct (String.eqb st "sent"); cbn;
    destruct (database w (queries w)); try discriminate;
    intros [= <- <-]; cbn; splits.
Qed.

Lemma updateNotificationStatus_executed id st sc fc w :
  database w (queries w) = None ->
  exists w1, updateNotificationStatus id st sc fc w = (w1, Returned tt).
Proof.
  intros H. storage.
  destruct (String.eqb st "sent"); cbn; rewrite H; eexists; reflexivity.
Qed.

Lemma lookup_in_updated id (h : NotificationMessage.t -> NotificationMessage.t)
  (rows : list NotificationMessage.t) m :
  (forall r, NotificationMessage.id (h r) = NotificationMessage.id r) ->
  find (has_message_id id) rows = Some m ->
  find (has_message_id id)
    (map (fun r => if has_message_id id r then h r else r) rows)
  = Some (h m).
Proof.
  intros Hid. unfold has_message_id.
  induction rows as [|r rows IH]; simpl; [discriminate|].
  destruct (String.eqb (NotificationMessage.id r) id) eqn:E; simpl.
  - rewrite Hid, E. now intros [= ->].
  - rewrite E. exact IH.
Qed.

Lemma lookup_after_update id st sc fc w w1 m :
  updateNotificationStatus id st sc fc w = (w1, Returned tt) ->
  lookup_message id w = Some m ->
  lookup_message id w1 = Some (stamped st sc fc w m).
Proof.
  intros Hrun Hm. apply updateNotificationStatus_inv in Hrun.
  destruct Hrun as (Hmsgs & _). unfold lookup_message. rewrite Hmsgs.
  now apply lookup_in_updated.
Qed.

Lemma lookup_keeps_messages id w w1 :
  keeps_messages w w1 -> lookup_message id w1 = lookup_message id w.
Proof. unfold lookup_message, keeps_messages. now intros ->. Qed.



(** ** Properties of [processPendingNotifications] *)

(** One attempt: what the send leaves when it returns, and what the update
    to [failed] makes of it when it throws. *)
Lemma attemptPending_run m w :
  attemptPending m w
  = match sendNotificationMessage (NotificationMessage.id m) w with
    | (w1, Returned _) => (w1, Returned tt)
    | (w1, Thrown _) =>
        updateNotificationStatus (NotificationMessage.id m)
          "failed" None None w1
    end.
Proof.
  unfold attemptPending, try_catch, await, resolve.
  now destruct (sendNotificationMessage (NotificationMessage.id m) w)
    as [w1 [r|e]].
Qed.

Lemma forPending_step m rest w w1 :
  attemptPending m w = (w1, Returned tt) ->
  forPending (m :: rest) w = forPending rest w1.
Proof. intros H. cbn [forPending]. unfold await. now rewrite H. Qed.

Lemma forPending_stops m rest w w1 e :
  attemptPending m w = (w1, Thrown e) ->
  forPending (m :: rest) w = (w1, Thrown e).
Proof. intros H. cbn [forPending]. unfold await. now rewrite H. Qed.

Lemma forPending_app before :
  forall rest w wk,
    forPending before w = (wk, Returned tt) ->
    forPending (before ++ rest) w = forPending rest wk.
Proof.
  induction before as [|m before IH]; intros rest w wk H.
  - now injection H as <-.
  - rewrite <- app_comm_cons. cbn [forPending] in H |- *.
    unfold await in H |- *.
    destruct (attemptPending m w) as [w1 [[]|e]]; [|discriminate].
    now apply IH.
Qed.

(** The first call of an attempt is the read of its message. *)
Lemma sendNotificationMessage_first_call messageId w :
  exists more,
    calls (fst (sendNotificationMessage messageId w))
    = calls w ++ GetNotificationMessage messageId :: more.
Proof.
  unfold sendNotificationMessage, await at 1.
  rewrite getNotificationMessage_run.
  set (w0 := after_calls [GetNotificationMessage messageId] w).
  destruct (database w (queries w)) as [e|].
  { exists []. reflexivity. }
  match goal with
  | |- exists more, calls (fst (?k w0)) = _ =>
      assert (Hext : extends w0 (fst (k w0)))
  end.
  { destruct (lookup_message messageId w) as [message|];
      [|apply extends_refl].
    destruct (negb _); [apply extends_refl|].
    destruct follows_storage as (F1 & F2 & F3 & F4 & F5 & F6 & F7 & F8).
    apply follows_extends. revert w0.
    apply (respects_await follows follows_trans); [apply F6|intros _].
    apply (respects_await follows follows_trans);
      [apply (respects_parse_data follows follows_refl)|intros data].
    apply (respects_await follows follows_trans);
      [intros w1; apply sendPushNotification_follows|intros result].
    apply (respects_await follows follows_trans); [apply F6|intros _].
    apply (respects_resolve follows follows_refl). }
  destruct Hext as [more Hmore]. exists more.
  rewrite Hmore. unfold w0. cbn. now rewrite <- app_assoc.
Qed.

Lemma attemptPending_follows m w : follows w (fst (attemptPending m w)).
Proof.
  pose proof (forPending_follows [m] w) as H. cbn [forPending] in H.
  unfold await in H. destruct (attemptPending m w) as [w1 [[]|e]]; exact H.
Qed.

Lemma attemptPending_first_call m w :
  exists more,
    calls (fst (attemptPending m w))
    = calls w ++ GetNotificationMessage (NotificationMessage.id m) :: more.
Proof.
  destruct (sendNotificationMessage_first_call (NotificationMessage.id m) w)
    as [more Hmore].
  rewrite attemptPending_run.
  destruct (sendNotificationMessage (NotificationMessage.id m) w)
    as [w1 [r|e]]; cbn [fst] in *.
  - now exists more.
  - destruct follows_storage as (_ & _ & _ & _ & _ & F6 & _).
    destruct (follows_extends _ _
                (F6 (NotificationMessage.id m) "failed"%string None None w1))
      as [last Hlast].
    exists (more ++ last). rewrite Hlast, Hmore, <- app_assoc. reflexivity.
Qed.

(** An attempt on a database that executes every query returns: the update
    to [failed] is carried out. *)
Lemma attemptPending_healthy m w :
  healthy w -> snd (attemptPending m w) = Returned tt.
Proof.
  intros Hw. rewrite attemptPending_run.
  pose proof (sendNotificationMessage_follows (NotificationMessage.id m) w)
    as Hf.
  destruct (sendNotificationMessage (NotificationMessage.id m) w)
    as [w1 [r|e]]; [reflexivity|]. cbn [fst] in Hf.
  destruct (updateNotificationStatus_executed (NotificationMessage.id m)
              "failed" None None w1) as [w2 H2].
  - apply healthy_next. exact (follows_healthy _ _ Hf Hw).
  - now rewrite H2.
Qed.

Lemma forPending_healthy pending :
  forall w, healthy w -> snd (forPending pending w) = Returned tt.
Proof.
  induction pending as [|m rest IH]; intros w Hw; [reflexivity|].
  cbn [forPending]. unfold await.
  pose proof (attemptPending_healthy m w Hw) as Hret.
  pose proof (attemptPending_follows m w) as Hf.
  destruct (attemptPending m w) as [w1 out]. cbn [fst snd] in *. subst out.
  apply IH. exact (follows_healthy _ _ Hf Hw).
Qed.

(** The loop over the batch: when it returns, every message of the batch
    was attempted; when it throws, it is at a message whose attempt threw
    and whose update to [failed] the database then rejected. *)
Lemma forPending_outcome pending :
  forall w,
  exists new,
    calls (fst (forPending pending w)) = calls w ++ new
    /\ match snd (forPending pending w) with
       | Returned _ =>
           forall m, In m pending ->
                     In (GetNotificationMessage (NotificationMessage.id m)) new
       | Thrown e =>
           exists before m rest wk wk1 e0,
             pending = before ++ m :: rest
             /\ forPending before w = (wk, Returned tt)
             /\ sendNotificationMessage (NotificationMessage.id m) wk
                = (wk1, Thrown e0)
             /\ updateNotificationStatus (NotificationMessage.id m)
                  "failed" None None wk1
                = (fst (forPending pending w), Thrown e)
       end.
Proof.
  induction pending as [|m0 rest IH]; intros w.
  - exists []. cbn. rewrite app_nil_r. split; [reflexivity|contradiction].
  - destruct (attemptPending_first_call m0 w) as [more Hmore].
    destruct (attemptPending m0 w) as [w1 [[]|e]] eqn:Hattempt;
      cbn [fst] in Hmore.
    + rewrite (forPending_step _ _ _ _ Hattempt).
      destruct (IH w1) as (new & Hnew & Hout).
      exists (GetNotificationMessage (NotificationMessage.id m0)
                :: more ++ new).
      split; [rewrite Hnew, Hmore, <- app_assoc; reflexivity|].
      destruct (snd (forPending rest w1)) as [[]|e1].
      * intros m [<-|Hin]; [now left|].
        right. apply in_or_app. right. now apply Hout.
      * destruct Hout as (before & m & rest1 & wk & wk1 & e0
                          & Hsplit & Hbefore & Hsend & Hmark).
        exists (m0 :: before), m, rest1, wk, wk1, e0.
        split; [now rewrite Hsplit|].
        split; [now rewrite (forPending_step _ _ _ _ Hattempt)|].
        now split.
    + rewrite (forPending_stops _ _ _ _ _ Hattempt). cbn [fst snd].
      exists (GetNotificationMessage (NotificationMessage.id m0) :: more).
      split; [exact Hmore|].
      rewrite attemptPending_run in Hattempt.
      destruct (sendNotificationMessage (NotificationMessage.id m0) w)
        as [wk1 [r|e0]] eqn:Hsend; [discriminate|].
      exists [], m0, rest, w, wk1, e0. now splits.
Qed.

(** C7, as the code has it.  In a sweep over the due messages:
    - when the attempt on a message throws, [updateNotificationStatus(id,
      "failed")] is called, and when the database carries that update out
      the message is marked [failed] there and then and the loop goes on
      with the messages after it;
    - a sweep that returns has attempted every due message (the read of
      each is among its calls);
    - a sweep throws only when, after an attempt that threw, the database
      rejects the update to [failed] itself: that error leaves the sweep,
      and the messages after it are not attempted;
    - on a database that executes every query the sweep returns, whatever
      else the attempts throw. *)
Theorem failed_attempt_is_marked_and_batch_continues w w0 pending :
  getPendingNotifications w = (w0, Returned pending) ->
  exists w1 out new,
    processPendingNotifications w = (w1, out)
    /\ calls w1 = calls w0 ++ new
    /\ (forall before m rest wk wk1 e marked,
          pending = before ++ m :: rest ->
          forPending before w0 = (wk, Returned tt) ->
          sendNotificationMessage (NotificationMessage.id m) wk
          = (wk1, Thrown e) ->
          updateNotificationStatus (NotificationMessage.id m)
            "failed" None None wk1
          = (marked, Returned tt) ->
          In (UpdateNotificationStatus (NotificationMessage.id m)
                "failed" None None) new
          /\ (forall m0,
                lookup_message (NotificationMessage.id m) wk1 = Some m0 ->
                exists m1,
                  lookup_message (NotificationMessage.id m) marked = Some m1
                  /\ NotificationMessage.status m1 = "failed")
          /\ forPending rest marked = (w1, out))
    /\ (out = Returned tt ->
        forall m, In m pending ->
                  In (GetNotificationMessage (NotificationMessage.id m)) new)
    /\ (forall e,
          out = Thrown e ->
          exists before m rest wk wk1 e0,
            pending = before ++ m :: rest
            /\ forPending before w0 = (wk, Returned tt)
            /\ sendNotificationMessage (NotificationMessage.id m) wk
               = (wk1, Thrown e0)
            /\ updateNotificationStatus (NotificationMessage.id m)
                 "failed" None None wk1
               = (w1, Thrown e))
    /\ (healthy w0 -> out = Returned tt).
Proof.
  intros Hget.
  unfold processPendingNotifications, await. rewrite Hget.
  destruct (forPending_outcome pending w0) as (new & Hnew & Hout).
  pose proof (forPending_healthy pending w0) as Hhealthy.
  destruct (forPending pending w0) as [w1 out] eqn:Hrun.
  cbn [fst snd] in *.
  exists w1, out, new. split; [reflexivity|]. split; [exact Hnew|].
  split; [|split; [|split]].
  - intros before m rest wk wk1 e marked Hsplit Hbefore Hthrow Hmark.
    assert (Hattempt : attemptPending m wk = (marked, Returned tt))
      by (now rewrite attemptPending_run, Hthrow).
    assert (Hrest : forPending rest marked = (w1, out)).
    { rewrite Hsplit, (forPending_app _ _ _ _ Hbefore) in Hrun.
      now rewrite (forPending_step _ _ _ _ Hattempt) in Hrun. }
    split; [|split; [|exact Hrest]].
    + pose proof (follows_extends _ _ (forPending_follows before w0))
        as [n1 H1].
      rewrite Hbefore in H1. cbn [fst] in H1.
      pose proof (follows_extends _ _
                    (sendNotificationMessage_follows
                       (NotificationMessage.id m) wk)) as [n2 H2].
      rewrite Hthrow in H2. cbn [fst] in H2.
      destruct (updateNotificationStatus_inv _ _ _ _ _ _ Hmark)
        as (_ & _ & _ & H3 & _).
      pose proof (follows_extends _ _ (forPending_follows rest marked))
        as [n4 H4].
      rewrite Hrest in H4. cbn [fst] in H4.
      rewrite H3, H2, H1, Hnew, <- !app_assoc in H4.
      apply app_inv_head in H4. rewrite H4.
      apply in_or_app. right. apply in_or_app. right.
      apply in_or_app. left. now left.
    + intros m0 Hm0. eexists. split.
      * exact (lookup_after_update _ _ _ _ _ _ _ Hmark Hm0).
      * reflexivity.
  - intros ->. exact Hout.
  - intros e ->. exact Hout.
  - exact Hhealthy.
Qed.

(** ** Further properties of [sendPushNotification] *)

Lemma candidates_In targetUserIds w d :
  In d (candidates targetUserIds w)
  <-> In d (devices w)
      /\ DeviceRegistration.enabled d = true
      /\ match targetUserIds with
         | Some (u :: us) => In (DeviceRegistration.userId d) (u :: us)
         | _ => True
         end.
Proof.
  destruct targetUserIds as [[|u us]|]; cbn [candidates];
    try (rewrite filter_In; split;
         [intros [Hd He]; auto|intros (Hd & He & _); auto]).
  rewrite in_concat. split.
  - intros (l & Hl & Hd). apply in_map_iff in Hl.
    destruct Hl as (u1 & <- & Hu1). apply filter_In in Hd.
    destruct Hd as [Hd Hp]. unfold enabled_for in Hp.
    apply andb_true_iff in Hp.
    destruct Hp as [Hu He]. apply String.eqb_eq in Hu. subst u1. auto.
  - intros (Hd & He & Hu).
    exists (devices_of_user w (DeviceRegistration.userId d)). split.
    + apply in_map. exact Hu.
    + apply filter_In. split; [exact Hd|]. unfold enabled_for.
      now rewrite String.eqb_refl, He.
Qed.

(** X1. The devices [resolveDevices] returns are exactly the enabled rows of
    the device table, restricted to the owners listed in [targetUserIds]
    when that list is given and not empty; without a list, or with an empty
    one, every enabled device is a candidate. *)
Theorem candidates_are_the_enabled_devices_of_the_audience
  targetUserIds w w0 devs :
  resolveDevices targetUserIds w = (w0, Returned devs) ->
  forall d,
    In d devs
    <-> In d (devices w)
        /\ DeviceRegistration.enabled d = true
        /\ match targetUserIds with
           | Some (u :: us) => In (DeviceRegistration.userId d) (u :: us)
           | _ => True
           end.
Proof.
  intros Hres d. apply resolveDevices_inv in Hres. destruct Hres as [_ ->].
  apply candidates_In.
Qed.

(** X2. When there are candidates and the validator refuses the token of
    every one of them, [sendPushNotification] returns no success, one
    failure per candidate and the single error "No valid push tokens found";
    nothing is submitted to the gateway and no table changes. *)
Theorem no_valid_token_counts_every_candidate_as_failed
  title body data targetUserIds w w0 devs :
  resolveDevices targetUserIds w = (w0, Returned devs) ->
  devs <> [] ->
  (forall d, In d devs ->
             isExpoPushToken (DeviceRegistration.expoPushToken d) = false) ->
  sendPushNotification title body data targetUserIds w
  = (w0,
     Returned (SendResult.mk 0 (length devs) ["No valid push tokens found"]))
  /\ devices w0 = devices w
  /\ messages w0 = messages w
  /\ submitted w0 = submitted w
  /\ calls w0 = calls w ++ reads targetUserIds.
Proof.
  intros Hres Hne Hinvalid.
  unfold sendPushNotification, await. rewrite Hres.
  destruct devs as [|d0 devs]; [now elim Hne|]. cbn [length Nat.eqb].
  rewrite buildMessages_spec.
  rewrite (filter_none valid_token (d0 :: devs)) by exact Hinvalid.
  cbn [map app length Nat.eqb].
  apply resolveDevices_inv in Hres. destruct Hres as [-> _].
  splits.
Qed.

(** X3. In any run of [sendPushNotification] whose reads resolve, whether
    it then returns or throws, the gateway receives one submission per
    chunk, in order, of the messages built for the candidates whose token
    the validator accepts, and nothing else: a device with an invalid token
    is never submitted.  All calls made after the last submission are
    writes to the device registry. *)
Theorem gateway_receives_exactly_the_valid_candidates
  title body data targetUserIds w w0 devs :
  resolveDevices targetUserIds w = (w0, Returned devs) ->
  let submittedMessages :=
    map (message_for title body data) (filter valid_token devs) in
  let chunks := chunkPushNotifications submittedMessages in
  let w1 := fst (sendPushNotification title body data targetUserIds w) in
  concat chunks = submittedMessages
  /\ submitted w1 = submitted w + length chunks
  /\ exists later,
       calls w1 = calls w0 ++ map SendPushNotificationsAsync chunks ++ later
       /\ Forall (fun c => is_registry_write c = true) later.
Proof.
  intros Hres msgs chunks w1.
  destruct (sendPushNotification_trace title body data _ _ _ _ Hres)
    as (later & Hcalls & Hwrites & Hsub).
  apply resolveDevices_inv in Hres. destruct Hres as [-> ->].
  split; [apply chunkPushNotifications_concat|].
  split; [exact Hsub|].
  exists later. split; [exact Hcalls|exact Hwrites].
Qed.

(** From [w] to [w1] the message table is the same and no call has been
    made on the message store. *)
Lemma unseen_refl w : unseen_by_message_store w w.
Proof.
  split; [reflexivity|]. exists []. rewrite app_nil_r. split; constructor.
Qed.

Lemma unseen_trans w1 w2 w3 :
  unseen_by_message_store w1 w2 -> unseen_by_message_store w2 w3 ->
  unseen_by_message_store w1 w3.
Proof.
  intros (Hm1 & l1 & Hc1 & Hf1) (Hm2 & l2 & Hc2 & Hf2).
  split; [congruence|]. exists (l1 ++ l2). split.
  - now rewrite Hc2, Hc1, app_assoc.
  - apply Forall_app. now split.
Qed.

(** X4. No run of [sendPushNotification], returning or throwing, reads or
    writes the message store: the message table is as before and none of
    the calls the run makes is a call on the message store. *)
Theorem sendPushNotification_leaves_message_store_alone
  title body data targetUserIds w :
  let w1 := fst (sendPushNotification title body data targetUserIds w) in
  messages w1 = messages w
  /\ exists new,
       calls w1 = calls w ++ new
       /\ Forall (fun c => is_message_store_call c = false) new.
Proof.
  intros w1. subst w1.
  apply (respects_sendPushNotification unseen_by_message_store
           unseen_refl unseen_trans);
    intros; intros w0; unfold unseen_by_message_store;
    try (unfold sendPushNotificationsAsync;
         destruct (gateway w0 (submitted w0)));
    storage; try destruct (database w0 _);
    (split; [reflexivity|]); eexists; (split; [reflexivity|]);
    now repeat constructor.
Qed.

(** When no submission throws and the gateway keeps its contract, the
    ticket at position [k] of the answer to chunk [j] is paired by the ticket
    loop with a device whose token is the recipient of message [k] of that
    chunk. *)
Lemma ticket_meets_its_device g n msgs valid j k chunk ticketChunk message ticket :
  all_resolve g n (chunkPushNotifications msgs) ->
  gateway_contract g n (chunkPushNotifications msgs) ->
  map ExpoPushMessage.to msgs
  = map DeviceRegistration.expoPushToken valid ->
  nth_error (chunkPushNotifications msgs) j = Some chunk ->
  g (n + j) = Resolves ticketChunk ->
  nth_error chunk k = Some message ->
  nth_error ticketChunk k = Some ticket ->
  exists d,
    In (d, ticket)
       (combine valid (resolved_tickets g n (chunkPushNotifications msgs)))
    /\ DeviceRegistration.expoPushToken d = ExpoPushMessage.to message.
Proof.
  intros Hall Hcontract Hto Hnth Hg Hmsg Hticket.
  assert (Hflat : In (message, ticket)
                     (combine (concat (chunkPushNotifications msgs))
                        (resolved_tickets g n (chunkPushNotifications msgs)))).
  { eapply chunk_pairs_are_flat_pairs; try eassumption.
    eapply nth_error_In_combine; eassumption. }
  rewrite chunkPushNotifications_concat in Hflat.
  exact (flat_pair_has_device valid msgs _ _ _ Hto Hflat).
Qed.

(** X5. When no submission throws, the gateway keeps its contract and the
    database executes the writes of the run, the success count is the
    number of ok tickets, and for every ok ticket the
    run calls [updateDeviceLastNotified] on the id of a valid device whose
    token is the recipient of the message at the ticket's position in its
    chunk. *)
Theorem ok_ticket_marks_the_device_of_its_message
  title body data targetUserIds w w0 devs msgs valid :
  resolveDevices targetUserIds w = (w0, Returned devs) ->
  healthy w0 ->
  buildMessages title body data devs [] [] = (msgs, valid) ->
  msgs <> [] ->
  let chunks := chunkPushNotifications msgs in
  let g := gateway w0 in
  let n := submitted w0 in
  all_resolve g n chunks ->
  gateway_contract g n chunks ->
  exists w1 r new,
    sendPushNotification title body data targetUserIds w = (w1, Returned r)
    /\ calls w1 = calls w ++ new
    /\ SendResult.successCount r = count_ok (resolved_tickets g n chunks)
    /\ forall j k chunk ticketChunk message ticketId,
         nth_error chunks j = Some chunk ->
         g (n + j) = Resolves ticketChunk ->
         nth_error chunk k = Some message ->
         nth_error ticketChunk k = Some (SuccessTicket ticketId) ->
         exists d,
           In d valid
           /\ DeviceRegistration.expoPushToken d = ExpoPushMessage.to message
           /\ In (UpdateDeviceLastNotified (DeviceRegistration.id d)) new.
Proof.
  intros Hres Hw0 Hbuild Hne chunks g n Hall Hcontract.
  pose proof (healthy_before_reads _ _ _ _ Hres Hw0) as Hw.
  apply resolveDevices_inv in Hres. destruct Hres as [-> ->].
  subst g n. simpl in *.
  pose proof (contract_accounts _ _ _ Hcontract) as Hacc.
  unfold chunks in Hacc. rewrite length_concat_chunks in Hacc.
  destruct (buildMessages_lengths _ _ _ _ _ _ Hbuild) as (Hl & Hto & _).
  destruct (sendPushNotification_submits _ _ _ _ _ _ _ Hw Hbuild Hne)
    as (w1 & Hrun & Hcalls & _); [lia|].
  fold chunks in Hrun, Hcalls.
  exists w1. eexists. eexists. split; [exact Hrun|].
  split; [exact Hcalls|]. split; [reflexivity|].
  intros j k chunk ticketChunk message ticketId Hnth Hg Hmsg Hticket.
  destruct (ticket_meets_its_device _ _ _ _ _ _ _ _ _ _
              Hall Hcontract Hto Hnth Hg Hmsg Hticket) as (d & Hd & Htoken).
  exists d. split; [exact (in_combine_l _ _ _ _ Hd)|].
  split; [exact Htoken|].
  apply in_or_app. right. apply in_or_app. right.
  apply in_flat_map. exists (d, SuccessTicket ticketId).
  split; [exact Hd|]. now left.
Qed.

Lemma registry_calls_of_pair (p : DeviceRegistration.t * ExpoPushTicket) :
  length (filter is_notified (calls_of p)) = count_ok [snd p]
  /\ length (filter is_unregister (calls_of p)) <= count_not_ok [snd p].
Proof.
  destruct p as [d ticket]. unfold calls_of, count_ok, count_not_ok.
  cbn [fst snd]. destruct ticket as [tid|text details]; simpl; [auto|].
  destruct (details_error details) as [reason|]; simpl; [|auto].
  destruct (truthy_string reason); simpl; [|auto].
  destruct (String.eqb reason "DeviceNotRegistered"); simpl; auto.
Qed.

Lemma registry_calls_of_pairs
  (pairs : list (DeviceRegistration.t * ExpoPushTicket)) :
  length (filter is_notified (flat_map calls_of pairs))
  = count_ok (map snd pairs)
  /\ length (filter is_unregister (flat_map calls_of pairs))
     <= count_not_ok (map snd pairs).
Proof.
  induction pairs as [|p pairs [IH1 IH2]]; [split; auto|].
  cbn [flat_map map]. rewrite !filter_app, !length_app.
  rewrite count_ok_cons, count_not_ok_cons.
  destruct (registry_calls_of_pair p) as [H1 H2].
  split; lia.
Qed.

Lemma map_snd_combine_short {A B} (l1 : list A) :
  forall l2 : list B,
    length l2 <= length l1 -> map snd (combine l1 l2) = l2.
Proof.
  induction l1 as [|a l1 IH]; intros [|b l2] H; simpl in *;
    try reflexivity; [lia|].
  f_equal. apply IH. lia.
Qed.

(** X6. With a gateway that keeps its contract and a database that executes
    the writes of the run, and whichever chunks throw,
    [updateDeviceLastNotified] is called exactly as many times as the
    returned success count, [unregisterDevice] at most as many times as the
    returned failure count, and the gateway is called once per chunk. *)
Theorem registry_writes_match_the_counts
  title body data targetUserIds w w0 devs msgs valid :
  resolveDevices targetUserIds w = (w0, Returned devs) ->
  healthy w0 ->
  buildMessages title body data devs [] [] = (msgs, valid) ->
  msgs <> [] ->
  gateway_contract (gateway w0) (submitted w0) (chunkPushNotifications msgs) ->
  exists w1 r new,
    sendPushNotification title body data targetUserIds w = (w1, Returned r)
    /\ calls w1 = calls w ++ new
    /\ length (filter is_notified new) = SendResult.successCount r
    /\ length (filter is_unregister new) <= SendResult.failureCount r
    /\ submitted w1
       = submitted w + length (chunkPushNotifications msgs).
Proof.
  intros Hres Hw0 Hbuild Hne Hcontract.
  pose proof (healthy_before_reads _ _ _ _ Hres Hw0) as Hw.
  apply resolveDevices_inv in Hres. destruct Hres as [-> ->].
  simpl in Hcontract.
  pose proof (contract_accounts _ _ _ Hcontract) as Hacc.
  rewrite length_concat_chunks in Hacc.
  destruct (buildMessages_lengths _ _ _ _ _ _ Hbuild) as (Hl & _ & _).
  destruct (sendPushNotification_submits _ _ _ _ _ _ _ Hw Hbuild Hne)
    as (w1 & Hrun & Hcalls & _ & Hsub); [lia|].
  exists w1. eexists. eexists. split; [exact Hrun|].
  split; [exact Hcalls|]. cbn [SendResult.successCount SendResult.failureCount].
  set (ts := resolved_tickets _ _ _) in *.
  destruct (registry_calls_of_pairs (combine valid ts)) as [Hn Hu].
  rewrite map_snd_combine_short in Hn, Hu by lia.
  rewrite !filter_app, !length_app.
  rewrite (reads_are_no_registry_writes _ _ is_notified_registry_write),
    (reads_are_no_registry_writes _ _ is_unregister_registry_write),
    (submissions_are_no_registry_writes _ _ is_notified_registry_write),
    (submissions_are_no_registry_writes _ _ is_unregister_registry_write).
  simpl. splits; [exact Hn|lia|exact Hsub].
Qed.

(** ** The device registry across a run *)

Lemma Forall2_same {A} (R : A -> A -> Prop) (l : list A) :
  (forall a, R a a) -> Forall2 R l l.
Proof. intros H. induction l; constructor; auto. Qed.

Lemma Forall2_chain {A} (R : A -> A -> Prop) :
  (forall a b c, R a b -> R b c -> R a c) ->
  forall l1 l2 l3, Forall2 R l1 l2 -> Forall2 R l2 l3 -> Forall2 R l1 l3.
Proof.
  intros Htrans l1 l2 l3 H12. revert l3.
  induction H12 as [|a b l1 l2 Hab _ IH]; intros l3 H23;
    inversion H23; subst; constructor; eauto.
Qed.

Lemma Forall2_source {A} (R : A -> A -> Prop) l1 l2 b :
  Forall2 R l1 l2 -> In b l2 -> exists a, In a l1 /\ R a b.
Proof.
  induction 1 as [|a0 b0 l1 l2 Hab _ IH]; intros Hin; [contradiction|].
  destruct Hin as [<-|Hin].
  - exists a0. split; [now left|exact Hab].
  - destruct (IH Hin) as (a & Ha & HR). exists a. split; [now right|exact HR].
Qed.

Lemma Forall2_map_of {A} (R : A -> A -> Prop) (f : A -> A) l :
  (forall a, R a (f a)) -> Forall2 R l (map f l).
Proof. intros H. induction l; simpl; constructor; auto. Qed.

Lemma narrowed_refl d : narrowed d d.
Proof. unfold narrowed. auto. Qed.

Lemma narrowed_trans a b c : narrowed a b -> narrowed b c -> narrowed a c.
Proof.
  unfold narrowed. intros (? & ? & ? & ?) (? & ? & ? & ?).
  repeat split; try congruence; auto.
Qed.

Lemma Forall2_target {A} (R : A -> A -> Prop) l1 l2 a :
  Forall2 R l1 l2 -> In a l1 -> exists b, In b l2 /\ R a b.
Proof.
  induction 1 as [|a0 b0 l1 l2 Hab _ IH]; intros Hin; [contradiction|].
  destruct Hin as [<-|Hin].
  - exists b0. split; [now left|exact Hab].
  - destruct (IH Hin) as (b & Hb & HR). exists b. split; [now right|exact HR].
Qed.

Lemma reconciles_refl w : reconciles w w.
Proof.
  split; [apply follows_refl|].
  split; [apply Forall2_same, narrowed_refl|].
  intros _ more token Hmore Hin.
  rewrite <- (app_nil_r (calls w)) in Hmore at 1.
  apply app_inv_head in Hmore. subst more. contradiction.
Qed.

Lemma reconciles_trans w1 w2 w3 :
  reconciles w1 w2 -> reconciles w2 w3 -> reconciles w1 w3.
Proof.
  intros (Hf1 & H12 & Hu1) (Hf2 & H23 & Hu2).
  split; [exact (follows_trans _ _ _ Hf1 Hf2)|].
  split; [exact (Forall2_chain narrowed narrowed_trans _ _ _ H12 H23)|].
  intros Hw more token Hmore Hin d3 Hd3 Htoken.
  destruct (follows_extends _ _ Hf1) as [m1 Hc1].
  destruct (follows_extends _ _ Hf2) as [m2 Hc2].
  rewrite Hc2, Hc1, <- app_assoc in Hmore.
  apply app_inv_head in Hmore. subst more.
  apply in_app_or in Hin. destruct Hin as [Hin|Hin].
  - destruct (Forall2_source _ _ _ _ H23 Hd3) as (d2 & Hd2 & Hn).
    destruct Hn as (_ & _ & Ht & He).
    destruct (DeviceRegistration.enabled d3) eqn:E; [|reflexivity].
    assert (Hoff : DeviceRegistration.enabled d2 = false)
      by (apply (Hu1 Hw m1 token Hc1 Hin d2 Hd2); congruence).
    rewrite He in Hoff by reflexivity. discriminate.
  - exact (Hu2 (follows_healthy _ _ Hf1 Hw) m2 token Hc2 Hin d3 Hd3 Htoken).
Qed.

(** A call that leaves the device table alone and is not
    [unregisterDevice]. *)
Lemma reconciles_other_call c w w1 :
  follows w w1 ->
  devices w1 = devices w ->
  calls w1 = calls w ++ [c] ->
  is_unregister c = false ->
  reconciles w w1.
Proof.
  intros Hf Hd Hc Hnot. split; [exact Hf|]. split.
  - rewrite Hd. apply Forall2_same, narrowed_refl.
  - intros _ more token Hmore Hin. rewrite Hc in Hmore.
    apply app_inv_head in Hmore. subst more.
    destruct Hin as [H|[]]. subst c. discriminate.
Qed.

Lemma reconciles_storage :
  (forall u, respects reconciles (getDevicesForUser u))
  /\ respects reconciles getEnabledDevices
  /\ (forall id, respects reconciles (updateDeviceLastNotified id))
  /\ (forall t, respects reconciles (unregisterDevice t)).
Proof.
  destruct follows_storage as (F1 & F2 & F3 & F4 & _).
  splits.
  - intros u w. apply (reconciles_other_call (GetDevicesForUser u));
      [apply F1| | |reflexivity];
      storage; now destruct (database w _).
  - intros w. apply (reconciles_other_call GetEnabledDevices);
      [apply F2| | |reflexivity];
      storage; now destruct (database w _).
  - intros id w. split; [apply F3|]. split.
    + storage. destruct (database w _); cbn;
        [apply Forall2_same, narrowed_refl|].
      apply Forall2_map_of. intros d.
      destruct (has_device_id id d); [|apply narrowed_refl].
      unfold narrowed. simpl. auto.
    + intros _ more token Hmore Hin.
      assert (Hc : calls (fst (updateDeviceLastNotified id w))
                   = calls w ++ [UpdateDeviceLastNotified id])
        by (storage; now destruct (database w _)).
      rewrite Hc in Hmore. apply app_inv_head in Hmore. subst more.
      destruct Hin as [H|[]]. discriminate.
  - intros t w. split; [apply F4|]. split.
    + storage. destruct (database w _); cbn;
        [apply Forall2_same, narrowed_refl|].
      apply Forall2_map_of. intros d.
      destruct (has_token t d); [|apply narrowed_refl].
      unfold narrowed. simpl. repeat split; auto. discriminate.
    + intros Hw more token Hmore Hin d1 Hd1 Htoken.
      pose proof (healthy_next w Hw) as Hdb.
      revert Hmore Hd1. storage. rewrite Hdb. cbn. intros Hmore Hd1.
      apply app_inv_head in Hmore. subst more.
      destruct Hin as [[= <-]|[]].
      apply in_map_iff in Hd1. destruct Hd1 as (d & <- & _).
      unfold has_token in *.
      destruct (String.eqb (DeviceRegistration.expoPushToken d) t) eqn:E;
        [reflexivity|].
      apply String.eqb_neq in E. now elim E.
Qed.

Lemma reconciles_sendPushNotificationsAsync chunk :
  respects reconciles (sendPushNotificationsAsync chunk).
Proof.
  intros w.
  apply (reconciles_other_call (SendPushNotificationsAsync chunk));
    [apply follows_sendPushNotificationsAsync| | |reflexivity];
    unfold sendPushNotificationsAsync;
    now destruct (gateway w (submitted w)).
Qed.

Lemma sendPushNotification_reconciles title body data targetUserIds w :
  reconciles w (fst (sendPushNotification title body data targetUserIds w)).
Proof.
  destruct reconciles_storage as (R1 & R2 & R3 & R4).
  apply (respects_sendPushNotification reconciles
           reconciles_refl reconciles_trans); try assumption.
  apply reconciles_sendPushNotificationsAsync.
Qed.

(** X7. No run of [sendPushNotification], returning or throwing, adds or
    removes a row of the device table, changes the id, owner or token of a
    device, or enables a device that was disabled: the table has as many
    rows as before, every row it has comes from a row it had, and every
    row it had is still there, with the same id, owner and token and
    enabled only if it was. *)
Theorem sendPushNotification_only_narrows_the_registry
  title body data targetUserIds w :
  let w1 := fst (sendPushNotification title body data targetUserIds w) in
  length (devices w1) = length (devices w)
  /\ (forall d1,
        In d1 (devices w1) ->
        exists d,
          In d (devices w)
          /\ DeviceRegistration.id d1 = DeviceRegistration.id d
          /\ DeviceRegistration.userId d1 = DeviceRegistration.userId d
          /\ DeviceRegistration.expoPushToken d1
             = DeviceRegistration.expoPushToken d
          /\ (DeviceRegistration.enabled d1 = true ->
              DeviceRegistration.enabled d = true))
  /\ (forall d,
        In d (devices w) ->
        exists d1,
          In d1 (devices w1)
          /\ DeviceRegistration.id d1 = DeviceRegistration.id d
          /\ DeviceRegistration.userId d1 = DeviceRegistration.userId d
          /\ DeviceRegistration.expoPushToken d1
             = DeviceRegistration.expoPushToken d
          /\ (DeviceRegistration.enabled d1 = true ->
              DeviceRegistration.enabled d = true)).
Proof.
  intros w1.
  destruct (sendPushNotification_reconciles title body data targetUserIds w)
    as (_ & Hrows & _). fold w1 in Hrows.
  split; [symmetry; exact (Forall2_length Hrows)|]. split.
  - intros d1 Hd1. exact (Forall2_source _ _ _ _ Hrows Hd1).
  - intros d Hd. exact (Forall2_target _ _ _ _ Hrows Hd).
Qed.

(** X8. On a database that executes every query, every token on which a
    run of [sendPushNotification] calls [unregisterDevice] belongs to no
    enabled device once the run is over, returned or thrown: whatever
    audience is resolved next, no device with that token is among the
    candidates. *)
Theorem unregistered_token_is_never_a_candidate_again
  title body data targetUserIds w :
  healthy w ->
  let w1 := fst (sendPushNotification title body data targetUserIds w) in
  exists new,
    calls w1 = calls w ++ new
    /\ forall token,
         In (UnregisterDevice token) new ->
         forall nextUserIds w2 devs,
           resolveDevices nextUserIds w1 = (w2, Returned devs) ->
           forall d, In d devs ->
                     DeviceRegistration.expoPushToken d <> token.
Proof.
  intros Hw w1.
  destruct (sendPushNotification_reconciles title body data targetUserIds w)
    as (Hf & _ & Hoff). fold w1 in Hf, Hoff.
  destruct (follows_extends _ _ Hf) as [new Hcalls].
  exists new. split; [exact Hcalls|].
  intros token Hin nextUserIds w2 devs Hres d Hd Htoken.
  apply resolveDevices_inv in Hres. destruct Hres as [_ ->].
  apply candidates_In in Hd. destruct Hd as (Hd & He & _).
  rewrite (Hoff Hw new token Hcalls Hin d Hd Htoken) in He. discriminate.
Qed.

(** X9. When no submission throws, the gateway keeps its contract and the
    database executes the writes of the run, a ticket whose error reason is [DeviceNotRegistered] takes the recipient
    of its message out of every later audience: after the run no candidate
    holds that token. *)
Theorem device_reported_unregistered_is_not_selected_again
  title body data targetUserIds w w0 devs msgs valid :
  resolveDevices targetUserIds w = (w0, Returned devs) ->
  healthy w0 ->
  buildMessages title body data devs [] [] = (msgs, valid) ->
  msgs <> [] ->
  let chunks := chunkPushNotifications msgs in
  let g := gateway w0 in
  let n := submitted w0 in
  all_resolve g n chunks ->
  gateway_contract g n chunks ->
  exists w1 r,
    sendPushNotification title body data targetUserIds w = (w1, Returned r)
    /\ forall j k chunk ticketChunk message text details,
         nth_error chunks j = Some chunk ->
         g (n + j) = Resolves ticketChunk ->
         nth_error chunk k = Some message ->
         nth_error ticketChunk k = Some (ErrorTicket text details) ->
         details_error details = Some "DeviceNotRegistered" ->
         forall nextUserIds w2 next,
           resolveDevices nextUserIds w1 = (w2, Returned next) ->
           forall d, In d next ->
                     DeviceRegistration.expoPushToken d
                     <> ExpoPushMessage.to message.
Proof.
  intros Hres Hw0 Hbuild Hne chunks g n Hall Hcontract.
  pose proof (healthy_before_reads _ _ _ _ Hres Hw0) as Hw.
  apply resolveDevices_inv in Hres. destruct Hres as [-> ->].
  subst g n. simpl in *.
  pose proof (contract_accounts _ _ _ Hcontract) as Hacc.
  unfold chunks in Hacc. rewrite length_concat_chunks in Hacc.
  destruct (buildMessages_lengths _ _ _ _ _ _ Hbuild) as (Hl & Hto & _).
  destruct (sendPushNotification_submits _ _ _ _ _ _ _ Hw Hbuild Hne)
    as (w1 & Hrun & Hcalls & _); [lia|].
  fold chunks in Hrun, Hcalls.
  exists w1. eexists. split; [exact Hrun|].
  intros j k chunk ticketChunk message text details
         Hnth Hg Hmsg Hticket Hreason nextUserIds w2 next Hnext d Hd Htoken.
  destruct (ticket_meets_its_device _ _ _ _ _ _ _ _ _ _
              Hall Hcontract Hto Hnth Hg Hmsg Hticket) as (d0 & Hd0 & Htoken0).
  destruct (sendPushNotification_reconciles title body data targetUserIds w)
    as (_ & _ & Hoff).
  rewrite Hrun in Hoff. cbn [fst] in Hoff.
  match type of Hcalls with
  | calls w1 = calls w ++ ?more =>
      assert (Hcall : In (UnregisterDevice (ExpoPushMessage.to message)) more)
  end.
  { apply in_or_app. right. apply in_or_app. right.
    apply in_flat_map. exists (d0, ErrorTicket text details).
    split; [exact Hd0|]. unfold calls_of. cbn [fst snd reason_of].
    rewrite Hreason. cbn. rewrite Htoken0. now left. }
  apply resolveDevices_inv in Hnext. destruct Hnext as [_ ->].
  apply candidates_In in Hd. destruct Hd as (Hd & He & _).
  rewrite (Hoff Hw _ _ Hcalls Hcall d Hd Htoken) in He. discriminate.
Qed.

(** ** Further properties of [sendNotificationMessage] *)

(** X10. For an id that no stored message has, [sendNotificationMessage]
    returns the zero result with the single error "Notification message not
    found"; no table changes, nothing is submitted to the gateway and the
    only call made is the read of the message. *)
Theorem unknown_message_is_reported_not_found messageId w w0 :
  getNotificationMessage messageId w = (w0, Returned None) ->
  sendNotificationMessage messageId w
  = (w0, Returned (SendResult.mk 0 0 ["Notification message not found"]))
  /\ devices w0 = devices w
  /\ messages w0 = messages w
  /\ submitted w0 = submitted w
  /\ calls w0 = calls w ++ [GetNotificationMessage messageId].
Proof.
  intros Hget. unfold sendNotificationMessage, await. rewrite Hget.
  apply getNotificationMessage_inv in Hget. destruct Hget as [-> _].
  splits.
Qed.

Lemma sendNotificationMessage_not_pending messageId w m :
  database w (queries w) = None ->
  lookup_message messageId w = Some m ->
  NotificationMessage.status m <> "pending" ->
  sendNotificationMessage messageId w
  = (after_calls [GetNotificationMessage messageId] w,
     Returned
       (SendResult.mk 0 0
          [("Message already " ++ NotificationMessage.status m)%string])).
Proof.
  intros Hdb Hm Hstatus.
  unfold sendNotificationMessage, await.
  rewrite getNotificationMessage_run, Hdb, Hm.
  apply String.eqb_neq in Hstatus. now rewrite Hstatus.
Qed.

(** A send of a pending message on a database that executes every query:
    the read and the move to [sending] are carried out, and the rest of the
    call runs from the world they leave. *)
Lemma sendNotificationMessage_pending messageId w m :
  healthy w ->
  lookup_message messageId w = Some m ->
  NotificationMessage.status m = "pending" ->
  exists ws,
    updateNotificationStatus messageId "sending" None None
      (after_calls [GetNotificationMessage messageId] w)
    = (ws, Returned tt)
    /\ healthy ws
    /\ sendNotificationMessage messageId w
       = (data <- parse_data (NotificationMessage.data m) ;;
          result <- sendPushNotification (NotificationMessage.title m)
                      (NotificationMessage.body m) data None ;;
          updateNotificationStatus messageId "sent"
            (Some (SendResult.successCount result))
            (Some (SendResult.failureCount result)) ;;;
          resolve result) ws.
Proof.
  intros Hw Hm Hstatus.
  set (w0 := after_calls [GetNotificationMessage messageId] w).
  assert (Hw0 : healthy w0) by (intros n Hn; apply Hw; cbn in Hn; lia).
  destruct (updateNotificationStatus_executed messageId "sending" None None
              w0 (healthy_next _ Hw0)) as [ws Hws].
  exists ws. split; [exact Hws|]. split.
  { destruct follows_storage as (_ & _ & _ & _ & _ & F6 & _).
    pose proof (F6 messageId "sending"%string None None w0) as Hf.
    rewrite Hws in Hf. exact (follows_healthy _ _ Hf Hw0). }
  unfold sendNotificationMessage, await at 1.
  rewrite getNotificationMessage_run, (healthy_next _ Hw), Hm.
  rewrite Hstatus, String.eqb_refl. cbn [negb].
  unfold await at 1. fold w0. now rewrite Hws.
Qed.

Lemma parse_data_world data w :
  fst (parse_data data w) = w.
Proof.
  destruct data as [text|]; simpl; [|reflexivity].
  destruct (truthy_string text); [|reflexivity].
  now destruct (JSON_parse text).
Qed.

(** After a send of a pending message, on a database that executes every
    query, the stored status is [sent] when the send returned and [sending]
    when it threw. *)
Lemma status_after_first_send messageId w m :
  healthy w ->
  lookup_message messageId w = Some m ->
  NotificationMessage.status m = "pending" ->
  exists m1,
    lookup_message messageId (fst (sendNotificationMessage messageId w))
    = Some m1
    /\ NotificationMessage.id m1 = NotificationMessage.id m
    /\ NotificationMessage.scheduledFor m1 = NotificationMessage.scheduledFor m
    /\ match snd (sendNotificationMessage messageId w) with
       | Returned _ => NotificationMessage.status m1 = "sent"
       | Thrown _ => NotificationMessage.status m1 = "sending"
       end.
Proof.
  intros Hw Hm Hstatus.
  destruct (sendNotificationMessage_pending _ _ _ Hw Hm Hstatus)
    as (ws & Hws & Hhealthy & ->).
  assert (Hlook : lookup_message messageId ws
                  = Some (stamped "sending" None None
                            (after_calls [GetNotificationMessage messageId] w)
                            m))
    by (exact (lookup_after_update _ _ _ _ _ _ _ Hws Hm)).
  match goal with
  | |- context [fst (?p ws)] => destruct (p ws) as [w1 out] eqn:Hrun
  end.
  cbn [fst snd]. unfold await at 1 in Hrun.
  pose proof (parse_data_world (NotificationMessage.data m) ws) as Hpw.
  destruct (parse_data (NotificationMessage.data m) ws) as [w' [data|e]];
    simpl in Hpw; subst w'.
  2:{ injection Hrun as <- <-. eexists. split; [exact Hlook|]. now splits. }
  unfold await at 1 in Hrun.
  pose proof (sendPushNotification_keeps_messages
                (NotificationMessage.title m) (NotificationMessage.body m)
                data None ws) as Hkeep.
  pose proof (sendPushNotification_follows
                (NotificationMessage.title m) (NotificationMessage.body m)
                data None ws) as Hf.
  destruct (sendPushNotification (NotificationMessage.title m)
              (NotificationMessage.body m) data None ws) as [w2 [r|e]];
    cbn [fst] in Hkeep, Hf.
  - destruct (updateNotificationStatus_executed messageId "sent"
                (Some (SendResult.successCount r))
                (Some (SendResult.failureCount r)) w2) as [w3 H3].
    { apply healthy_next. exact (follows_healthy _ _ Hf Hhealthy). }
    unfold await, resolve in Hrun. rewrite H3 in Hrun.
    injection Hrun as <- <-.
    rewrite <- (lookup_keeps_messages messageId _ _ Hkeep) in Hlook.
    eexists. split; [exact (lookup_after_update _ _ _ _ _ _ _ H3 Hlook)|].
    now splits.
  - injection Hrun as <- <-. eexists. split.
    + rewrite (lookup_keeps_messages _ _ _ Hkeep). exact Hlook.
    + now splits.
Qed.

(** X11. On a database that executes every query, once
    [sendNotificationMessage] has been called on a pending message, a second
    call for the same id right after it sends nothing: it returns the zero
    result "Message already sent" when the first call returned and "Message
    already sending" when the first call threw, and the only call it makes
    is the read of the message. *)
Theorem second_send_of_a_message_sends_nothing messageId w m :
  healthy w ->
  lookup_message messageId w = Some m ->
  NotificationMessage.status m = "pending" ->
  let first := sendNotificationMessage messageId w in
  exists status,
    sendNotificationMessage messageId (fst first)
    = (after_calls [GetNotificationMessage messageId] (fst first),
       Returned
         (SendResult.mk 0 0 [("Message already " ++ status)%string]))
    /\ match snd first with
       | Returned _ => status = "sent"
       | Thrown _ => status = "sending"
       end.
Proof.
  intros Hw Hm Hstatus first.
  destruct (status_after_first_send messageId w m Hw Hm Hstatus)
    as (m1 & Hlook & _ & _ & Hst).
  fold first in Hlook, Hst.
  assert (Hw1 : healthy (fst first))
    by (exact (follows_healthy _ _
                 (sendNotificationMessage_follows messageId w) Hw)).
  exists (NotificationMessage.status m1). split.
  - apply sendNotificationMessage_not_pending;
      [exact (healthy_next _ Hw1)|exact Hlook|].
    destruct (snd first); rewrite Hst; discriminate.
  - exact Hst.
Qed.

(** X12. On a database that executes every query, a send of a stored
    pending message whose payload parses makes its calls in this order: the
    read of the message, the move to [sending], the read of all enabled
    devices (whatever the audience type and the scheduled time of the
    message), one submission per chunk of the messages built for the
    enabled devices with a valid token, writes to the device registry, and
    last, when the send returns, the move to [sent]. *)
Theorem stored_send_marks_sending_then_addresses_all_enabled_devices
  messageId w m data :
  healthy w ->
  lookup_message messageId w = Some m ->
  NotificationMessage.status m = "pending" ->
  (forall w0, parse_data (NotificationMessage.data m) w0
              = (w0, Returned data)) ->
  let run := sendNotificationMessage messageId w in
  let chunks :=
    chunkPushNotifications
      (map (message_for (NotificationMessage.title m)
              (NotificationMessage.body m) data)
         (filter valid_token
            (filter DeviceRegistration.enabled (devices w)))) in
  exists writes closing,
    calls (fst run)
    = calls w
      ++ [GetNotificationMessage messageId;
          UpdateNotificationStatus messageId "sending" None None;
          GetEnabledDevices]
      ++ map SendPushNotificationsAsync chunks ++ writes ++ closing
    /\ Forall (fun c => is_registry_write c = true) writes
    /\ match snd run with
       | Returned result =>
           closing
           = [UpdateNotificationStatus messageId "sent"
                (Some (SendResult.successCount result))
                (Some (SendResult.failureCount result))]
       | Thrown _ => closing = []
       end.
Proof.
  intros Hw Hm Hstatus Hparse run chunks. subst run.
  destruct (sendNotificationMessage_pending _ _ _ Hw Hm Hstatus)
    as (ws & Hws & Hhealthy & ->).
  destruct (updateNotificationStatus_inv _ _ _ _ _ _ Hws)
    as (_ & Hdev & _ & Hcalls & _).
  cbn [devices calls after_calls] in Hdev, Hcalls.
  match goal with
  | |- context [fst (?p ws)] => destruct (p ws) as [w1 out] eqn:Hrun
  end.
  cbn [fst snd]. unfold await at 1 in Hrun. rewrite Hparse in Hrun.
  unfold await at 1 in Hrun.
  pose proof (resolveDevices_healthy None ws Hhealthy) as Hres.
  destruct (sendPushNotification_trace (NotificationMessage.title m)
              (NotificationMessage.body m) data None ws _ _ Hres)
    as (writes & Htrace & Hwrites & _).
  cbn [candidates reads calls after_calls] in Htrace.
  rewrite Hdev in Htrace. fold chunks in Htrace. rewrite Hcalls in Htrace.
  pose proof (sendPushNotification_follows
                (NotificationMessage.title m) (NotificationMessage.body m)
                data None ws) as Hf.
  destruct (sendPushNotification (NotificationMessage.title m)
              (NotificationMessage.body m) data None ws) as [w2 [r|e]];
    cbn [fst] in Htrace, Hf.
  - destruct (updateNotificationStatus_executed messageId "sent"
                (Some (SendResult.successCount r))
                (Some (SendResult.failureCount r)) w2) as [w3 H3].
    { apply healthy_next. exact (follows_healthy _ _ Hf Hhealthy). }
    unfold await, resolve in Hrun. rewrite H3 in Hrun.
    injection Hrun as <- <-.
    destruct (updateNotificationStatus_inv _ _ _ _ _ _ H3)
      as (_ & _ & _ & Hlast & _).
    exists writes. eexists. split; [|split; [exact Hwrites|reflexivity]].
    rewrite Hlast, Htrace. now rewrite <- !app_assoc.
  - injection Hrun as <- <-.
    exists writes, []. split; [|split; [exact Hwrites|reflexivity]].
    rewrite Htrace, app_nil_r. now rewrite <- !app_assoc.
Qed.

(** ** Further properties of [processPendingNotifications] *)

Lemma selected_message_rows_keep_unique_ids
  (keep : NotificationMessage.t -> bool) (rows : list NotificationMessage.t) :
  NoDup (map NotificationMessage.id rows) ->
  NoDup (map NotificationMessage.id (filter keep rows)).
Proof.
  induction rows as [|row rows IH]; simpl; intros Hkey; [exact Hkey|].
  apply NoDup_cons_iff in Hkey. destruct Hkey as [Hfresh Hkey].
  destruct (keep row); simpl; [|now apply IH].
  apply NoDup_cons_iff. split; [|now apply IH].
  intros Hagain. apply Hfresh.
  apply in_map_iff in Hagain. destruct Hagain as (other & Hid & Hother).
  apply filter_In in Hother.
  apply in_map_iff. exists other. split; [exact Hid|exact (proj1 Hother)].
Qed.

Lemma lookup_by_unique_id (rows : list NotificationMessage.t) m :
  NoDup (map NotificationMessage.id rows) ->
  In m rows ->
  find (fun r => String.eqb (NotificationMessage.id r)
                   (NotificationMessage.id m)) rows
  = Some m.
Proof.
  induction rows as [|r rows IH]; intros Hkey Hin; [contradiction|].
  apply NoDup_cons_iff in Hkey. destruct Hkey as [Hfresh Hkey]. simpl.
  destruct Hin as [->|Hin]; [now rewrite String.eqb_refl|].
  destruct (String.eqb (NotificationMessage.id r) (NotificationMessage.id m))
    eqn:E; [|now apply IH].
  apply String.eqb_eq in E. elim Hfresh. rewrite E. now apply in_map.
Qed.

Lemma Forall2_of_map {A B} (R : A -> B -> Prop) (h : A -> A) l1 l2 :
  Forall2 R (map h l1) l2 -> Forall2 (fun a b => R (h a) b) l1 l2.
Proof.
  revert l2. induction l1 as [|a l1 IH]; intros l2 H; simpl in H;
    inversion H; subst; constructor; auto.
Qed.

Lemma Forall2_weaken_In {A B} (R R1 : A -> B -> Prop) l1 l2 :
  (forall a b, In a l1 -> R a b -> R1 a b) ->
  Forall2 R l1 l2 -> Forall2 R1 l1 l2.
Proof.
  intros H H2. induction H2 as [|a b l1 l2 Hab _ IH]; constructor.
  - apply H; [now left|exact Hab].
  - apply IH. intros x y Hx. apply H. now right.
Qed.

Lemma has_id_among_false rest id0 (r : NotificationMessage.t) :
  ~ In id0 (map NotificationMessage.id rest) ->
  NotificationMessage.id r = id0 ->
  has_id_among rest r = false.
Proof.
  intros Hfresh Hid. unfold has_id_among.
  destruct (existsb _ rest) eqn:E; [|reflexivity].
  apply existsb_exists in E. destruct E as (m & Hin & Heq).
  apply String.eqb_eq in Heq. elim Hfresh. rewrite <- Hid, <- Heq.
  now apply in_map.
Qed.

Lemma due_rows_have_their_own_ids (rows : list NotificationMessage.t) due r :
  NoDup (map NotificationMessage.id rows) ->
  In r rows ->
  has_id_among (filter due rows) r = due r.
Proof.
  intros Hkey Hin. unfold has_id_among.
  destruct (due r) eqn:Hdue.
  - apply existsb_exists. exists r. split.
    + apply filter_In. now split.
    + apply String.eqb_refl.
  - destruct (existsb _ _) eqn:E; [|reflexivity].
    apply existsb_exists in E. destruct E as (m & Hm & Heq).
    apply filter_In in Hm. destruct Hm as [Hm Hdm].
    apply String.eqb_eq in Heq.
    assert (m = r)
      by (apply (NoDup_map_same_key NotificationMessage.id rows);
          assumption).
    congruence.
Qed.

Lemma lookup_by_id (rows : list NotificationMessage.t) m :
  NoDup (map NotificationMessage.id rows) ->
  In m rows ->
  find (has_message_id (NotificationMessage.id m)) rows = Some m.
Proof. exact (lookup_by_unique_id rows m). Qed.

Lemma retagged_update id st sc fc w w1 :
  updateNotificationStatus id st sc fc w = (w1, Returned tt) ->
  Forall2 (retagged id st) (messages w) (messages w1).
Proof.
  intros Hrun. apply updateNotificationStatus_inv in Hrun.
  destruct Hrun as (-> & _). apply Forall2_map_of. intros r.
  unfold retagged. destruct (has_message_id id r); [|reflexivity].
  now splits.
Qed.

Lemma retagged_twice id st st1 a b c :
  retagged id st a b -> retagged id st1 b c -> retagged id st1 a c.
Proof.
  unfold retagged, has_message_id.
  destruct (String.eqb (NotificationMessage.id a) id) eqn:E.
  - intros (Hid & Hs & _). rewrite Hid, E.
    intros (Hid1 & Hs1 & Hst). splits; congruence.
  - intros ->. now rewrite E.
Qed.

Lemma Forall2_compose {A} (R1 R2 R3 : A -> A -> Prop) :
  (forall a b c, R1 a b -> R2 b c -> R3 a c) ->
  forall l1 l2 l3, Forall2 R1 l1 l2 -> Forall2 R2 l2 l3 -> Forall2 R3 l1 l3.
Proof.
  intros Hstep l1 l2 l3 H12. revert l3.
  induction H12 as [|a b l1 l2 Hab _ IH]; intros l3 H23;
    inversion H23; subst; constructor; eauto.
Qed.

Lemma retagged_ids id st rows rows1 :
  Forall2 (retagged id st) rows rows1 ->
  map NotificationMessage.id rows1 = map NotificationMessage.id rows.
Proof.
  induction 1 as [|r r1 rows rows1 Hr _ IH]; [reflexivity|].
  cbn [map]. rewrite IH. f_equal. unfold retagged in Hr.
  destruct (has_message_id id r); [apply Hr|now subst].
Qed.

(** One attempt on a pending message that the lookup finds, on a database
    that executes every query: every row with its id ends [sent] or
    [failed]; no other row changes. *)
Lemma attemptPending_effect m w :
  healthy w ->
  lookup_message (NotificationMessage.id m) w = Some m ->
  NotificationMessage.status m = "pending" ->
  exists st,
    (st = "sent" \/ st = "failed")
    /\ Forall2 (retagged (NotificationMessage.id m) st) (messages w)
         (messages (fst (attemptPending m w))).
Proof.
  intros Hw Hm Hstatus. rewrite attemptPending_run.
  destruct (sendNotificationMessage_pending _ _ _ Hw Hm Hstatus)
    as (ws & Hws & Hhealthy & ->).
  pose proof (retagged_update _ _ _ _ _ _ Hws) as Hsending.
  cbn [messages after_calls] in Hsending.
  match goal with
  | |- context [let (_, _) := ?p ws in _] =>
      destruct (p ws) as [w1 out] eqn:Hrun
  end.
  unfold await at 1 in Hrun.
  pose proof (parse_data_world (NotificationMessage.data m) ws) as Hpw.
  destruct (parse_data (NotificationMessage.data m) ws) as [w' [data|e]];
    simpl in Hpw; subst w'.
  2:{ injection Hrun as <- <-.
      destruct (updateNotificationStatus_executed (NotificationMessage.id m)
                  "failed" None None ws (healthy_next _ Hhealthy))
        as [wf Hwf].
      rewrite Hwf. exists "failed"%string. split; [now right|].
      exact (Forall2_compose _ _ _ (retagged_twice _ _ _) _ _ _ Hsending
               (retagged_update _ _ _ _ _ _ Hwf)). }
  unfold await at 1 in Hrun.
  pose proof (sendPushNotification_keeps_messages
                (NotificationMessage.title m) (NotificationMessage.body m)
                data None ws) as Hkeep.
  pose proof (sendPushNotification_follows
                (NotificationMessage.title m) (NotificationMessage.body m)
                data None ws) as Hf.
  destruct (sendPushNotification (NotificationMessage.title m)
              (NotificationMessage.body m) data None ws) as [w2 [r|e]];
    cbn [fst] in Hkeep, Hf; unfold keeps_messages in Hkeep;
    rewrite <- Hkeep in Hsending;
    pose proof (healthy_next _ (follows_healthy _ _ Hf Hhealthy)) as Hdb.
  - destruct (updateNotificationStatus_executed (NotificationMessage.id m)
                "sent" (Some (SendResult.successCount r))
                (Some (SendResult.failureCount r)) w2 Hdb) as [w3 H3].
    unfold await, resolve in Hrun. rewrite H3 in Hrun.
    injection Hrun as <- <-. exists "sent"%string. split; [now left|].
    exact (Forall2_compose _ _ _ (retagged_twice _ _ _) _ _ _ Hsending
             (retagged_update _ _ _ _ _ _ H3)).
  - injection Hrun as <- <-.
    destruct (updateNotificationStatus_executed (NotificationMessage.id m)
                "failed" None None w2 Hdb) as [wf Hwf].
    rewrite Hwf. exists "failed"%string. split; [now right|].
    exact (Forall2_compose _ _ _ (retagged_twice _ _ _) _ _ _ Hsending
             (retagged_update _ _ _ _ _ _ Hwf)).
Qed.

(** The loop over a batch of pending rows of a table with unique ids, on a
    database that executes every query. *)
Lemma forPending_settles :
  forall rest w,
    healthy w ->
    NoDup (map NotificationMessage.id (messages w)) ->
    NoDup (map NotificationMessage.id rest) ->
    (forall m, In m rest ->
               In m (messages w) /\ NotificationMessage.status m = "pending") ->
    Forall2 (settled (has_id_among rest)) (messages w)
      (messages (fst (forPending rest w))).
Proof.
  induction rest as [|m rest IH]; intros w Hw Hkey Hrest Hrows.
  - apply Forall2_same. intros r. reflexivity.
  - apply NoDup_cons_iff in Hrest. destruct Hrest as [Hfresh Hrest].
    destruct (Hrows m (or_introl eq_refl)) as [Hin Hpending].
    destruct (attemptPending_effect m w Hw) as (st & Hst & Hmsgs);
      [exact (lookup_by_id _ _ Hkey Hin)|exact Hpending|].
    pose proof (attemptPending_healthy m w Hw) as Hret.
    pose proof (attemptPending_follows m w) as Hf.
    destruct (attemptPending m w) as [w1 out] eqn:Hattempt.
    cbn [fst snd] in *. subst out.
    rewrite (forPending_step _ _ _ _ Hattempt).
    assert (Hsettled : Forall2 (settled (has_id_among rest)) (messages w1)
                         (messages (fst (forPending rest w1)))).
    { apply IH.
      - exact (follows_healthy _ _ Hf Hw).
      - now rewrite (retagged_ids _ _ _ _ Hmsgs).
      - exact Hrest.
      - intros m1 Hm1. destruct (Hrows m1 (or_intror Hm1)) as [Hin1 Hp1].
        split; [|exact Hp1].
        destruct (Forall2_target _ _ _ _ Hmsgs Hin1) as (b & Hb & Hr).
        unfold retagged, has_message_id in Hr.
        destruct (String.eqb (NotificationMessage.id m1)
                    (NotificationMessage.id m)) eqn:E; [|now subst b].
        apply String.eqb_eq in E. elim Hfresh. rewrite <- E.
        now apply in_map. }
    refine (Forall2_compose _ _ _ _ _ _ _ Hmsgs Hsettled).
    intros a b c Hab Hbc. unfold settled, retagged in *.
    cbn [has_id_among existsb]. unfold has_message_id in Hab.
    destruct (String.eqb (NotificationMessage.id a)
                (NotificationMessage.id m)) eqn:E.
    + rewrite String.eqb_sym, E. cbn [orb].
      destruct Hab as (Hid & Hs & Hstatus).
      rewrite (has_id_among_false rest (NotificationMessage.id m)) in Hbc
        by (try exact Hfresh; apply String.eqb_eq in E; congruence).
      subst c. splits; try assumption.
      destruct Hst as [-> | ->]; [now left|now right].
    + rewrite String.eqb_sym, E. cbn [orb]. now subst b.
Qed.

Lemma getPendingNotifications_inv w w0 pending :
  getPendingNotifications w = (w0, Returned pending) ->
  pending = filter (is_due (clock w (ticks w))) (messages w)
  /\ messages w0 = messages w
  /\ follows w w0.
Proof.
  destruct follows_storage as (_ & _ & _ & _ & _ & _ & F7 & _).
  intros Hrun. pose proof (F7 w) as Hf. rewrite Hrun in Hf.
  split; [|split; [|exact Hf]]; revert Hrun; storage;
    destruct (database w _); try discriminate; now intros [= <- <-].
Qed.

Lemma getPendingNotifications_executed w :
  database w (queries w) = None ->
  exists w0,
    getPendingNotifications w
    = (w0, Returned (filter (is_due (clock w (ticks w))) (messages w))).
Proof. intros H. storage. rewrite H. eexists. reflexivity. Qed.

(** What a sweep makes of a message table with unique ids, on a database
    that executes every query. *)
Lemma sweep_settles w :
  healthy w ->
  NoDup (map NotificationMessage.id (messages w)) ->
  Forall2 (settled (is_due (clock w (ticks w)))) (messages w)
    (messages (fst (processPendingNotifications w))).
Proof.
  intros Hw Hkey. unfold processPendingNotifications, await.
  destruct (getPendingNotifications_executed w (healthy_next _ Hw))
    as [w0 Hget].
  rewrite Hget.
  destruct (getPendingNotifications_inv _ _ _ Hget) as (_ & Hsame & Hf).
  set (t := clock w (ticks w)) in *.
  assert (Hloop : Forall2 (settled (has_id_among (filter (is_due t)
                                                    (messages w))))
                    (messages w0)
                    (messages (fst (forPending (filter (is_due t) (messages w))
                                      w0)))).
  { apply forPending_settles.
    - exact (follows_healthy _ _ Hf Hw).
    - now rewrite Hsame.
    - apply selected_message_rows_keep_unique_ids. exact Hkey.
    - intros m Hm. apply filter_In in Hm. destruct Hm as [Hin Hdue].
      rewrite Hsame. split; [exact Hin|]. unfold is_due in Hdue.
      apply andb_true_iff in Hdue. destruct Hdue as [Hp _].
      now apply String.eqb_eq in Hp. }
  rewrite Hsame in Hloop.
  eapply Forall2_weaken_In; [|exact Hloop].
  intros r r1 Hin Hr. unfold settled in *.
  now rewrite (due_rows_have_their_own_ids _ _ _ Hkey Hin) in Hr.
Qed.

(** X13. On a message table with unique ids and a database that executes
    every query, a sweep leaves every message that was due when the sweep
    read the clock with status [sent] or [failed] (same id, same scheduled
    time), leaves every other row -- not pending, or scheduled for later --
    exactly as it was, and adds no row. *)
Theorem sweep_settles_due_messages_and_no_other w :
  healthy w ->
  NoDup (map NotificationMessage.id (messages w)) ->
  let w1 := fst (processPendingNotifications w) in
  let due := is_due (clock w (ticks w)) in
  (forall r,
     In r (messages w) ->
     if due r then
       exists r1,
         In r1 (messages w1)
         /\ NotificationMessage.id r1 = NotificationMessage.id r
         /\ NotificationMessage.scheduledFor r1
            = NotificationMessage.scheduledFor r
         /\ (NotificationMessage.status r1 = "sent"
             \/ NotificationMessage.status r1 = "failed")
     else In r (messages w1))
  /\ (forall r1,
        In r1 (messages w1) ->
        exists r,
          In r (messages w)
          /\ NotificationMessage.id r1 = NotificationMessage.id r)
  /\ NoDup (map NotificationMessage.id (messages w1)).
Proof.
  intros Hw Hkey w1 due. pose proof (sweep_settles w Hw Hkey) as Hsettled.
  fold w1 due in Hsettled. split; [|split].
  - intros r Hr.
    destruct (Forall2_target _ _ _ _ Hsettled Hr) as (r1 & Hr1 & Hs).
    unfold settled in Hs. destruct (due r).
    + exists r1. split; [exact Hr1|exact Hs].
    + now subst r1.
  - intros r1 Hr1.
    destruct (Forall2_source _ _ _ _ Hsettled Hr1) as (r & Hr & Hs).
    exists r. split; [exact Hr|]. unfold settled in Hs.
    destruct (due r); [apply Hs|now subst].
  - replace (map NotificationMessage.id (messages w1))
      with (map NotificationMessage.id (messages w)); [exact Hkey|].
    clear Hkey. induction Hsettled as [|r r1 l l1 Hr _ IH]; [reflexivity|].
    cbn [map]. rewrite IH. f_equal. unfold settled in Hr.
    destruct (due r); [symmetry; apply Hr|now subst].
Qed.

(** X14. On a message table with unique ids and a database that executes
    every query, no message that was due when a sweep read the clock is
    pending after the sweep: the messages a later reading of the pending
    messages finds are rows the sweep left untouched, each scheduled for a
    time after the sweep's reading of the clock. *)
Theorem second_sweep_finds_nothing_due w :
  healthy w ->
  NoDup (map NotificationMessage.id (messages w)) ->
  let w1 := fst (processPendingNotifications w) in
  forall w2 pending,
    getPendingNotifications w1 = (w2, Returned pending) ->
    forall m,
      In m pending ->
      In m (messages w)
      /\ exists at_,
           NotificationMessage.scheduledFor m = Some at_
           /\ clock w (ticks w) < at_ <= clock w1 (ticks w1).
Proof.
  intros Hw Hkey w1 w2 pending Hget m Hm.
  pose proof (sweep_settles w Hw Hkey) as Hsettled. fold w1 in Hsettled.
  apply getPendingNotifications_inv in Hget. destruct Hget as (-> & _).
  apply filter_In in Hm. destruct Hm as [Hin Hdue].
  destruct (Forall2_source _ _ _ _ Hsettled Hin) as (r & Hr & Hs).
  unfold settled in Hs.
  destruct (is_due (clock w (ticks w)) r) eqn:Hwas.
  - unfold is_due in Hdue. apply andb_true_iff in Hdue.
    destruct Hdue as [Hp _]. apply String.eqb_eq in Hp.
    destruct Hs as (_ & _ & [Hs|Hs]); rewrite Hs in Hp; discriminate.
  - subst m. split; [exact Hr|].
    unfold is_due in Hdue, Hwas. apply andb_true_iff in Hdue.
    destruct Hdue as [Hp Hlate]. rewrite Hp in Hwas. cbn [andb] in Hwas.
    destruct (NotificationMessage.scheduledFor r) as [at_|]; [|discriminate].
    exists at_. split; [reflexivity|].
    apply Nat.leb_le in Hlate. apply Nat.leb_gt in Hwas. lia.
Qed.

(** ** Properties of the admin routes *)

(** X15. [requireAdminAuth] lets a request through exactly when an admin key
    is configured, is not empty, and the [x-admin-api-key] header carries
    that very key; when no key is configured (or an empty one) every request
    is answered 503, whatever its header. *)
Theorem admin_guard_admits_only_the_configured_key
  (ADMIN_API_KEY apiKey : option string) :
  (requireAdminAuth ADMIN_API_KEY apiKey = Next
   <-> exists key,
         ADMIN_API_KEY = Some key /\ key <> EmptyString
         /\ apiKey = Some key)
  /\ (truthy_option ADMIN_API_KEY = false ->
      requireAdminAuth ADMIN_API_KEY apiKey
      = Refuse (Response.mk 503
                  (Failure "Admin authentication not configured"))).
Proof.
  unfold requireAdminAuth. split.
  - destruct ADMIN_API_KEY as [[|c key]|]; simpl.
    + split; [discriminate|]. intros (k & [= <-] & Hk & _). now elim Hk.
    + destruct apiKey as [header|]; simpl.
      * destruct (String.eqb header (String c key)) eqn:E; simpl.
        -- apply String.eqb_eq in E. subst header. split; [|reflexivity].
           intros _. exists (String c key). repeat split. discriminate.
        -- apply String.eqb_neq in E. split; [discriminate|].
           intros (k & [= <-] & _ & [= Hh]). now elim E.
      * split; [discriminate|]. intros (k & _ & _ & H). discriminate.
    + split; [discriminate|]. intros (k & H & _). discriminate.
  - intros ->. reflexivity.
Qed.

(** X16. A request that [requireAdminAuth] refuses reaches neither handler:
    both routes answer with the refusal, status 401 or 503, and the world is
    left as it was -- no storage call, no gateway submission. *)
Theorem refused_request_changes_nothing
  (ADMIN_API_KEY apiKey : option string) parsed w response :
  requireAdminAuth ADMIN_API_KEY apiKey = Refuse response ->
  postTrigger ADMIN_API_KEY apiKey parsed w = (w, Returned response)
  /\ postProcessPending ADMIN_API_KEY apiKey w = (w, Returned response)
  /\ (Response.status response = 401 \/ Response.status response = 503).
Proof.
  intros Hguard. unfold postTrigger, postProcessPending, guarded.
  rewrite Hguard. split; [reflexivity|]. split; [reflexivity|].
  unfold requireAdminAuth in Hguard.
  destruct (negb (truthy_option ADMIN_API_KEY)).
  - injection Hguard as <-. now right.
  - destruct (strictly_differs apiKey ADMIN_API_KEY); [|discriminate].
    injection Hguard as <-. now left.
Qed.


(** X18. A trigger request without a non-empty [messageId] and without both
    a non-empty title and a non-empty body is answered 400 and makes no
    call at all. *)
Theorem trigger_without_target_is_answered_400 req w :
  when_truthy (TriggerRequest.messageId req) = None ->
  when_truthy (TriggerRequest.title req) = None
  \/ when_truthy (TriggerRequest.body req) = None ->
  triggerHandler (Valid req) w
  = (w,
     Returned
       (Response.mk 400 (Failure "Either messageId or title/body required"))).
Proof.
  intros Hid Hcontent. unfold triggerHandler, try_catch, await, schema_parse,
    resolve.
  rewrite Hid.
  destruct Hcontent as [H|H]; rewrite H;
    try destruct (when_truthy (TriggerRequest.title req)); reflexivity.
Qed.

Lemma triggerHandler_by_id req messageId w :
  when_truthy (TriggerRequest.messageId req) = Some messageId ->
  triggerHandler (Valid req) w
  = match sendNotificationMessage messageId w with
    | (w1, Returned result) => (w1, Returned (trigger_response result))
    | (w1, Thrown _) =>
        (w1,
         Returned
           (Response.mk 500 (Failure "Failed to trigger notification")))
    end.
Proof.
  intros Hid. unfold triggerHandler, try_catch, await, schema_parse, resolve.
  rewrite Hid.
  now destruct (sendNotificationMessage messageId w) as [w1 [r|e]].
Qed.

(** X19. Triggering an id that no stored message has, or a stored message
    that is not pending, is answered with status 200 and [success: true]:
    the body carries zero counts and the one error string, the only call
    made is the read of the message, and no table changes. *)
Theorem trigger_of_unsendable_message_is_answered_200
  req messageId w w0 found :
  when_truthy (TriggerRequest.messageId req) = Some messageId ->
  getNotificationMessage messageId w = (w0, Returned found) ->
  match found with
  | Some m => NotificationMessage.status m <> "pending"
  | None => True
  end ->
  triggerHandler (Valid req) w
  = (w0,
     Returned
       (Response.mk 200
          (TriggerResult 0 0
             (Some
                [(match found with
                  | Some m =>
                      ("Message already "
                       ++ NotificationMessage.status m)%string
                  | None => "Notification message not found"%string
                  end)]))))
  /\ calls w0 = calls w ++ [GetNotificationMessage messageId]
  /\ devices w0 = devices w
  /\ messages w0 = messages w
  /\ submitted w0 = submitted w.
Proof.
  intros Hid Hget Hstate. rewrite (triggerHandler_by_id _ _ _ Hid).
  unfold sendNotificationMessage, await. rewrite Hget.
  apply getNotificationMessage_inv in Hget. destruct Hget as [-> _].
  destruct found as [m|]; [|splits].
  apply String.eqb_neq in Hstate. rewrite Hstate. splits.
Qed.

(** X20. On a database that executes every query, when the send of a
    pending stored message throws, the trigger route answers 500 and the
    message is left with status [sending]: this route never marks it
    [failed].  Triggering the same id again is then answered 200 with the
    error "Message already sending", and sends nothing. *)
Theorem failed_trigger_leaves_message_sending req messageId w m w1 e :
  healthy w ->
  when_truthy (TriggerRequest.messageId req) = Some messageId ->
  lookup_message messageId w = Some m ->
  NotificationMessage.status m = "pending" ->
  sendNotificationMessage messageId w = (w1, Thrown e) ->
  triggerHandler (Valid req) w
  = (w1,
     Returned (Response.mk 500 (Failure "Failed to trigger notification")))
  /\ (exists m1,
        lookup_message messageId w1 = Some m1
        /\ NotificationMessage.status m1 = "sending")
  /\ triggerHandler (Valid req) w1
     = (after_calls [GetNotificationMessage messageId] w1,
        Returned
          (Response.mk 200
             (TriggerResult 0 0 (Some ["Message already sending"])))).
Proof.
  intros Hw Hid Hm Hstatus Hthrow.
  destruct (status_after_first_send messageId w m Hw Hm Hstatus)
    as (m1 & Hlook & _ & _ & Hst).
  pose proof (sendNotificationMessage_follows messageId w) as Hf.
  rewrite Hthrow in Hlook, Hst, Hf. cbn [fst snd] in Hlook, Hst, Hf.
  split; [|split].
  - rewrite (triggerHandler_by_id _ _ _ Hid). now rewrite Hthrow.
  - exists m1. now split.
  - rewrite (triggerHandler_by_id _ _ _ Hid).
    rewrite (sendNotificationMessage_not_pending _ _ _
               (healthy_next _ (follows_healthy _ _ Hf Hw)) Hlook)
      by (rewrite Hst; discriminate).
    now rewrite Hst.
Qed.

(** A sweep throws only an error the database gave to one of its
    queries. *)
Lemma sweep_throws_what_the_database_rejects w w1 e :
  processPendingNotifications w = (w1, Thrown e) ->
  exists n, queries w <= n < queries w1 /\ database w n = Some e.
Proof.
  unfold processPendingNotifications, await.
  destruct follows_storage as (_ & _ & _ & _ & _ & F6 & F7 & _).
  pose proof (F7 w) as Hf0.
  destruct (getPendingNotifications w) as [w0 [pending|e0]] eqn:Hget;
    cbn [fst] in Hf0.
  - intros Hrun.
    destruct (forPending_outcome pending w0) as (new & _ & Hout).
    rewrite Hrun in Hout. cbn [fst snd] in Hout.
    destruct Hout as (before & m & rest & wk & wk1 & e0
                      & _ & Hbefore & Hsend & Hmark).
    pose proof (forPending_follows before w0) as Hf1.
    rewrite Hbefore in Hf1. cbn [fst] in Hf1.
    pose proof (sendNotificationMessage_follows (NotificationMessage.id m) wk)
      as Hf2.
    rewrite Hsend in Hf2. cbn [fst] in Hf2.
    pose proof (F6 (NotificationMessage.id m) "failed"%string None None wk1)
      as Hf3.
    rewrite Hmark in Hf3. cbn [fst] in Hf3.
    destruct (updateNotificationStatus_rejected _ _ _ _ _ _ _ Hmark)
      as (_ & _ & _ & _ & Hdb & Hnext).
    pose proof (follows_trans _ _ _ (follows_trans _ _ _ Hf0 Hf1) Hf2) as Hf.
    destruct Hf as (_ & Hd & _ & _ & Hq & _).
    exists (queries wk1). rewrite <- Hd. split; [|exact Hdb]. lia.
  - intros [= <- <-]. exists (queries w). revert Hget. storage.
    destruct (database w _) eqn:Hdb; [|discriminate].
    intros [= <- <-]. cbn. split; [lia|reflexivity].
Qed.

(** X21. A request to the process-pending route that the admin guard lets
    through is answered 200 with [processed: true] whenever the database
    executes the queries of the sweep -- whatever the gateway does and
    whatever the attempts throw -- and 500 only when the database rejected
    one of them; either way the world is left as the sweep leaves it. *)
Theorem sweep_route_reports_processed_unless_storage_fails
  (ADMIN_API_KEY apiKey : option string) w :
  requireAdminAuth ADMIN_API_KEY apiKey = Next ->
  let sweep := processPendingNotifications w in
  exists response,
    postProcessPending ADMIN_API_KEY apiKey w = (fst sweep, Returned response)
    /\ (healthy w -> response = Response.mk 200 Processed)
    /\ (response <> Response.mk 200 Processed ->
        response
        = Response.mk 500 (Failure "Failed to process pending notifications")
        /\ exists n e,
             queries w <= n < queries (fst sweep)
             /\ database w n = Some e).
Proof.
  intros Hguard sweep. unfold postProcessPending, guarded. rewrite Hguard.
  unfold processPendingHandler, try_catch, await at 1, resolve.
  fold sweep.
  assert (Hhealthy : healthy w -> snd sweep = Returned tt).
  { intros Hw. unfold sweep, processPendingNotifications, await.
    destruct (getPendingNotifications_executed w (healthy_next _ Hw))
      as [w0 Hget].
    rewrite Hget. apply forPending_healthy.
    destruct (getPendingNotifications_inv _ _ _ Hget) as (_ & _ & Hf).
    exact (follows_healthy _ _ Hf Hw). }
  destruct sweep as [w1 [[]|e]] eqn:Hrun; cbn [fst snd] in *.
  - eexists. split; [reflexivity|]. split; [reflexivity|].
    intros H. now elim H.
  - eexists. split; [reflexivity|]. split.
    + intros Hw. specialize (Hhealthy Hw). discriminate.
    + intros _. split; [reflexivity|].
      destruct (sweep_throws_what_the_database_rejects _ _ _ Hrun)
        as (n & Hn & Hdb).
      now exists n, e.
Qed.

(** *** The device routes: [verifyAccessToken] and the unregister handler *)

Lemma substring_whole s : substring 0 (String.length s) s = s.
Proof.
  induction s as [|c s IH]; simpl; [reflexivity|now rewrite IH].
Qed.

(** [("Bearer " + t).substring(7)] is [t]. *)
Lemma bearer_token t :
  substring 7 (String.length ("Bearer " ++ t)%string - 7) ("Bearer " ++ t)%string
  = t.
Proof.
  simpl. rewrite Nat.sub_0_r. apply substring_whole.
Qed.

Lemma prefix_append p t : String.prefix p (p ++ t)%string = true.
Proof.
  induction p as [|a p IH]; simpl.
  - now destruct t.
  - destruct (ascii_dec a a) as [_|Hne]; [exact IH|now contradiction Hne].
Qed.

(** A text that starts with [p] is [p] followed by what [substring] cuts
    off behind it. *)
Lemma prefix_splits p s :
  String.prefix p s = true ->
  s = (p ++ substring (String.length p)
              (String.length s - String.length p) s)%string.
Proof.
  revert s. induction p as [|a p IH]; intros s H.
  - simpl. rewrite Nat.sub_0_r. symmetry. apply substring_whole.
  - destruct s as [|b s]; simpl in H; [discriminate|].
    destruct (ascii_dec a b) as [<-|]; [|discriminate].
    simpl. f_equal. exact (IH s H).
Qed.

Lemma verifyAccessToken_without_bearer authHeader w :
  match authHeader with
  | Some header => String.prefix "Bearer " header = false
  | None => True
  end ->
  verifyAccessToken authHeader w = (w, Returned None).
Proof.
  destruct authHeader as [header|]; [|reflexivity].
  intros Hp. unfold verifyAccessToken. rewrite Hp.
  now destruct (truthy_string header).
Qed.

Lemma verifyAccessToken_bearer token w :
  verifyAccessToken (Some ("Bearer " ++ token)%string) w
  = (w,
     Returned
       match identity_service token with
       | Responds true (Valid result) =>
           match AuthMe.data result with
           | Some user => if AuthMe.success result then Some user else None
           | None => None
           end
       | _ => None
       end).
Proof.
  unfold verifyAccessToken. rewrite bearer_token, prefix_append.
  cbn [append truthy_string negb orb].
  unfold try_catch, await, schema_parse, resolve, throw.
  destruct (identity_service token) as [e|[|] [result|e]]; try reflexivity.
  cbn [negb].
  destruct (AuthMe.data result) as [user|]; [|reflexivity].
  now destruct (AuthMe.success result).
Qed.

(** [verifyAccessToken] returns, and reads the world only. *)
Lemma verifyAccessToken_pure authHeader w :
  exists r, verifyAccessToken authHeader w = (w, Returned r).
Proof.
  destruct authHeader as [header|]; [|now exists None].
  destruct (String.prefix "Bearer " header) eqn:Hp.
  - rewrite (prefix_splits _ _ Hp), verifyAccessToken_bearer. eauto.
  - exists None. now apply verifyAccessToken_without_bearer.
Qed.

(** X22. [verifyAccessToken] never throws and changes nothing.  It yields a
    user exactly when the header is ["Bearer "] followed by a token for
    which the identity service answers [ok] with a body whose [success] is
    true and whose [data] is that user; a failed fetch, a response that is
    not [ok], a body that is not JSON and a header of any other shape all
    yield no user. *)
Theorem access_token_is_accepted_only_on_confirmation authHeader w :
  exists r,
    verifyAccessToken authHeader w = (w, Returned r)
    /\ forall user,
         r = Some user
         <-> exists token,
               authHeader = Some ("Bearer " ++ token)%string
               /\ identity_service token
                  = Responds true (Valid (AuthMe.mk true (Some user))).
Proof.
  destruct authHeader as [header|].
  - destruct (String.prefix "Bearer " header) eqn:Hp.
    + rewrite (prefix_splits _ _ Hp). cbn [String.length].
      set (token := substring 7 (String.length header - 7) header).
      rewrite verifyAccessToken_bearer. eexists. split; [reflexivity|].
      intros user. split.
      * intros Hr. exists token. split; [reflexivity|].
        destruct (identity_service token) as [e|[|] [[[|] [u|]]|e]];
          try discriminate.
        cbn in Hr. now injection Hr as ->.
      * intros (t & Hh & Hid). injection Hh as Hh.
        rewrite <- Hh in Hid. now rewrite Hid.
    + exists None. split.
      * now apply verifyAccessToken_without_bearer.
      * intros user. split; [discriminate|].
        intros (t & Hh & _). injection Hh as Hh.
        assert (Ht : String.prefix "Bearer " header = true)
          by (rewrite Hh; exact (prefix_append "Bearer " t)).
        rewrite Ht in Hp. discriminate.
  - exists None. split; [reflexivity|].
    intros user. split; [discriminate|]. intros (t & Hh & _). discriminate.
Qed.

Lemma getDeviceByToken_inv token w w0 found :
  getDeviceByToken token w = (w0, Returned found) ->
  w0 = after_calls [GetDeviceByToken token] w
  /\ found = find (has_token token) (devices w).
Proof.
  rewrite getDeviceByToken_run.
  destruct (database w (queries w)); [discriminate|].
  intros [= <- <-]. auto.
Qed.

Lemma unregisterDevice_inv token w w1 result :
  unregisterDevice token w = (w1, Returned result) ->
  devices w1
  = map (fun d => if has_token token d
                  then disable (clock w (ticks w)) d else d)
      (devices w)
  /\ messages w1 = messages w
  /\ calls w1 = calls w ++ [UnregisterDevice token].
Proof.
  storage. destruct (database w _); [discriminate|].
  intros [= <- _]. cbn. splits.
Qed.

Lemma unregisterDevice_rejected token w w1 e :
  unregisterDevice token w = (w1, Thrown e) ->
  devices w1 = devices w /\ messages w1 = messages w.
Proof.
  storage. destruct (database w _); [|discriminate].
  intros [= <- _]. cbn. splits.
Qed.

Lemma unregisterDevice_executed token w :
  database w (queries w) = None ->
  exists w1, unregisterDevice token w = (w1, Returned true).
Proof. intros H. storage. rewrite H. eexists. reflexivity. Qed.

(** What the handler does with a valid body once the token is verified. *)
Lemma unregisterHandler_verified authorization data user w :
  verifyAccessToken authorization w = (w, Returned (Some user)) ->
  let token := UnregisterRequest.expoPushToken data in
  let failed (e : JsError.t) :=
    if is_ZodError e
    then Response.mk 400 (InvalidRequest "Invalid request data" e)
    else Response.mk 500 (Failure "Failed to unregister device") in
  let unregister (w0 : World) :=
    match unregisterDevice token w0 with
    | (w1, Returned _) => (w1, Returned (Response.mk 200 Unregistered))
    | (w1, Thrown e) => (w1, Returned (failed e))
    end in
  unregisterHandler authorization (Valid data) w
  = match getDeviceByToken token w with
    | (w0, Returned (Some device)) =>
        if String.eqb (DeviceRegistration.userId device) (CarbscanUser.id user)
        then unregister w0
        else (w0,
              Returned
                (Response.mk 403
                   (Failure
                      "Forbidden - cannot unregister device for another user")))
    | (w0, Returned None) => unregister w0
    | (w0, Thrown e) => (w0, Returned (failed e))
    end.
Proof.
  intros Huser token failed unregister. subst token failed unregister.
  unfold unregisterHandler, try_catch, await at 1, schema_parse, resolve.
  unfold await at 1. rewrite Huser. unfold await at 1.
  destruct (getDeviceByToken (UnregisterRequest.expoPushToken data) w)
    as [w0 [[device|]|e]]; cbn [negb].
  - destruct (String.eqb (DeviceRegistration.userId device)
                (CarbscanUser.id user)); cbn [negb]; [|reflexivity].
    unfold await.
    destruct (unregisterDevice (UnregisterRequest.expoPushToken data) w0)
      as [w1 [b|e]]; [reflexivity|].
    now destruct (is_ZodError e).
  - unfold await.
    destruct (unregisterDevice (UnregisterRequest.expoPushToken data) w0)
      as [w1 [b|e]]; [reflexivity|].
    now destruct (is_ZodError e).
  - now destruct (is_ZodError e).
Qed.

Lemma unregisterHandler_unverified authorization data w :
  verifyAccessToken authorization w = (w, Returned None) ->
  unregisterHandler authorization (Valid data) w
  = (w,
     Returned
       (Response.mk 401 (Failure "Unauthorized - valid access token required"))).
Proof.
  intros Hnone.
  unfold unregisterHandler, try_catch, await, schema_parse, resolve.
  now rewrite Hnone.
Qed.

(** X23. The unregister route always answers.  When it answers 200, the
    body is valid, the access token is verified, and the row holding the
    push token, if there is one, belongs to the verified user; with any
    other answer the two tables are as they were.  Conversely, when these
    three conditions hold and the database executes the two queries, the
    answer is 200. *)
Theorem unregister_is_answered_200_only_to_a_verified_owner
  authorization parsed w :
  exists w1 response,
    unregisterHandler authorization parsed w = (w1, Returned response)
    /\ (Response.status response = 200 ->
        exists data user,
          parsed = Valid data
          /\ verifyAccessToken authorization w = (w, Returned (Some user))
          /\ forall device,
               find (has_token (UnregisterRequest.expoPushToken data))
                    (devices w) = Some device ->
               DeviceRegistration.userId device = CarbscanUser.id user)
    /\ (Response.status response <> 200 ->
        devices w1 = devices w /\ messages w1 = messages w)
    /\ (healthy w ->
        forall data user,
          parsed = Valid data ->
          verifyAccessToken authorization w = (w, Returned (Some user)) ->
          (forall device,
             find (has_token (UnregisterRequest.expoPushToken data))
                  (devices w) = Some device ->
             DeviceRegistration.userId device = CarbscanUser.id user) ->
          response = Response.mk 200 Unregistered).
Proof.
  destruct parsed as [data|e].
  2:{ unfold unregisterHandler, try_catch, await, schema_parse, throw, resolve.
      destruct (is_ZodError e); do 2 eexists;
        (split; [reflexivity|]); cbn;
        (split; [discriminate|]); (split; [now split|]);
        intros _ data0 user0 Hp; discriminate. }
  destruct (verifyAccessToken_pure authorization w) as [[user|] Hv].
  2:{ rewrite (unregisterHandler_unverified _ _ _ Hv).
      do 2 eexists. split; [reflexivity|]. cbn.
      split; [discriminate|]. split; [now split|].
      intros _ data0 user0 _ Hv0. rewrite Hv in Hv0. discriminate. }
  rewrite (unregisterHandler_verified _ _ _ _ Hv).
  set (token := UnregisterRequest.expoPushToken data).
  rewrite getDeviceByToken_run.
  set (w0 := after_calls [GetDeviceByToken token] w).
  assert (Hunregister :
            forall P : Prop, P ->
            exists w1 response,
              match unregisterDevice token w0 with
              | (w1, Returned _) =>
                  (w1, Returned (Response.mk 200 Unregistered))
              | (w1, Thrown e) =>
                  (w1,
                   Returned
                     (if is_ZodError e
                      then Response.mk 400
                             (InvalidRequest "Invalid request data" e)
                      else Response.mk 500
                             (Failure "Failed to unregister device")))
              end = (w1, Returned response)
              /\ (Response.status response = 200 -> P)
              /\ (Response.status response <> 200 ->
                  devices w1 = devices w /\ messages w1 = messages w)
              /\ (healthy w -> response = Response.mk 200 Unregistered)).
  { intros P HP.
    destruct (unregisterDevice token w0) as [w1 [b|e]] eqn:Hrun.
    - do 2 eexists. split; [reflexivity|]. cbn.
      split; [intros _; exact HP|]. split; [intros H; now elim H|].
      reflexivity.
    - apply unregisterDevice_rejected in Hrun as Hsame.
      assert (Hdown : healthy w -> False).
      { intros Hw. destruct (unregisterDevice_executed token w0) as [w2 H2].
        - apply Hw. cbn. lia.
        - rewrite H2 in Hrun. discriminate. }
      destruct (is_ZodError e); do 2 eexists;
        (split; [reflexivity|]); cbn;
        (split; [discriminate|]); (split; [intros _; exact Hsame|]);
        intros Hw; now elim (Hdown Hw). }
  destruct (database w (queries w)) as [e|] eqn:Hdb.
  { destruct (is_ZodError e); do 2 eexists;
      (split; [reflexivity|]); cbn;
      (split; [discriminate|]); (split; [now split|]);
      intros Hw; rewrite (healthy_next _ Hw) in Hdb; discriminate. }
  destruct (find (has_token token) (devices w)) as [device|] eqn:Hfind.
  - destruct (String.eqb (DeviceRegistration.userId device)
                (CarbscanUser.id user)) eqn:Hown.
    + apply String.eqb_eq in Hown.
      destruct (Hunregister
                  (exists data0 user0,
                      Valid data = Valid data0
                      /\ verifyAccessToken authorization w
                         = (w, Returned (Some user0))
                      /\ forall device0,
                           find (has_token
                                   (UnregisterRequest.expoPushToken data0))
                                (devices w) = Some device0 ->
                           DeviceRegistration.userId device0
                           = CarbscanUser.id user0))
        as (w1 & response & Hrun & H200 & Hother & Hhealthy).
      { exists data, user. split; [reflexivity|]. split; [exact Hv|].
        fold token. rewrite Hfind. now intros d [= <-]. }
      exists w1, response. split; [exact Hrun|]. split; [exact H200|].
      split; [exact Hother|]. intros Hw _ _ _ _ _. exact (Hhealthy Hw).
    + apply String.eqb_neq in Hown.
      do 2 eexists. split; [reflexivity|]. cbn.
      split; [discriminate|]. split; [now split|].
      intros _ data0 user0 [= <-] Hv0 Hall.
      rewrite Hv in Hv0. injection Hv0 as <-.
      now elim Hown; apply Hall.
  - destruct (Hunregister
                (exists data0 user0,
                    Valid data = Valid data0
                    /\ verifyAccessToken authorization w
                       = (w, Returned (Some user0))
                    /\ forall device0,
                         find (has_token
                                 (UnregisterRequest.expoPushToken data0))
                              (devices w) = Some device0 ->
                         DeviceRegistration.userId device0
                         = CarbscanUser.id user0))
      as (w1 & response & Hrun & H200 & Hother & Hhealthy).
    { exists data, user. split; [reflexivity|]. split; [exact Hv|].
      fold token. rewrite Hfind. discriminate. }
    exists w1, response. split; [exact Hrun|]. split; [exact H200|].
    split; [exact Hother|]. intros Hw _ _ _ _ _. exact (Hhealthy Hw).
Qed.

(** X24. When the unregister route answers a valid request with 200, it has
    made two calls on the storage, [getDeviceByToken] and then
    [unregisterDevice], both on the push token of the body, and touched no
    message; no enabled row holds that token any more, so no later audience
    of [sendPushNotification], whatever users it names, contains a device
    with that token. *)
Theorem unregistered_device_leaves_every_audience
  authorization data w w1 response :
  unregisterHandler authorization (Valid data) w = (w1, Returned response) ->
  Response.status response = 200 ->
  let token := UnregisterRequest.expoPushToken data in
  response = Response.mk 200 Unregistered
  /\ calls w1 = calls w ++ [GetDeviceByToken token; UnregisterDevice token]
  /\ messages w1 = messages w
  /\ (forall d,
        In d (devices w1) ->
        DeviceRegistration.expoPushToken d = token ->
        DeviceRegistration.enabled d = false)
  /\ forall nextUserIds w2 devs,
       resolveDevices nextUserIds w1 = (w2, Returned devs) ->
       forall d, In d devs -> DeviceRegistration.expoPushToken d <> token.
Proof.
  intros Hrun Hstatus token.
  assert (Hdone : exists w0 found b,
             getDeviceByToken token w = (w0, Returned found)
             /\ unregisterDevice token w0 = (w1, Returned b)
             /\ response = Response.mk 200 Unregistered).
  { destruct (verifyAccessToken_pure authorization w) as [[user|] Hv].
    2:{ rewrite (unregisterHandler_unverified _ _ _ Hv) in Hrun.
        injection Hrun as <- <-. discriminate. }
    rewrite (unregisterHandler_verified _ _ _ _ Hv) in Hrun.
    fold token in Hrun.
    destruct (getDeviceByToken token w) as [w0 [found|e]] eqn:Hget.
    2:{ injection Hrun as <- <-. now destruct (is_ZodError e). }
    assert (Hun : match unregisterDevice token w0 with
                  | (w2, Returned _) =>
                      (w2, Returned (Response.mk 200 Unregistered))
                  | (w2, Thrown e) =>
                      (w2,
                       Returned
                         (if is_ZodError e
                          then Response.mk 400
                                 (InvalidRequest "Invalid request data" e)
                          else Response.mk 500
                                 (Failure "Failed to unregister device")))
                  end = (w1, Returned response) ->
                  exists b,
                    unregisterDevice token w0 = (w1, Returned b)
                    /\ response = Response.mk 200 Unregistered).
    { destruct (unregisterDevice token w0) as [w2 [b|e]].
      - intros [= <- <-]. now exists b.
      - intros [= <- <-]. now destruct (is_ZodError e). }
    destruct found as [device|].
    - destruct (String.eqb _ _).
      + destruct (Hun Hrun) as (b & H1 & H2). now exists w0, (Some device), b.
      + injection Hrun as <- <-. discriminate.
    - destruct (Hun Hrun) as (b & H1 & H2). now exists w0, None, b. }
  destruct Hdone as (w0 & found & b & Hget & Hun & ->).
  apply getDeviceByToken_inv in Hget. destruct Hget as [-> _].
  apply unregisterDevice_inv in Hun. destruct Hun as (Hdevs & Hmsgs & Hcalls).
  assert (Hoff : forall d,
             In d (devices w1) ->
             DeviceRegistration.expoPushToken d = token ->
             DeviceRegistration.enabled d = false).
  { rewrite Hdevs. intros d Hd Htoken. apply in_map_iff in Hd.
    destruct Hd as (d0 & Hd0 & _). unfold has_token in *.
    destruct (String.eqb (DeviceRegistration.expoPushToken d0) token) eqn:Heq.
    - now subst d.
    - subst d. apply String.eqb_neq in Heq. now contradiction Heq. }
  split; [reflexivity|].
  split; [rewrite Hcalls; cbn; now rewrite <- app_assoc|].
  split; [exact Hmsgs|]. split; [exact Hoff|].
  intros nextUserIds w2 devs Hres d Hd Htoken.
  apply resolveDevices_inv in Hres. destruct Hres as [_ ->].
  apply candidates_In in Hd. destruct Hd as (Hd & He & _).
  rewrite (Hoff d Hd Htoken) in He. discriminate.
Qed.

(** X25. A verified user who names the push token of a row that belongs to
    another user is answered 403, and the row stays as it is: the one call
    made is the read [getDeviceByToken] that found the row, and nothing is
    written. *)
Theorem device_of_another_user_is_not_unregistered
  authorization data user device w w0 :
  verifyAccessToken authorization w = (w, Returned (Some user)) ->
  getDeviceByToken (UnregisterRequest.expoPushToken data) w
  = (w0, Returned (Some device)) ->
  DeviceRegistration.userId device <> CarbscanUser.id user ->
  unregisterHandler authorization (Valid data) w
  = (w0,
     Returned
       (Response.mk 403
          (Failure "Forbidden - cannot unregister device for another user")))
  /\ calls w0
     = calls w ++ [GetDeviceByToken (UnregisterRequest.expoPushToken data)]
  /\ devices w0 = devices w
  /\ messages w0 = messages w.
Proof.
  intros Hv Hfind Hother. rewrite (unregisterHandler_verified _ _ _ _ Hv).
  rewrite Hfind. apply String.eqb_neq in Hother. rewrite Hother.
  apply getDeviceByToken_inv in Hfind. destruct Hfind as [-> _]. splits.
Qed.

(** X26. Without an [Authorization] header, or with one that does not start
    with ["Bearer "], a valid unregister request is answered 401 and changes
    nothing, whatever the identity service would answer. *)
Theorem unregister_without_bearer_header_is_answered_401
  authorization data w :
  match authorization with
  | Some header => String.prefix "Bearer " header = false
  | None => True
  end ->
  unregisterHandler authorization (Valid data) w
  = (w,
     Returned
       (Response.mk 401 (Failure "Unauthorized - valid access token required"))).
Proof.
  intros Hshape. apply unregisterHandler_unverified.
  now apply verifyAccessToken_without_bearer.
Qed.

End Dispatcher.

(** ** The properties at concrete worlds *)

Local Notation send :=
  (sendPushNotification Expo_isExpoPushToken
     Expo_pushNotificationChunkSizeLimit).
Local Notation sendStored :=
  (sendNotificationMessage Expo_isExpoPushToken
     Expo_pushNotificationChunkSizeLimit JSON_parse_literals).
Local Notation processPending :=
  (processPendingNotifications Expo_isExpoPushToken
     Expo_pushNotificationChunkSizeLimit JSON_parse_literals).
Local Notation messages_for ds :=
  (map (message_for "Hi" "Test" None) ds).

Example isExpoPushToken_examples :
  map Expo_isExpoPushToken
    ["ExponentPushToken[abc]"; "ExpoPushToken[x]"; "abc";
     "ExponentPushToken[abc"; "12345678-abcd-ABCD-0000-123456789012";
     "12345678-abcd-ABCD-0000-12345678901"]
  = [true; true; false; false; true; false].
Proof. reflexivity. Qed.

Example chunks_of_250_messages :
  map (@length _)
    (chunkPushNotifications Expo_pushNotificationChunkSizeLimit
       (messages_for (handsets "user-1" 250)))
  = [100; 100; 50].
Proof. vm_compute. reflexivity. Qed.

(** The example scenario of section 8: one success, one failure, the second
    handset disabled, the message [sent] with both counts. *)
Example example_scenario :
  let run := sendStored "m1" world_example in
  snd run
  = Returned (SendResult.mk 1 1 ["ExponentPushToken[1]: DeviceNotRegistered"])
  /\ map DeviceRegistration.enabled (devices (fst run)) = [true; false]
  /\ map DeviceRegistration.lastNotifiedAt (devices (fst run))
     = [Some 1001; None]
  /\ map DeviceRegistration.updatedAt (devices (fst run)) = [1002; 1003]
  /\ map NotificationMessage.status (messages (fst run)) = ["sent"]
  /\ map NotificationMessage.successCount (messages (fst run)) = [Some 1]
  /\ map NotificationMessage.failureCount (messages (fst run)) = [Some 1]
  /\ map NotificationMessage.updatedAt (messages (fst run)) = [1004]
  /\ map NotificationMessage.sentAt (messages (fst run)) = [Some 1005].
Proof. vm_compute. splits. Qed.

(** Three due messages, the second of which throws: it alone ends
    [failed]. *)
Example scheduler_isolation :
  let run := processPending world_three_due in
  snd run = Returned tt
  /\ map NotificationMessage.status (messages (fst run))
     = ["sent"; "failed"; "sent"].
Proof. vm_compute. splits. Qed.

(** A world whose database executes every query. *)
Lemma database_up_is_healthy w : database w = database_up -> healthy w.
Proof. intros H n _. now rewrite H. Qed.

Lemma empty_audience_returns_zero_result_witness :
  resolveDevices (Some ["user-1"]) world_without_devices
  = (after_calls [GetDevicesForUser "user-1"] world_without_devices,
     Returned [])
  /\ send "Hi" "Test" None (Some ["user-1"]) world_without_devices
     = (after_calls [GetDevicesForUser "user-1"] world_without_devices,
        Returned (SendResult.mk 0 0 ["No registered devices found"])).
Proof.
  assert (H : resolveDevices (Some ["user-1"]) world_without_devices
              = (after_calls [GetDevicesForUser "user-1"]
                   world_without_devices, Returned []))
    by (vm_compute; reflexivity).
  split; [exact H|].
  exact (proj1 (empty_audience_returns_zero_result
                  Expo_isExpoPushToken Expo_pushNotificationChunkSizeLimit
                  "Hi" "Test" None (Some ["user-1"])
                  world_without_devices _ H)).
Defined.

Lemma already_processed_message_is_rejected_witness :
  getNotificationMessage "m1" world_without_devices
  = (after_calls [GetNotificationMessage "m1"] world_without_devices,
     Returned (Some (stored_message "m1" "sent" None)))
  /\ NotificationMessage.status (stored_message "m1" "sent" None) <> "pending"
  /\ sendStored "m1" world_without_devices
     = (after_calls [GetNotificationMessage "m1"] world_without_devices,
        Returned (SendResult.mk 0 0 ["Message already sent"])).
Proof.
  assert (H1 : getNotificationMessage "m1" world_without_devices
               = (after_calls [GetNotificationMessage "m1"]
                    world_without_devices,
                  Returned (Some (stored_message "m1" "sent" None))))
    by (vm_compute; reflexivity).
  assert (H2 : NotificationMessage.status (stored_message "m1" "sent" None)
               <> "pending")
    by (simpl; discriminate).
  split; [exact H1|]. split; [exact H2|].
  exact (proj1 (already_processed_message_is_rejected
                  Expo_isExpoPushToken Expo_pushNotificationChunkSizeLimit
                  JSON_parse_literals "m1" world_without_devices _ _ H1 H2)).
Defined.

(** The worlds a send of a stored message goes through. *)
Local Notation after_read id w := (after_calls [GetNotificationMessage id] w).
Local Notation after_sending id w :=
  (fst (updateNotificationStatus id "sending" None None (after_read id w))).
Local Notation after_send id w :=
  (fst (send "Hi" "Test" None None (after_sending id w))).




Lemma counts_add_up_to_submitted_endpoints_witness :
  resolveDevices None world_mixed_tokens
  = (after_calls [GetEnabledDevices] world_mixed_tokens,
     Returned [handset "user-1" 0; stale_handset "user-1" 1;
               handset "user-1" 2])
  /\ filter (valid_token Expo_isExpoPushToken)
       [handset "user-1" 0; stale_handset "user-1" 1; handset "user-1" 2]
     = [handset "user-1" 0; handset "user-1" 2]
  /\ exists w1 r later,
       send "Hi" "Test" None None world_mixed_tokens = (w1, Returned r)
       /\ calls w1
          = [GetEnabledDevices;
             SendPushNotificationsAsync
               (messages_for [handset "user-1" 0; handset "user-1" 2])]
            ++ later
       /\ Forall (fun c => is_registry_write c = true) later
       /\ submitted w1 = 1
       /\ SendResult.successCount r + SendResult.failureCount r = 2.
Proof.
  assert (H1 : resolveDevices None world_mixed_tokens
               = (after_calls [GetEnabledDevices] world_mixed_tokens,
                  Returned [handset "user-1" 0; stale_handset "user-1" 1;
                            handset "user-1" 2]))
    by (vm_compute; reflexivity).
  assert (H2 : healthy (after_calls [GetEnabledDevices] world_mixed_tokens))
    by (apply database_up_is_healthy; reflexivity).
  assert (H3 : filter (valid_token Expo_isExpoPushToken)
                 [handset "user-1" 0; stale_handset "user-1" 1;
                  handset "user-1" 2]
               <> [])
    by (vm_compute; discriminate).
  assert (H4 : gateway_contract
                 (gateway (after_calls [GetEnabledDevices] world_mixed_tokens))
                 (submitted
                    (after_calls [GetEnabledDevices] world_mixed_tokens))
                 (chunkPushNotifications Expo_pushNotificationChunkSizeLimit
                    (map (message_for "Hi" "Test" None)
                       (filter (valid_token Expo_isExpoPushToken)
                          [handset "user-1" 0; stale_handset "user-1" 1;
                           handset "user-1" 2]))))
    by (vm_compute; splits).
  split; [exact H1|]. split; [vm_compute; reflexivity|].
  destruct (counts_add_up_to_submitted_endpoints
              Expo_isExpoPushToken Expo_pushNotificationChunkSizeLimit
              "Hi" "Test" None None world_mixed_tokens _ _ H1 H2 H3 H4)
    as (w1 & r & later & Hrun & _ & Hcalls & Hlater & Hsub & _ & _ & Hsum & _).
  exists w1, r, later. split; [exact Hrun|].
  split; [rewrite Hcalls; vm_compute; reflexivity|].
  split; [exact Hlater|].
  split; [rewrite Hsub; vm_compute; reflexivity|].
  rewrite Hsum. vm_compute. reflexivity.
Defined.

Lemma rejected_chunk_is_counted_and_run_continues_witness :
  resolveDevices None world_two_chunks
  = (after_calls [GetEnabledDevices] world_two_chunks,
     Returned (handsets "user-1" 101))
  /\ gateway world_two_chunks 0 = Rejects network_down
  /\ (exists later,
        calls (fst (send "Hi" "Test" None None world_two_chunks))
        = [GetEnabledDevices;
           SendPushNotificationsAsync
             (messages_for (handsets "user-1" 100));
           SendPushNotificationsAsync
             (messages_for [handset "user-1" 100])]
          ++ later)
  /\ exists r,
       snd (send "Hi" "Test" None None world_two_chunks) = Returned r
       /\ SendResult.failureCount r = 100
       /\ In "Error: network down" (SendResult.errors r).
Proof.
  assert (H1 : resolveDevices None world_two_chunks
               = (after_calls [GetEnabledDevices] world_two_chunks,
                  Returned (handsets "user-1" 101)))
    by (vm_compute; reflexivity).
  assert (H2 : buildMessages Expo_isExpoPushToken "Hi" "Test" None
                 (handsets "user-1" 101) [] []
               = (messages_for (handsets "user-1" 101),
                  handsets "user-1" 101))
    by (vm_compute; reflexivity).
  assert (H3 : messages_for (handsets "user-1" 101) <> [])
    by (vm_compute; discriminate).
  assert (H4 : healthy (after_calls [GetEnabledDevices] world_two_chunks))
    by (apply database_up_is_healthy; reflexivity).
  assert (H5 : gateway_contract
                 (gateway (after_calls [GetEnabledDevices] world_two_chunks))
                 (submitted (after_calls [GetEnabledDevices] world_two_chunks))
                 (chunkPushNotifications Expo_pushNotificationChunkSizeLimit
                    (messages_for (handsets "user-1" 101))))
    by (vm_compute; splits).
  split; [exact H1|]. split; [reflexivity|].
  destruct (rejected_chunk_is_counted_and_run_continues
              Expo_isExpoPushToken Expo_pushNotificationChunkSizeLimit
              "Hi" "Test" None None world_two_chunks _ _ _ _ H1 H2 H3)
    as [(later & Hcalls & _) Hreturns].
  split.
  - exists later. rewrite Hcalls. vm_compute. reflexivity.
  - destruct (Hreturns H4 H5) as (r & Hrun & Hcount & Herr).
    exists r. split; [exact Hrun|]. split.
    + rewrite Hcount. vm_compute. reflexivity.
    + apply (Herr 0 (messages_for (handsets "user-1" 100)) network_down);
        vm_compute; reflexivity.
Defined.

(** C1, at a failing input.  With 101 valid handsets the gateway receives
    two chunks.  Its first submission throws; its second returns one ok
    ticket, for the one message of the second chunk, addressed to handset
    100.  The run counts one success and credits it to handset 0, the first
    device of the chunk that failed: [updateDeviceLastNotified] is called
    with the id of handset 0 and never with that of handset 100, and it is
    handset 0 whose [lastNotifiedAt] is set. *)
Theorem later_chunk_ticket_is_matched_to_failed_chunk :
  let run := send "Hi" "Test" None None world_two_chunks in
  gateway world_two_chunks 0 = Rejects network_down
  /\ gateway world_two_chunks 1 = Resolves [SuccessTicket "ticket"]
  /\ snd run = Returned (SendResult.mk 1 100 ["Error: network down"])
  /\ calls (fst run)
     = [GetEnabledDevices;
        SendPushNotificationsAsync (messages_for (handsets "user-1" 100));
        SendPushNotificationsAsync (messages_for [handset "user-1" 100]);
        UpdateDeviceLastNotified (DeviceRegistration.id (handset "user-1" 0))]
  /\ ~ In (UpdateDeviceLastNotified
             (DeviceRegistration.id (handset "user-1" 100)))
          (calls (fst run))
  /\ map DeviceRegistration.lastNotifiedAt
       (filter (has_device_id (DeviceRegistration.id (handset "user-1" 0)))
          (devices (fst run)))
     = [Some 1000]
  /\ map DeviceRegistration.lastNotifiedAt
       (filter (has_device_id (DeviceRegistration.id (handset "user-1" 100)))
          (devices (fst run)))
     = [None].
Proof.
  vm_compute. splits.
  intros [H|[H|[H|[H|[]]]]]; discriminate.
Qed.

(** The same misalignment on an error ticket.  The second chunk's one
    ticket says that its recipient, handset 100, is no longer registered;
    the run reports the token of handset 0 and unregisters handset 0, a
    device of the chunk that failed, and handset 100 stays enabled. *)
Example later_chunk_unregistration_hits_failed_chunk :
  let run := send "Hi" "Test" None None world_two_chunks_unregistered in
  snd run
  = Returned
      (SendResult.mk 0 101
         ["Error: network down"; "ExponentPushToken[0]: DeviceNotRegistered"])
  /\ filter is_registry_write (calls (fst run))
     = [UnregisterDevice "ExponentPushToken[0]"]
  /\ map DeviceRegistration.enabled
       (filter (has_token "ExponentPushToken[0]") (devices (fst run)))
     = [false]
  /\ map DeviceRegistration.enabled
       (filter (has_token "ExponentPushToken[100]") (devices (fst run)))
     = [true].
Proof. vm_compute. splits. Qed.

(** C3, counterexample.  An error ticket without [details] raises the
    failure count and adds no error string. *)
Lemma error_ticket_without_reason_adds_no_error_string :
  gateway world_bare_error 0 = Resolves [ErrorTicket "failed" None]
  /\ snd (send "Hi" "Test" None None world_bare_error)
     = Returned (SendResult.mk 0 1 []).
Proof. vm_compute. splits. Qed.

Lemma error_ticket_with_reason_is_reported_witness :
  resolveDevices None world_example
  = (after_calls [GetEnabledDevices] world_example,
     Returned (handsets "user-1" 2))
  /\ gateway world_example 0 = Resolves [SuccessTicket "ticket"; unregistered]
  /\ exists w1 r new,
       send "Hi" "Test" None None world_example = (w1, Returned r)
       /\ calls w1 = calls world_example ++ new
       /\ SendResult.failureCount r = 1
       /\ SendResult.errors r = ["ExponentPushToken[1]: DeviceNotRegistered"]
       /\ filter is_unregister new = [UnregisterDevice "ExponentPushToken[1]"]
       /\ In (UnregisterDevice "ExponentPushToken[1]") new.
Proof.
  assert (H1 : resolveDevices None world_example
               = (after_calls [GetEnabledDevices] world_example,
                  Returned (handsets "user-1" 2)))
    by (vm_compute; reflexivity).
  assert (H2 : healthy (after_calls [GetEnabledDevices] world_example))
    by (apply database_up_is_healthy; reflexivity).
  assert (H3 : buildMessages Expo_isExpoPushToken "Hi" "Test" None
                 (handsets "user-1" 2) [] []
               = (messages_for (handsets "user-1" 2), handsets "user-1" 2))
    by (vm_compute; reflexivity).
  assert (H4 : messages_for (handsets "user-1" 2) <> [])
    by (simpl; discriminate).
  assert (H5 : all_resolve
                 (gateway (after_calls [GetEnabledDevices] world_example))
                 (submitted (after_calls [GetEnabledDevices] world_example))
                 (chunkPushNotifications Expo_pushNotificationChunkSizeLimit
                    (messages_for (handsets "user-1" 2))))
    by (vm_compute; exact I).
  assert (H6 : gateway_contract
                 (gateway (after_calls [GetEnabledDevices] world_example))
                 (submitted (after_calls [GetEnabledDevices] world_example))
                 (chunkPushNotifications Expo_pushNotificationChunkSizeLimit
                    (messages_for (handsets "user-1" 2))))
    by (vm_compute; splits).
  split; [exact H1|]. split; [reflexivity|].
  destruct (error_ticket_with_reason_is_reported
              Expo_isExpoPushToken Expo_pushNotificationChunkSizeLimit
              "Hi" "Test" None None world_example _ _ _ _
              H1 H2 H3 H4 H5 H6)
    as (w1 & r & new & Hrun & Hcalls & Hcount & Herrors & Hgone & Hreport).
  assert (Hone : "DeviceNotRegistered"%string <> EmptyString) by discriminate.
  assert (Hj : nth_error
                 (chunkPushNotifications Expo_pushNotificationChunkSizeLimit
                    (messages_for (handsets "user-1" 2))) 0
               = Some (messages_for (handsets "user-1" 2)))
    by (vm_compute; reflexivity).
  assert (Hg : gateway (after_calls [GetEnabledDevices] world_example)
                 (submitted (after_calls [GetEnabledDevices] world_example)
                  + 0)
               = Resolves [SuccessTicket "ticket"; unregistered])
    by (vm_compute; reflexivity).
  assert (Hk : nth_error (messages_for (handsets "user-1" 2)) 1
               = Some (message_for "Hi" "Test" None (handset "user-1" 1)))
    by (vm_compute; reflexivity).
  assert (Ht : nth_error [SuccessTicket "ticket"; unregistered] 1
               = Some (ErrorTicket
                         "not a registered push notification recipient"
                         (Some {| error := Some "DeviceNotRegistered" |})))
    by reflexivity.
  destruct (Hreport 0 1 _ _ _ _ _ Hj Hg Hk Ht) as [_ Hreason].
  destruct (Hreason "DeviceNotRegistered" eq_refl Hone) as [_ Hunregister].
  exists w1, r, new. split; [exact Hrun|]. split; [exact Hcalls|].
  split; [rewrite Hcount; vm_compute; reflexivity|].
  split; [rewrite Herrors; vm_compute; reflexivity|].
  split; [rewrite Hgone; vm_compute; reflexivity|].
  exact (Hunregister eq_refl).
Defined.

(** C2, counterexample.  A user id listed twice contributes its devices
    twice. *)
Lemma repeated_user_id_repeats_its_devices :
  snd (resolveDevices (Some ["user-1"; "user-1"]) world_bare_error)
  = Returned [handset "user-1" 0; handset "user-1" 0]
  /\ ~ NoDup [handset "user-1" 0; handset "user-1" 0].
Proof.
  split; [vm_compute; reflexivity|].
  intros H. inversion H as [|? ? Hnotin _]. apply Hnotin. now left.
Qed.

Lemma distinct_users_resolve_to_distinct_devices_witness :
  ["user-1"; "user-2"] <> []
  /\ NoDup ["user-1"; "user-2"]
  /\ NoDup (map DeviceRegistration.id (devices world_two_users))
  /\ exists w0 devs,
       resolveDevices (Some ["user-1"; "user-2"]) world_two_users
       = (w0, Returned devs)
       /\ devs = [handset "user-1" 0; handset "user-2" 1]
       /\ NoDup (map DeviceRegistration.id devs).
Proof.
  assert (H1 : ["user-1"; "user-2"] <> @nil string) by discriminate.
  assert (H2 : NoDup ["user-1"; "user-2"]).
  { repeat constructor; simpl; intros H;
      repeat (destruct H as [H|H]; [discriminate|]); exact H. }
  assert (H3 : NoDup (map DeviceRegistration.id (devices world_two_users))).
  { repeat constructor; simpl; intros H;
      repeat (destruct H as [H|H]; [discriminate|]); exact H. }
  assert (H4 : healthy world_two_users)
    by (apply database_up_is_healthy; reflexivity).
  split; [exact H1|]. split; [exact H2|]. split; [exact H3|].
  destruct (distinct_users_resolve_to_distinct_devices
              ["user-1"; "user-2"] world_two_users H1 H2 H3)
    as [_ Hreturns].
  destruct (Hreturns H4) as (w0 & devs & Hrun & Hdevs & Hnodup).
  exists w0, devs. split; [exact Hrun|]. split; [|exact Hnodup].
  rewrite Hdevs. vm_compute. reflexivity.
Defined.

(** The worlds of a sweep over [world_three_due]: after the read of the due
    messages, after the first message, after the attempt on the second. *)
Local Notation after_pending w := (fst (getPendingNotifications w)).
Local Notation after_first w :=
  (fst (forPending Expo_isExpoPushToken Expo_pushNotificationChunkSizeLimit
          JSON_parse_literals [stored_message "m1" "pending" None]
          (after_pending w))).
Local Notation after_attempt w := (fst (sendStored "m2" (after_first w))).

Lemma failed_attempt_is_marked_and_batch_continues_witness :
  getPendingNotifications world_three_due
  = (after_pending world_three_due, Returned (messages world_three_due))
  /\ snd (sendStored "m2" (after_first world_three_due))
     = Thrown (JsError.mk "SyntaxError" "{oops")
  /\ exists w1 new,
       processPending world_three_due = (w1, Returned tt)
       /\ calls w1 = calls (after_pending world_three_due) ++ new
       /\ In (GetNotificationMessage "m1") new
       /\ In (GetNotificationMessage "m2") new
       /\ In (GetNotificationMessage "m3") new
       /\ In (UpdateNotificationStatus "m2" "failed" None None) new.
Proof.
  assert (H1 : getPendingNotifications world_three_due
               = (after_pending world_three_due,
                  Returned (messages world_three_due)))
    by (vm_compute; reflexivity).
  assert (H2 : healthy (after_pending world_three_due))
    by (apply database_up_is_healthy; vm_compute; reflexivity).
  assert (H3 : messages world_three_due
               = [stored_message "m1" "pending" None]
                 ++ stored_message "m2" "pending" (Some "{oops")
                 :: [stored_message "m3" "pending" (Some "{}")])
    by reflexivity.
  assert (H4 : forPending Expo_isExpoPushToken
                 Expo_pushNotificationChunkSizeLimit JSON_parse_literals
                 [stored_message "m1" "pending" None]
                 (after_pending world_three_due)
               = (after_first world_three_due, Returned tt))
    by (vm_compute; reflexivity).
  assert (H5 : sendStored
                 (NotificationMessage.id
                    (stored_message "m2" "pending" (Some "{oops")))
                 (after_first world_three_due)
               = (after_attempt world_three_due,
                  Thrown (JsError.mk "SyntaxError" "{oops")))
    by (vm_compute; reflexivity).
  assert (H6 : updateNotificationStatus
                 (NotificationMessage.id
                    (stored_message "m2" "pending" (Some "{oops")))
                 "failed" None None (after_attempt world_three_due)
               = (fst (updateNotificationStatus "m2" "failed" None None
                         (after_attempt world_three_due)),
                  Returned tt))
    by (vm_compute; reflexivity).
  split; [exact H1|]. split; [vm_compute; reflexivity|].
  destruct (failed_attempt_is_marked_and_batch_continues
              Expo_isExpoPushToken Expo_pushNotificationChunkSizeLimit
              JSON_parse_literals world_three_due _ _ H1)
    as (w1 & out & new & Hrun & Hcalls & Hfail & Hall & _ & Hreturns).
  specialize (Hreturns H2). subst out. specialize (Hall eq_refl).
  exists w1, new. split; [exact Hrun|]. split; [exact Hcalls|].
  split; [apply (Hall (stored_message "m1" "pending" None)); now left|].
  split; [apply (Hall (stored_message "m2" "pending" (Some "{oops")));
          right; now left|].
  split; [apply (Hall (stored_message "m3" "pending" (Some "{}")));
          right; right; now left|].
  exact (proj1 (Hfail _ _ _ _ _ _ _ H3 H4 H5 H6)).
Defined.

(** C7, counterexample.  Two due messages and a database that rejects two
    queries in a row: the move of the first message to [sending], so that
    the attempt on it throws, and then the update to [failed].  Both
    messages are still [pending] when the sweep ends, the second has not
    been attempted, and the sweep throws the error of the database. *)
Lemma rejected_update_to_failed_ends_the_sweep :
  let run := processPending world_two_due_outage in
  snd (getPendingNotifications world_two_due_outage)
  = Returned [stored_message "m1" "pending" None;
              stored_message "m2" "pending" None]
  /\ snd (sendStored "m1" (after_pending world_two_due_outage))
     = Thrown connection_lost
  /\ snd run = Thrown connection_lost
  /\ calls (fst run)
     = [GetPendingNotifications;
        GetNotificationMessage "m1";
        UpdateNotificationStatus "m1" "sending" None None;
        UpdateNotificationStatus "m1" "failed" None None]
  /\ ~ In (GetNotificationMessage "m2") (calls (fst run))
  /\ map NotificationMessage.status (messages (fst run))
     = ["pending"; "pending"].
Proof.
  vm_compute. splits.
  intros [H|[H|[H|[H|[]]]]]; discriminate.
Qed.

(** ** The further properties at concrete worlds *)

Local Notation trigger :=
  (triggerHandler Expo_isExpoPushToken Expo_pushNotificationChunkSizeLimit
     JSON_parse_literals).

(** Section 8, invalid-token partitioning: only the two valid tokens are
    submitted, and the counts are those of the two submitted. *)
Example invalid_token_partitioning :
  let run := send "Hi" "Test" None None world_mixed_tokens in
  snd run = Returned (SendResult.mk 2 0 [])
  /\ calls (fst run)
     = [GetEnabledDevices;
        SendPushNotificationsAsync
          (messages_for [handset "user-1" 0; handset "user-1" 2]);
        UpdateDeviceLastNotified "dev-0";
        UpdateDeviceLastNotified "dev-2"].
Proof. vm_compute. splits. Qed.

(** Section 8, scheduled-message due check: a message scheduled for a later
    time is not among the due messages, and it is once the clock has
    reached that time. *)
Example scheduled_message_due_check :
  snd (getPendingNotifications world_scheduled)
  = Returned [stored_message "m1" "pending" None]
  /\ snd (getPendingNotifications
            (fst (getPendingNotifications
                    (fst (getPendingNotifications world_scheduled)))))
     = Returned [stored_message "m1" "pending" None;
                 scheduled_message "m2" 1002].
Proof. vm_compute. splits. Qed.

Lemma candidates_are_the_enabled_devices_of_the_audience_witness :
  resolveDevices (Some ["user-1"]) world_two_users
  = (after_calls [GetDevicesForUser "user-1"] world_two_users,
     Returned [handset "user-1" 0])
  /\ ~ In (handset "user-2" 1) [handset "user-1" 0].
Proof.
  assert (H : resolveDevices (Some ["user-1"]) world_two_users
              = (after_calls [GetDevicesForUser "user-1"] world_two_users,
                 Returned [handset "user-1" 0]))
    by (vm_compute; reflexivity).
  split; [exact H|]. intros Hin.
  apply (candidates_are_the_enabled_devices_of_the_audience
           (Some ["user-1"]) world_two_users _ _ H) in Hin.
  destruct Hin as (_ & _ & [Hu|[]]). discriminate.
Defined.

Lemma no_valid_token_counts_every_candidate_as_failed_witness :
  resolveDevices None world_stale_tokens
  = (after_calls [GetEnabledDevices] world_stale_tokens,
     Returned [stale_handset "user-1" 0; stale_handset "user-1" 1])
  /\ send "Hi" "Test" None None world_stale_tokens
     = (after_calls [GetEnabledDevices] world_stale_tokens,
        Returned (SendResult.mk 0 2 ["No valid push tokens found"])).
Proof.
  assert (H1 : resolveDevices None world_stale_tokens
               = (after_calls [GetEnabledDevices] world_stale_tokens,
                  Returned [stale_handset "user-1" 0;
                            stale_handset "user-1" 1]))
    by (vm_compute; reflexivity).
  assert (H2 : [stale_handset "user-1" 0; stale_handset "user-1" 1] <> [])
    by discriminate.
  assert (H3 : forall d,
             In d [stale_handset "user-1" 0; stale_handset "user-1" 1] ->
             Expo_isExpoPushToken (DeviceRegistration.expoPushToken d)
             = false)
    by (intros d [<-|[<-|[]]]; reflexivity).
  split; [exact H1|].
  exact (proj1 (no_valid_token_counts_every_candidate_as_failed
                  Expo_isExpoPushToken Expo_pushNotificationChunkSizeLimit
                  "Hi" "Test" None None world_stale_tokens _ _ H1 H2 H3)).
Defined.

Lemma gateway_receives_exactly_the_valid_candidates_witness :
  resolveDevices None world_mixed_tokens
  = (after_calls [GetEnabledDevices] world_mixed_tokens,
     Returned [handset "user-1" 0; stale_handset "user-1" 1;
               handset "user-1" 2])
  /\ submitted (fst (send "Hi" "Test" None None world_mixed_tokens)) = 1
  /\ exists later,
       calls (fst (send "Hi" "Test" None None world_mixed_tokens))
       = [GetEnabledDevices;
          SendPushNotificationsAsync
            (messages_for [handset "user-1" 0; handset "user-1" 2])]
         ++ later
       /\ Forall (fun c => is_registry_write c = true) later.
Proof.
  assert (H1 : resolveDevices None world_mixed_tokens
               = (after_calls [GetEnabledDevices] world_mixed_tokens,
                  Returned [handset "user-1" 0; stale_handset "user-1" 1;
                            handset "user-1" 2]))
    by (vm_compute; reflexivity).
  split; [exact H1|].
  destruct (gateway_receives_exactly_the_valid_candidates
              Expo_isExpoPushToken Expo_pushNotificationChunkSizeLimit
              "Hi" "Test" None None world_mixed_tokens _ _ H1)
    as (_ & Hsub & later & Hcalls & Hwrites).
  split; [rewrite Hsub; vm_compute; reflexivity|].
  exists later. split; [|exact Hwrites].
  rewrite Hcalls. vm_compute. reflexivity.
Defined.

Lemma ok_ticket_marks_the_device_of_its_message_witness :
  resolveDevices None world_example
  = (after_calls [GetEnabledDevices] world_example,
     Returned (handsets "user-1" 2))
  /\ gateway world_example 0 = Resolves [SuccessTicket "ticket"; unregistered]
  /\ exists w1 r new,
       send "Hi" "Test" None None world_example = (w1, Returned r)
       /\ calls w1 = calls world_example ++ new
       /\ SendResult.successCount r = 1
       /\ In (UpdateDeviceLastNotified "dev-0") new.
Proof.
  assert (H1 : resolveDevices None world_example
               = (after_calls [GetEnabledDevices] world_example,
                  Returned (handsets "user-1" 2)))
    by (vm_compute; reflexivity).
  assert (H2 : healthy (after_calls [GetEnabledDevices] world_example))
    by (apply database_up_is_healthy; reflexivity).
  assert (H3 : buildMessages Expo_isExpoPushToken "Hi" "Test" None
                 (handsets "user-1" 2) [] []
               = (messages_for (handsets "user-1" 2), handsets "user-1" 2))
    by (vm_compute; reflexivity).
  assert (H4 : messages_for (handsets "user-1" 2) <> [])
    by (simpl; discriminate).
  assert (H5 : all_resolve
                 (gateway (after_calls [GetEnabledDevices] world_example))
                 (submitted (after_calls [GetEnabledDevices] world_example))
                 (chunkPushNotifications Expo_pushNotificationChunkSizeLimit
                    (messages_for (handsets "user-1" 2))))
    by (vm_compute; exact I).
  assert (H6 : gateway_contract
                 (gateway (after_calls [GetEnabledDevices] world_example))
                 (submitted (after_calls [GetEnabledDevices] world_example))
                 (chunkPushNotifications Expo_pushNotificationChunkSizeLimit
                    (messages_for (handsets "user-1" 2))))
    by (vm_compute; splits).
  split; [exact H1|]. split; [reflexivity|].
  destruct (ok_ticket_marks_the_device_of_its_message
              Expo_isExpoPushToken Expo_pushNotificationChunkSizeLimit
              "Hi" "Test" None None world_example _ _ _ _
              H1 H2 H3 H4 H5 H6)
    as (w1 & r & new & Hrun & Hcalls & Hcount & Hmark).
  assert (Hj : nth_error
                 (chunkPushNotifications Expo_pushNotificationChunkSizeLimit
                    (messages_for (handsets "user-1" 2))) 0
               = Some (messages_for (handsets "user-1" 2)))
    by (vm_compute; reflexivity).
  assert (Hg : gateway (after_calls [GetEnabledDevices] world_example)
                 (submitted (after_calls [GetEnabledDevices] world_example)
                  + 0)
               = Resolves [SuccessTicket "ticket"; unregistered])
    by (vm_compute; reflexivity).
  assert (Hk : nth_error (messages_for (handsets "user-1" 2)) 0
               = Some (message_for "Hi" "Test" None (handset "user-1" 0)))
    by (vm_compute; reflexivity).
  assert (Ht : nth_error [SuccessTicket "ticket"; unregistered] 0
               = Some (SuccessTicket "ticket"))
    by reflexivity.
  destruct (Hmark 0 0 _ _ _ _ Hj Hg Hk Ht) as (d & Hd & Htoken & Hcall).
  exists w1, r, new. split; [exact Hrun|]. split; [exact Hcalls|].
  split; [rewrite Hcount; vm_compute; reflexivity|].
  destruct Hd as [<-|[<-|[]]]; [exact Hcall|discriminate].
Defined.

Lemma registry_writes_match_the_counts_witness :
  resolveDevices None world_two_chunks
  = (after_calls [GetEnabledDevices] world_two_chunks,
     Returned (handsets "user-1" 101))
  /\ exists w1 r new,
       send "Hi" "Test" None None world_two_chunks = (w1, Returned r)
       /\ calls w1 = calls world_two_chunks ++ new
       /\ length (filter is_notified new) = SendResult.successCount r
       /\ length (filter is_unregister new) <= SendResult.failureCount r
       /\ submitted w1 = 2.
Proof.
  assert (H1 : resolveDevices None world_two_chunks
               = (after_calls [GetEnabledDevices] world_two_chunks,
                  Returned (handsets "user-1" 101)))
    by (vm_compute; reflexivity).
  assert (H2 : healthy (after_calls [GetEnabledDevices] world_two_chunks))
    by (apply database_up_is_healthy; reflexivity).
  assert (H3 : buildMessages Expo_isExpoPushToken "Hi" "Test" None
                 (handsets "user-1" 101) [] []
               = (messages_for (handsets "user-1" 101),
                  handsets "user-1" 101))
    by (vm_compute; reflexivity).
  assert (H4 : messages_for (handsets "user-1" 101) <> [])
    by (vm_compute; discriminate).
  assert (H5 : gateway_contract
                 (gateway (after_calls [GetEnabledDevices] world_two_chunks))
                 (submitted (after_calls [GetEnabledDevices] world_two_chunks))
                 (chunkPushNotifications Expo_pushNotificationChunkSizeLimit
                    (messages_for (handsets "user-1" 101))))
    by (vm_compute; splits).
  split; [exact H1|].
  destruct (registry_writes_match_the_counts
              Expo_isExpoPushToken Expo_pushNotificationChunkSizeLimit
              "Hi" "Test" None None world_two_chunks _ _ _ _
              H1 H2 H3 H4 H5)
    as (w1 & r & new & Hrun & Hcalls & Hnotified & Hgone & Hsub).
  exists w1, r, new. split; [exact Hrun|]. split; [exact Hcalls|].
  split; [exact Hnotified|]. split; [exact Hgone|].
  rewrite Hsub. vm_compute. reflexivity.
Defined.

Lemma unregistered_token_is_never_a_candidate_again_witness :
  healthy world_example
  /\ In (UnregisterDevice "ExponentPushToken[1]")
        (calls (fst (send "Hi" "Test" None None world_example)))
  /\ forall nextUserIds w2 devs,
       resolveDevices nextUserIds
         (fst (send "Hi" "Test" None None world_example))
       = (w2, Returned devs) ->
       forall d, In d devs ->
                 DeviceRegistration.expoPushToken d <> "ExponentPushToken[1]".
Proof.
  assert (H1 : healthy world_example)
    by (apply database_up_is_healthy; reflexivity).
  assert (H2 : calls (fst (send "Hi" "Test" None None world_example))
               = calls world_example
                 ++ [GetEnabledDevices;
                     SendPushNotificationsAsync
                       (messages_for (handsets "user-1" 2));
                     UpdateDeviceLastNotified "dev-0";
                     UnregisterDevice "ExponentPushToken[1]"])
    by (vm_compute; reflexivity).
  split; [exact H1|].
  split; [rewrite H2; right; right; right; now left|].
  destruct (unregistered_token_is_never_a_candidate_again
              Expo_isExpoPushToken Expo_pushNotificationChunkSizeLimit
              "Hi" "Test" None None world_example H1)
    as (new & Hcalls & Hgone).
  rewrite H2 in Hcalls. apply app_inv_head in Hcalls. subst new.
  apply (Hgone "ExponentPushToken[1]").
  right; right; right; now left.
Defined.

Lemma device_reported_unregistered_is_not_selected_again_witness :
  resolveDevices None world_example
  = (after_calls [GetEnabledDevices] world_example,
     Returned (handsets "user-1" 2))
  /\ gateway world_example 0 = Resolves [SuccessTicket "ticket"; unregistered]
  /\ exists w1 r,
       send "Hi" "Test" None None world_example = (w1, Returned r)
       /\ forall w2 next,
            resolveDevices None w1 = (w2, Returned next) ->
            forall d, In d next ->
                      DeviceRegistration.expoPushToken d
                      <> "ExponentPushToken[1]".
Proof.
  assert (H1 : resolveDevices None world_example
               = (after_calls [GetEnabledDevices] world_example,
                  Returned (handsets "user-1" 2)))
    by (vm_compute; reflexivity).
  assert (H2 : healthy (after_calls [GetEnabledDevices] world_example))
    by (apply database_up_is_healthy; reflexivity).
  assert (H3 : buildMessages Expo_isExpoPushToken "Hi" "Test" None
                 (handsets "user-1" 2) [] []
               = (messages_for (handsets "user-1" 2), handsets "user-1" 2))
    by (vm_compute; reflexivity).
  assert (H4 : messages_for (handsets "user-1" 2) <> [])
    by (simpl; discriminate).
  assert (H5 : all_resolve
                 (gateway (after_calls [GetEnabledDevices] world_example))
                 (submitted (after_calls [GetEnabledDevices] world_example))
                 (chunkPushNotifications Expo_pushNotificationChunkSizeLimit
                    (messages_for (handsets "user-1" 2))))
    by (vm_compute; exact I).
  assert (H6 : gateway_contract
                 (gateway (after_calls [GetEnabledDevices] world_example))
                 (submitted (after_calls [GetEnabledDevices] world_example))
                 (chunkPushNotifications Expo_pushNotificationChunkSizeLimit
                    (messages_for (handsets "user-1" 2))))
    by (vm_compute; splits).
  split; [exact H1|]. split; [reflexivity|].
  destruct (device_reported_unregistered_is_not_selected_again
              Expo_isExpoPushToken Expo_pushNotificationChunkSizeLimit
              "Hi" "Test" None None world_example _ _ _ _
              H1 H2 H3 H4 H5 H6)
    as (w1 & r & Hrun & Hgone).
  assert (Hj : nth_error
                 (chunkPushNotifications Expo_pushNotificationChunkSizeLimit
                    (messages_for (handsets "user-1" 2))) 0
               = Some (messages_for (handsets "user-1" 2)))
    by (vm_compute; reflexivity).
  assert (Hg : gateway (after_calls [GetEnabledDevices] world_example)
                 (submitted (after_calls [GetEnabledDevices] world_example)
                  + 0)
               = Resolves [SuccessTicket "ticket"; unregistered])
    by (vm_compute; reflexivity).
  assert (Hk : nth_error (messages_for (handsets "user-1" 2)) 1
               = Some (message_for "Hi" "Test" None (handset "user-1" 1)))
    by (vm_compute; reflexivity).
  assert (Ht : nth_error [SuccessTicket "ticket"; unregistered] 1
               = Some (ErrorTicket
                         "not a registered push notification recipient"
                         (Some {| error := Some "DeviceNotRegistered" |})))
    by reflexivity.
  exists w1, r. split; [exact Hrun|].
  intros w2 next.
  exact (Hgone 0 1 _ _ _ _ _ Hj Hg Hk Ht eq_refl None w2 next).
Defined.

Lemma unknown_message_is_reported_not_found_witness :
  getNotificationMessage "m9" world_without_devices
  = (after_calls [GetNotificationMessage "m9"] world_without_devices,
     Returned None)
  /\ sendStored "m9" world_without_devices
     = (after_calls [GetNotificationMessage "m9"] world_without_devices,
        Returned (SendResult.mk 0 0 ["Notification message not found"])).
Proof.
  assert (H : getNotificationMessage "m9" world_without_devices
              = (after_calls [GetNotificationMessage "m9"]
                   world_without_devices, Returned None))
    by (vm_compute; reflexivity).
  split; [exact H|].
  exact (proj1 (unknown_message_is_reported_not_found
                  Expo_isExpoPushToken Expo_pushNotificationChunkSizeLimit
                  JSON_parse_literals "m9" world_without_devices _ H)).
Defined.

Lemma second_send_of_a_message_sends_nothing_witness :
  healthy world_example
  /\ lookup_message "m1" world_example
     = Some (stored_message "m1" "pending" None)
  /\ sendStored "m1" (fst (sendStored "m1" world_example))
     = (after_calls [GetNotificationMessage "m1"]
          (fst (sendStored "m1" world_example)),
        Returned (SendResult.mk 0 0 ["Message already sent"])).
Proof.
  assert (H1 : healthy world_example)
    by (apply database_up_is_healthy; reflexivity).
  assert (H2 : lookup_message "m1" world_example
               = Some (stored_message "m1" "pending" None))
    by reflexivity.
  assert (H3 : NotificationMessage.status
                 (stored_message "m1" "pending" None) = "pending")
    by reflexivity.
  assert (H4 : snd (sendStored "m1" world_example)
               = Returned
                   (SendResult.mk 1 1
                      ["ExponentPushToken[1]: DeviceNotRegistered"]))
    by (vm_compute; reflexivity).
  split; [exact H1|]. split; [exact H2|].
  destruct (second_send_of_a_message_sends_nothing
              Expo_isExpoPushToken Expo_pushNotificationChunkSizeLimit
              JSON_parse_literals "m1" world_example _ H1 H2 H3)
    as (status & Hrun & Hstatus).
  rewrite H4 in Hstatus. subst status. exact Hrun.
Defined.

Lemma stored_send_marks_sending_then_addresses_all_enabled_devices_witness :
  healthy world_example
  /\ lookup_message "m1" world_example
     = Some (stored_message "m1" "pending" None)
  /\ exists writes closing,
       calls (fst (sendStored "m1" world_example))
       = [GetNotificationMessage "m1";
          UpdateNotificationStatus "m1" "sending" None None;
          GetEnabledDevices;
          SendPushNotificationsAsync (messages_for (handsets "user-1" 2))]
         ++ writes ++ closing
       /\ Forall (fun c => is_registry_write c = true) writes
       /\ closing = [UpdateNotificationStatus "m1" "sent" (Some 1) (Some 1)].
Proof.
  assert (H1 : healthy world_example)
    by (apply database_up_is_healthy; reflexivity).
  assert (H2 : lookup_message "m1" world_example
               = Some (stored_message "m1" "pending" None))
    by reflexivity.
  assert (H3 : NotificationMessage.status
                 (stored_message "m1" "pending" None) = "pending")
    by reflexivity.
  assert (H4 : forall w0,
             parse_data JSON_parse_literals
               (NotificationMessage.data (stored_message "m1" "pending" None))
               w0
             = (w0, Returned None))
    by (intros w0; reflexivity).
  assert (H5 : snd (sendStored "m1" world_example)
               = Returned
                   (SendResult.mk 1 1
                      ["ExponentPushToken[1]: DeviceNotRegistered"]))
    by (vm_compute; reflexivity).
  split; [exact H1|]. split; [exact H2|].
  destruct (stored_send_marks_sending_then_addresses_all_enabled_devices
              Expo_isExpoPushToken Expo_pushNotificationChunkSizeLimit
              JSON_parse_literals "m1" world_example _ None H1 H2 H3 H4)
    as (writes & closing & Hcalls & Hwrites & Hclosing).
  rewrite H5 in Hclosing.
  exists writes, closing. split; [|split; [exact Hwrites|exact Hclosing]].
  rewrite Hcalls. vm_compute. reflexivity.
Defined.

Lemma scheduled_messages_have_unique_ids :
  NoDup (map NotificationMessage.id (messages world_scheduled)).
Proof.
  repeat constructor; simpl; intros H;
    repeat (destruct H as [H|H]; [discriminate|]); exact H.
Qed.

Lemma sweep_settles_due_messages_and_no_other_witness :
  healthy world_scheduled
  /\ NoDup (map NotificationMessage.id (messages world_scheduled))
  /\ (exists r1,
        In r1 (messages (fst (processPending world_scheduled)))
        /\ NotificationMessage.id r1 = "m1"
        /\ (NotificationMessage.status r1 = "sent"
            \/ NotificationMessage.status r1 = "failed"))
  /\ In (scheduled_message "m2" 1002)
        (messages (fst (processPending world_scheduled))).
Proof.
  assert (H1 : healthy world_scheduled)
    by (apply database_up_is_healthy; reflexivity).
  pose proof scheduled_messages_have_unique_ids as H2.
  split; [exact H1|]. split; [exact H2|].
  destruct (sweep_settles_due_messages_and_no_other
              Expo_isExpoPushToken Expo_pushNotificationChunkSizeLimit
              JSON_parse_literals world_scheduled H1 H2)
    as (Hsettled & _ & _).
  split.
  - assert (Hin : In (stored_message "m1" "pending" None)
                     (messages world_scheduled))
      by (now left).
    assert (Hdue : is_due (clock world_scheduled (ticks world_scheduled))
                     (stored_message "m1" "pending" None) = true)
      by reflexivity.
    pose proof (Hsettled _ Hin) as Hrow. rewrite Hdue in Hrow.
    destruct Hrow as (r1 & Hr1 & Hid & _ & Hstatus).
    exists r1. split; [exact Hr1|]. split; [exact Hid|exact Hstatus].
  - assert (Hin : In (scheduled_message "m2" 1002)
                     (messages world_scheduled))
      by (right; now left).
    assert (Hdue : is_due (clock world_scheduled (ticks world_scheduled))
                     (scheduled_message "m2" 1002) = false)
      by reflexivity.
    pose proof (Hsettled _ Hin) as Hrow. rewrite Hdue in Hrow.
    exact Hrow.
Defined.

Lemma second_sweep_finds_nothing_due_witness :
  healthy world_scheduled
  /\ NoDup (map NotificationMessage.id (messages world_scheduled))
  /\ snd (getPendingNotifications (fst (processPending world_scheduled)))
     = Returned [scheduled_message "m2" 1002]
  /\ forall w2 pending,
       getPendingNotifications (fst (processPending world_scheduled))
       = (w2, Returned pending) ->
       forall m, In m pending ->
                 In m (messages world_scheduled)
                 /\ exists at_,
                      NotificationMessage.scheduledFor m = Some at_
                      /\ 1000 < at_.
Proof.
  assert (H1 : healthy world_scheduled)
    by (apply database_up_is_healthy; reflexivity).
  pose proof scheduled_messages_have_unique_ids as H2.
  split; [exact H1|]. split; [exact H2|].
  split; [vm_compute; reflexivity|].
  intros w2 pending Hget m Hm.
  destruct (second_sweep_finds_nothing_due
              Expo_isExpoPushToken Expo_pushNotificationChunkSizeLimit
              JSON_parse_literals world_scheduled H1 H2 w2 pending Hget m Hm)
    as (Hin & at_ & Hat & Hlt & _).
  split; [exact Hin|]. exists at_. split; [exact Hat|exact Hlt].
Defined.

Lemma refused_request_changes_nothing_witness :
  requireAdminAuth (Some "secret") (Some "guess")
  = Refuse (Response.mk 401
              (Failure "Unauthorized - invalid or missing admin API key"))
  /\ postTrigger Expo_isExpoPushToken Expo_pushNotificationChunkSizeLimit
       JSON_parse_literals (Some "secret") (Some "guess")
       (Valid (trigger_by_id "m1")) world_example
     = (world_example,
        Returned
          (Response.mk 401
             (Failure "Unauthorized - invalid or missing admin API key")))
  /\ postProcessPending Expo_isExpoPushToken
       Expo_pushNotificationChunkSizeLimit JSON_parse_literals
       (Some "secret") (Some "guess") world_example
     = (world_example,
        Returned
          (Response.mk 401
             (Failure "Unauthorized - invalid or missing admin API key"))).
Proof.
  assert (H : requireAdminAuth (Some "secret") (Some "guess")
              = Refuse (Response.mk 401
                          (Failure
                             "Unauthorized - invalid or missing admin API key")))
    by reflexivity.
  split; [exact H|].
  destruct (refused_request_changes_nothing
              Expo_isExpoPushToken Expo_pushNotificationChunkSizeLimit
              JSON_parse_literals (Some "secret") (Some "guess")
              (Valid (trigger_by_id "m1")) world_example _ H)
    as (Htrigger & Hsweep & _).
  split; [exact Htrigger|exact Hsweep].
Defined.


Lemma trigger_without_target_is_answered_400_witness :
  when_truthy (TriggerRequest.messageId trigger_title_only) = None
  /\ when_truthy (TriggerRequest.body trigger_title_only) = None
  /\ trigger (Valid trigger_title_only) world_example
     = (world_example,
        Returned
          (Response.mk 400
             (Failure "Either messageId or title/body required"))).
Proof.
  assert (H1 : when_truthy (TriggerRequest.messageId trigger_title_only)
               = None)
    by reflexivity.
  assert (H2 : when_truthy (TriggerRequest.body trigger_title_only) = None)
    by reflexivity.
  split; [exact H1|]. split; [exact H2|].
  exact (trigger_without_target_is_answered_400
           Expo_isExpoPushToken Expo_pushNotificationChunkSizeLimit
           JSON_parse_literals trigger_title_only world_example
           H1 (or_intror H2)).
Defined.

Lemma trigger_of_unsendable_message_is_answered_200_witness :
  getNotificationMessage "m1" world_without_devices
  = (after_read "m1" world_without_devices,
     Returned (Some (stored_message "m1" "sent" None)))
  /\ trigger (Valid (trigger_by_id "m1")) world_without_devices
     = (after_read "m1" world_without_devices,
        Returned
          (Response.mk 200
             (TriggerResult 0 0 (Some ["Message already sent"])))).
Proof.
  assert (H1 : when_truthy (TriggerRequest.messageId (trigger_by_id "m1"))
               = Some "m1")
    by reflexivity.
  assert (H2 : getNotificationMessage "m1" world_without_devices
               = (after_read "m1" world_without_devices,
                  Returned (Some (stored_message "m1" "sent" None))))
    by (vm_compute; reflexivity).
  assert (H3 : NotificationMessage.status (stored_message "m1" "sent" None)
               <> "pending")
    by (simpl; discriminate).
  split; [exact H2|].
  exact (proj1 (trigger_of_unsendable_message_is_answered_200
                  Expo_isExpoPushToken Expo_pushNotificationChunkSizeLimit
                  JSON_parse_literals (trigger_by_id "m1") "m1"
                  world_without_devices _
                  (Some (stored_message "m1" "sent" None)) H1 H2 H3)).
Defined.

Lemma failed_trigger_leaves_message_sending_witness :
  healthy world_bad_payload
  /\ lookup_message "m1" world_bad_payload
     = Some (stored_message "m1" "pending" (Some "{oops"))
  /\ exists e,
       sendStored "m1" world_bad_payload
       = (after_sending "m1" world_bad_payload, Thrown e)
       /\ trigger (Valid (trigger_by_id "m1")) world_bad_payload
          = (after_sending "m1" world_bad_payload,
             Returned
               (Response.mk 500 (Failure "Failed to trigger notification")))
       /\ trigger (Valid (trigger_by_id "m1"))
            (after_sending "m1" world_bad_payload)
          = (after_read "m1" (after_sending "m1" world_bad_payload),
             Returned
               (Response.mk 200
                  (TriggerResult 0 0 (Some ["Message already sending"])))).
Proof.
  assert (H1 : healthy world_bad_payload)
    by (apply database_up_is_healthy; reflexivity).
  assert (H2 : when_truthy (TriggerRequest.messageId (trigger_by_id "m1"))
               = Some "m1")
    by reflexivity.
  assert (H3 : lookup_message "m1" world_bad_payload
               = Some (stored_message "m1" "pending" (Some "{oops")))
    by reflexivity.
  assert (H4 : NotificationMessage.status
                 (stored_message "m1" "pending" (Some "{oops")) = "pending")
    by reflexivity.
  assert (H5 : sendStored "m1" world_bad_payload
               = (after_sending "m1" world_bad_payload,
                  Thrown (JsError.mk "SyntaxError" "{oops")))
    by (vm_compute; reflexivity).
  split; [exact H1|]. split; [exact H3|].
  destruct (failed_trigger_leaves_message_sending
              Expo_isExpoPushToken Expo_pushNotificationChunkSizeLimit
              JSON_parse_literals (trigger_by_id "m1") "m1"
              world_bad_payload _ _ _ H1 H2 H3 H4 H5)
    as (H500 & _ & Hretry).
  eexists. split; [exact H5|]. split; [exact H500|exact Hretry].
Defined.

Lemma sweep_route_reports_processed_unless_storage_fails_witness :
  requireAdminAuth (Some "secret") (Some "secret") = Next
  /\ healthy world_three_due
  /\ postProcessPending Expo_isExpoPushToken
       Expo_pushNotificationChunkSizeLimit JSON_parse_literals
       (Some "secret") (Some "secret") world_three_due
     = (fst (processPending world_three_due),
        Returned (Response.mk 200 Processed)).
Proof.
  assert (H1 : requireAdminAuth (Some "secret") (Some "secret") = Next)
    by reflexivity.
  assert (H2 : healthy world_three_due)
    by (apply database_up_is_healthy; reflexivity).
  split; [exact H1|]. split; [exact H2|].
  destruct (sweep_route_reports_processed_unless_storage_fails
              Expo_isExpoPushToken Expo_pushNotificationChunkSizeLimit
              JSON_parse_literals (Some "secret") (Some "secret")
              world_three_due H1)
    as (response & Hrun & Hok & _).
  rewrite <- (Hok H2). exact Hrun.
Defined.

(** The process-pending route over a database that rejects the update to
    [failed]: the sweep throws and the route answers 500. *)
Example sweep_route_reports_storage_failure :
  snd (postProcessPending Expo_isExpoPushToken
         Expo_pushNotificationChunkSizeLimit JSON_parse_literals
         (Some "secret") (Some "secret") world_two_due_outage)
  = Returned
      (Response.mk 500 (Failure "Failed to process pending notifications")).
Proof. vm_compute. reflexivity. Qed.

(** The worlds of an unregister request for the first handset. *)
Local Notation after_lookup token w :=
  (fst (getDeviceByToken token w)).
Local Notation after_unregister token w :=
  (fst (unregisterDevice token (after_lookup token w))).

Lemma unregistered_device_leaves_every_audience_witness :
  unregisterHandler identity_of_user_1 (Some "Bearer token-1")
    (Valid (UnregisterRequest.mk "ExponentPushToken[0]")) world_two_users
  = (after_unregister "ExponentPushToken[0]" world_two_users,
     Returned (Response.mk 200 Unregistered))
  /\ calls (after_unregister "ExponentPushToken[0]" world_two_users)
     = [GetDeviceByToken "ExponentPushToken[0]";
        UnregisterDevice "ExponentPushToken[0]"]
  /\ map DeviceRegistration.enabled
       (devices (after_unregister "ExponentPushToken[0]" world_two_users))
     = [false; true]
  /\ forall nextUserIds w2 devs,
       resolveDevices nextUserIds
         (after_unregister "ExponentPushToken[0]" world_two_users)
       = (w2, Returned devs) ->
       forall d, In d devs ->
                 DeviceRegistration.expoPushToken d <> "ExponentPushToken[0]".
Proof.
  assert (H1 : unregisterHandler identity_of_user_1 (Some "Bearer token-1")
                 (Valid (UnregisterRequest.mk "ExponentPushToken[0]"))
                 world_two_users
               = (after_unregister "ExponentPushToken[0]" world_two_users,
                  Returned (Response.mk 200 Unregistered)))
    by (vm_compute; reflexivity).
  assert (H2 : Response.status (Response.mk 200 Unregistered) = 200)
    by reflexivity.
  destruct (unregistered_device_leaves_every_audience
              identity_of_user_1 (Some "Bearer token-1")
              (UnregisterRequest.mk "ExponentPushToken[0]")
              world_two_users _ _ H1 H2)
    as (_ & Hcalls & _ & _ & Hgone).
  split; [exact H1|]. split; [exact Hcalls|].
  split; [vm_compute; reflexivity|exact Hgone].
Defined.

Lemma device_of_another_user_is_not_unregistered_witness :
  verifyAccessToken identity_of_user_1 (Some "Bearer token-1") world_two_users
  = (world_two_users, Returned (Some user_1))
  /\ getDeviceByToken "ExponentPushToken[1]" world_two_users
     = (after_calls [GetDeviceByToken "ExponentPushToken[1]"] world_two_users,
        Returned (Some (handset "user-2" 1)))
  /\ DeviceRegistration.userId (handset "user-2" 1) <> CarbscanUser.id user_1
  /\ unregisterHandler identity_of_user_1 (Some "Bearer token-1")
       (Valid (UnregisterRequest.mk "ExponentPushToken[1]")) world_two_users
     = (after_calls [GetDeviceByToken "ExponentPushToken[1]"] world_two_users,
        Returned
          (Response.mk 403
             (Failure
                "Forbidden - cannot unregister device for another user"))).
Proof.
  assert (H1 : verifyAccessToken identity_of_user_1 (Some "Bearer token-1")
                 world_two_users
               = (world_two_users, Returned (Some user_1)))
    by (vm_compute; reflexivity).
  assert (H2 : getDeviceByToken
                 (UnregisterRequest.expoPushToken
                    (UnregisterRequest.mk "ExponentPushToken[1]"))
                 world_two_users
               = (after_calls [GetDeviceByToken "ExponentPushToken[1]"]
                    world_two_users,
                  Returned (Some (handset "user-2" 1))))
    by (vm_compute; reflexivity).
  assert (H3 : DeviceRegistration.userId (handset "user-2" 1)
               <> CarbscanUser.id user_1)
    by (simpl; discriminate).
  split; [exact H1|]. split; [exact H2|]. split; [exact H3|].
  exact (proj1 (device_of_another_user_is_not_unregistered
                  identity_of_user_1 (Some "Bearer token-1")
                  (UnregisterRequest.mk "ExponentPushToken[1]") user_1
                  (handset "user-2" 1) world_two_users _ H1 H2 H3)).
Defined.

Lemma unregister_without_bearer_header_is_answered_401_witness :
  String.prefix "Bearer " "Basic token-1" = false
  /\ unregisterHandler identity_of_user_1 (Some "Basic token-1")
       (Valid (UnregisterRequest.mk "ExponentPushToken[0]")) world_two_users
     = (world_two_users,
        Returned
          (Response.mk 401
             (Failure "Unauthorized - valid access token required"))).
Proof.
  assert (H : String.prefix "Bearer " "Basic token-1" = false) by reflexivity.
  split; [exact H|].
  exact (unregister_without_bearer_header_is_answered_401
           identity_of_user_1 (Some "Basic token-1")
           (UnregisterRequest.mk "ExponentPushToken[0]") world_two_users H).
Defined.
